(** * medigram-pipeline: channel ingestion and partitioned storage

    A shallow embedding of the Telegram client service
    ([app/services/telegram/client.py]), the scraper
    ([app/services/scrapers/telegram_scraper.py]) and the data lake manager
    ([app/services/scrapers/data_lake_manager.py]), with the properties the
    specification states about them.

    Conventions of the embedding:
    - Python values are [pyval]; a [dict] is an association list in insertion
      order, as Python iterates it.
    - A function that can raise returns a [result]; functions that touch the
      disk, the clock or the logger thread a [world] and keep the effects made
      before an exception, as Python does.
    - [exn] stands for instances of Python's [Exception]; interrupts
      ([KeyboardInterrupt], [CancelledError]) are outside the model.
    - [print] calls are not modelled. *)

From Stdlib Require Import ZArith Lia Ascii String List Sorted.
From stdpp Require Import base option list strings pretty gmap.

Local Open Scope string_scope.
Local Open Scope list_scope.
Local Open Scope Z_scope.

(** ** Exceptions and fallible results *)

Inductive exn :=
  | FloodWaitError (seconds : Z) (msg : string)
  | ChannelPrivateError (msg : string)
  | ChatAdminRequiredError (msg : string)
  | PyError (cls : string) (msg : string).

(** [str(e)] *)
Definition exn_str (e : exn) : string :=
  match e with
  | FloodWaitError _ msg => msg
  | ChannelPrivateError msg => msg
  | ChatAdminRequiredError msg => msg
  | PyError _ msg => msg
  end.

Inductive result (A : Type) :=
  | Return (a : A)
  | Raise (e : exn).
Arguments Return {A} a.
Arguments Raise {A} e.

Definition is_Return {A} (r : result A) : bool :=
  match r with Return _ => true | Raise _ => false end.

(** ** [datetime]: a naive datetime is a proleptic Gregorian ordinal (as
    [date.toordinal()]) and a time of day. *)

Record datetime := mk_dt {
  dt_ordinal : Z;
  dt_hour : Z;
  dt_minute : Z;
  dt_second : Z;
  dt_microsecond : Z
}.

#[global] Instance datetime_eq_dec : EqDecision datetime.
Proof. solve_decision. Defined.

Definition _is_leap (year : Z) : bool :=
  (year mod 4 =? 0) && (negb (year mod 100 =? 0) || (year mod 400 =? 0)).

Definition _DAYS_IN_MONTH (month : Z) : Z :=
  match month with
  | 1 => 31 | 2 => 28 | 3 => 31 | 4 => 30 | 5 => 31 | 6 => 30
  | 7 => 31 | 8 => 31 | 9 => 30 | 10 => 31 | 11 => 30 | 12 => 31
  | _ => 0
  end.

Definition _DAYS_BEFORE_MONTH (month : Z) : Z :=
  match month with
  | 1 => 0 | 2 => 31 | 3 => 59 | 4 => 90 | 5 => 120 | 6 => 151
  | 7 => 181 | 8 => 212 | 9 => 243 | 10 => 273 | 11 => 304 | 12 => 334
  | _ => 0
  end.

Definition _days_in_month (year month : Z) : Z :=
  if (month =? 2) && _is_leap year then 29 else _DAYS_IN_MONTH month.

Definition _days_before_year (year : Z) : Z :=
  let y := year - 1 in
  y * 365 + y / 4 - y / 100 + y / 400.

Definition _days_before_month (year month : Z) : Z :=
  _DAYS_BEFORE_MONTH month + (if (2 <? month) && _is_leap year then 1 else 0).

Definition _ymd2ord (year month day : Z) : Z :=
  _days_before_year year + _days_before_month year month + day.

Definition _ord2ymd (n0 : Z) : Z * Z * Z :=
  let n := n0 - 1 in
  let n400 := n / 146097 in
  let n := n mod 146097 in
  let year := n400 * 400 + 1 in
  let n100 := n / 36524 in
  let n := n mod 36524 in
  let n4 := n / 1461 in
  let n := n mod 1461 in
  let n1 := n / 365 in
  let n := n mod 365 in
  let year := year + n100 * 100 + n4 * 4 + n1 in
  if (n1 =? 4) || (n100 =? 4) then (year - 1, 12, 31)
  else
    let leapyear := (n1 =? 3) && (negb (n4 =? 24) || (n100 =? 3)) in
    let month := Z.shiftr (n + 50) 5 in
    let preceding :=
      _DAYS_BEFORE_MONTH month + (if (2 <? month) && leapyear then 1 else 0) in
    if n <? preceding then
      let month := month - 1 in
      let preceding :=
        preceding - (_DAYS_IN_MONTH month
                     + (if (month =? 2) && leapyear then 1 else 0)) in
      (year, month, n - preceding + 1)
    else (year, month, n - preceding + 1).

(** [datetime(year, month, day, hour, minute, second, microsecond)] *)
Definition datetime_of (year month day hour minute second microsecond : Z)
  : datetime :=
  mk_dt (_ymd2ord year month day) hour minute second microsecond.

(** Decimal rendering of a non-negative field, zero-padded to [width]. *)
Fixpoint zfill_go (pad : nat) (s : string) : string :=
  match pad with
  | O => s
  | S p => String "0" (zfill_go p s)
  end.

Definition zfill (width : nat) (n : Z) : string :=
  let s := pretty n in
  zfill_go (width - String.length s) s.

(** [d.strftime("%Y-%m-%d")] *)
Definition strftime_date (d : datetime) : string :=
  let '(y, m, dd) := _ord2ymd (dt_ordinal d) in
  zfill 4 y +:+ "-" +:+ zfill 2 m +:+ "-" +:+ zfill 2 dd.

(** [d.strftime("%Y%m%d_%H%M%S")] *)
Definition strftime_stamp (d : datetime) : string :=
  let '(y, m, dd) := _ord2ymd (dt_ordinal d) in
  zfill 4 y +:+ zfill 2 m +:+ zfill 2 dd +:+ "_"
    +:+ zfill 2 (dt_hour d) +:+ zfill 2 (dt_minute d) +:+ zfill 2 (dt_second d).

(** [d.isoformat()] *)
Definition isoformat (d : datetime) : string :=
  strftime_date d +:+ "T" +:+ zfill 2 (dt_hour d) +:+ ":"
    +:+ zfill 2 (dt_minute d) +:+ ":" +:+ zfill 2 (dt_second d)
    +:+ (if dt_microsecond d =? 0 then ""
         else "." +:+ zfill 6 (dt_microsecond d)).

(** Comparison of naive datetimes, [a < b]. *)
Definition time_of_day (d : datetime) : Z :=
  ((dt_hour d * 60 + dt_minute d) * 60 + dt_second d) * 1000000
  + dt_microsecond d.

Definition datetime_ltb (a b : datetime) : bool :=
  (dt_ordinal a <? dt_ordinal b)
  || ((dt_ordinal a =? dt_ordinal b) && (time_of_day a <? time_of_day b)).

(** [d - timedelta(days=days)].  Dates are not bounded to the years 1..9999
    here, so the subtraction never overflows. *)
Definition datetime_sub_days (d : datetime) (days : Z) : datetime :=
  mk_dt (dt_ordinal d - days) (dt_hour d) (dt_minute d) (dt_second d)
    (dt_microsecond d).

(** *** [datetime.strptime(s, "%Y-%m-%d")] *)

Definition digit_of (c : ascii) : option Z :=
  let n := Z.of_N (N_of_ascii c) in
  if (48 <=? n) && (n <=? 57) then Some (n - 48) else None.

Definition strptime_error (s : string) : exn :=
  PyError "ValueError"
    ("time data '" +:+ s +:+ "' does not match format '%Y-%m-%d'").

(** The directive [%Y]: exactly four digits. *)
Definition parse_Y (s : list ascii) : option (Z * list ascii) :=
  match s with
  | a :: b :: c :: d :: rest =>
      match digit_of a, digit_of b, digit_of c, digit_of d with
      | Some a, Some b, Some c, Some d =>
          Some (((a * 10 + b) * 10 + c) * 10 + d, rest)
      | _, _, _, _ => None
      end
  | _ => None
  end.

(** The directive [%m]: [1[0-2]|0[1-9]|[1-9]]. *)
Definition parse_m (s : list ascii) : option (Z * list ascii) :=
  match s with
  | a :: rest =>
      match digit_of a with
      | Some x =>
          match rest with
          | b :: rest' =>
              match digit_of b with
              | Some y =>
                  if ((x =? 1) && (y <=? 2)) || ((x =? 0) && (1 <=? y))
                  then Some (x * 10 + y, rest')
                  else if 1 <=? x then Some (x, rest) else None
              | None => if 1 <=? x then Some (x, rest) else None
              end
          | [] => if 1 <=? x then Some (x, rest) else None
          end
      | None => None
      end
  | [] => None
  end.

(** The directive [%d]: [3[01]|[12]\d|0[1-9]|[1-9]| [1-9]]. *)
Definition parse_d (s : list ascii) : option (Z * list ascii) :=
  match s with
  | a :: rest =>
      match digit_of a with
      | Some x =>
          match rest with
          | b :: rest' =>
              match digit_of b with
              | Some y =>
                  if ((x =? 3) && (y <=? 1)) || (x =? 1) || (x =? 2)
                     || ((x =? 0) && (1 <=? y))
                  then Some (x * 10 + y, rest')
                  else if 1 <=? x then Some (x, rest) else None
              | None => if 1 <=? x then Some (x, rest) else None
              end
          | [] => if 1 <=? x then Some (x, rest) else None
          end
      | None =>
          if Ascii.eqb a " " then
            match rest with
            | b :: rest' =>
                match digit_of b with
                | Some y => if 1 <=? y then Some (y, rest') else None
                | None => None
                end
            | [] => None
            end
          else None
      end
  | [] => None
  end.

Definition expect_dash (s : list ascii) : option (list ascii) :=
  match s with
  | c :: rest => if Ascii.eqb c "-" then Some rest else None
  | [] => None
  end.

Definition strptime_date (s : string) : result datetime :=
  match
    '(y, r) ← parse_Y (list_ascii_of_string s);
    r ← expect_dash r;
    '(m, r) ← parse_m r;
    r ← expect_dash r;
    '(d, r) ← parse_d r;
    Some (y, m, d, r)
  with
  | None => Raise (strptime_error s)
  | Some (y, m, d, c :: r) =>
      Raise (PyError "ValueError"
               ("unconverted data remains: " +:+ string_of_list_ascii (c :: r)))
  | Some (y, m, d, []) =>
      if y =? 0 then Raise (PyError "ValueError" "year 0 is out of range")
      else if d <=? _days_in_month y m
      then Return (datetime_of y m d 0 0 0 0)
      else Raise (PyError "ValueError" "day is out of range for month")
  end.

(** ** Python values *)

#[warnings="-register-all"]
Inductive pyval :=
  | PNone
  | PBool (b : bool)
  | PInt (n : Z)
  | PStr (s : string)
  | PDatetime (d : datetime)
  | PList (l : list pyval)
  | PDict (kv : list (string * pyval)).

(** A [dict] with string keys, in insertion order. *)
Abbreviation dict := (list (string * pyval)).

(** [d.get(k)] as an option, [k in d], [d[k] = v] *)
Fixpoint dict_get (k : string) (d : dict) : option pyval :=
  match d with
  | [] => None
  | (k', v) :: d' => if String.eqb k k' then Some v else dict_get k d'
  end.

Definition dict_mem (k : string) (d : dict) : bool :=
  match dict_get k d with Some _ => true | None => false end.

Fixpoint dict_set (k : string) (v : pyval) (d : dict) : dict :=
  match d with
  | [] => [(k, v)]
  | (k', v') :: d' =>
      if String.eqb k k' then (k, v) :: d' else (k', v') :: dict_set k v d'
  end.

(** [d.get(k, default)] *)
Definition dict_get_default (k : string) (default : pyval) (d : dict) : pyval :=
  match dict_get k d with Some v => v | None => default end.

(** Truth value of a Python object. *)
Definition py_truthy (v : pyval) : bool :=
  match v with
  | PNone => false
  | PBool b => b
  | PInt n => negb (n =? 0)
  | PStr s => negb (String.eqb s "")
  | PDatetime _ => true
  | PList l => match l with [] => false | _ => true end
  | PDict kv => match kv with [] => false | _ => true end
  end.

(** What [json.dump] accepts: everything but a [datetime]. *)
Fixpoint json_serializable (v : pyval) : bool :=
  match v with
  | PDatetime _ => false
  | PList l => forallb json_serializable l
  | PDict kv => forallb (fun e => json_serializable (snd e)) kv
  | _ => true
  end.

(** ** The disk, the clock and the logger *)

(** A path is the list of its components below the root of the file system. *)
Abbreviation path := (list string).

Inductive file :=
  | JsonText (doc : pyval)      (* written by [open(p, 'w')] and [json.dump] *)
  | GzipJsonText (doc : pyval)  (* written by [gzip.open(p, 'wt')] and [json.dump] *)
  | Garbage.                    (* anything [json.load] rejects *)

Inductive node :=
  | Dir
  | File (f : file).

Inductive event :=
  | LogScrapingStart (channel operation : string)
  | LogScrapingSuccess (channel : string) (message_count image_count : Z)
  | LogScrapingError (channel : string) (error : exn) (operation : string)
  | LogRateLimit (channel : string) (retry_after : Z)
  | LogDataSaved (channel : string) (file_path : string) (record_count : Z)
  | UpdateChannelMetrics (channel : string) (message_count image_count : Z)
  | Sleep (milliseconds : Z)
  | Mkdir (p : path)
  | WriteFile (p : path) (f : file)
  | Rmtree (p : path).

(** [w_clock n] is what the [n]-th call of [datetime.now()] returns;
    [w_denied p] holds when the operating system refuses to create, write or
    remove [p]; [w_events] lists, oldest first, what the program did. *)
Record world := mk_world {
  w_clock : nat → datetime;
  w_tick : nat;
  w_fs : gmap path node;
  w_denied : path → bool;
  w_events : list event
}.

(** Computations that read and change the world and may raise. *)
Definition M (A : Type) : Type := world → result A * world.

Definition ret {A} (a : A) : M A := fun w => (Return a, w).
Definition raise {A} (e : exn) : M A := fun w => (Raise e, w).
Definition bind {A B} (m : M A) (k : A → M B) : M B :=
  fun w =>
    match m w with
    | (Return a, w') => k a w'
    | (Raise e, w') => (Raise e, w')
    end.
(** [try: m  except Exception as e: h e] *)
Definition try_except {A} (m : M A) (h : exn → M A) : M A :=
  fun w =>
    match m w with
    | (Return a, w') => (Return a, w')
    | (Raise e, w') => h e w'
    end.
Definition lift {A} (r : result A) : M A := fun w => (r, w).

Declare Scope py_scope.
Delimit Scope py_scope with py.
Notation "x <- m ;; k" := (bind m (fun x => k))
  (at level 100, m at next level, k at level 200, right associativity)
  : py_scope.
Notation "m ;;; k" := (bind m (fun _ => k))
  (at level 100, k at level 200, right associativity) : py_scope.
Local Open Scope py_scope.

Definition emit (e : event) : M unit :=
  fun w => (Return tt,
            mk_world (w_clock w) (w_tick w) (w_fs w) (w_denied w)
              (w_events w ++ [e])).

(** [datetime.now()] *)
Definition now : M datetime :=
  fun w => (Return (w_clock w (w_tick w)),
            mk_world (w_clock w) (S (w_tick w)) (w_fs w) (w_denied w)
              (w_events w)).

Definition set_fs (fs : gmap path node) : M unit :=
  fun w => (Return tt,
            mk_world (w_clock w) (w_tick w) fs (w_denied w) (w_events w)).

Definition get_world : M world := fun w => (Return w, w).

Definition os_error (p : path) : exn :=
  PyError "OSError" ("[Errno 13] Permission denied: '" +:+ String.concat "/" p +:+ "'").

(** All the non-empty prefixes of a path, shortest first. *)
Fixpoint ancestors (p : path) : list path :=
  match p with
  | [] => []
  | c :: p' => [c] :: map (cons c) (ancestors p')
  end.

Definition make_dirs (ps : list path) (fs : gmap path node) : gmap path node :=
  fold_left (fun fs d => match fs !! d with
                         | None => <[d := Dir]> fs
                         | Some _ => fs
                         end) ps fs.

Definition is_file (fs : gmap path node) (p : path) : bool :=
  match fs !! p with Some (File _) => true | _ => false end.

(** [p.mkdir(parents=True, exist_ok=True)]: a regular file where a directory
    is wanted raises [FileExistsError]. *)
Definition mkdir_p (p : path) : M unit :=
  w <- get_world ;;
  if w_denied w p then raise (os_error p)
  else if existsb (is_file (w_fs w)) (ancestors p) then
    raise (PyError "FileExistsError" ("[Errno 17] File exists: '" +:+ String.concat "/" p +:+ "'"))
  else set_fs (make_dirs (ancestors p) (w_fs w)) ;;; emit (Mkdir p).

(** [p.exists()] *)
Definition path_exists (p : path) (fs : gmap path node) : bool :=
  match fs !! p with Some _ => true | None => false end.

(** [with open(p, 'w') as f: json.dump(doc, f, ...)]; with [gz] the file is
    opened by [gzip.open(p, 'wt')].  A document [json.dump] cannot encode
    leaves a truncated file behind. *)
Definition write_json (gz : bool) (p : path) (doc : pyval) : M unit :=
  w <- get_world ;;
  if w_denied w p then raise (os_error p)
  else if json_serializable doc then
    let f := if gz then GzipJsonText doc else JsonText doc in
    set_fs (<[p := File f]> (w_fs w)) ;;; emit (WriteFile p f)
  else
    set_fs (<[p := File Garbage]> (w_fs w)) ;;; emit (WriteFile p Garbage) ;;;
    raise (PyError "TypeError" "Object of type datetime is not JSON serializable").

(** [with open(p, 'r') as f: json.load(f)] *)
Definition read_json (p : path) (fs : gmap path node) : result pyval :=
  match fs !! p with
  | Some (File (JsonText doc)) => Return doc
  | Some (File _) => Raise (PyError "JSONDecodeError" "Expecting value")
  | Some Dir => Raise (PyError "IsADirectoryError" "Is a directory")
  | None => Raise (PyError "FileNotFoundError" "No such file or directory")
  end.

(** [shutil.rmtree(p)] *)
Definition rmtree (p : path) : M unit :=
  w <- get_world ;;
  if w_denied w p then raise (os_error p)
  else
    set_fs (filter (fun e => negb (bool_decide (p `prefix_of` fst e))) (w_fs w)) ;;;
    emit (Rmtree p).

(** The names of the entries of directory [d], as [d.glob("*")] lists them. *)
Definition listdir (d : path) (fs : gmap path node) : list string :=
  omap (fun e => match list.last (fst e) with
                 | Some name => if bool_decide (fst e = d ++ [name])
                                then Some name else None
                 | None => None
                 end) (map_to_list fs).

Definition path_str (p : path) : string := String.concat "/" p.

Definition len {A} (l : list A) : Z := Z.of_nat (length l).

(** ** [TelegramClientService] (app/services/telegram/client.py) *)

(** What [client.get_entity] returns; an absent attribute is [None]. *)
Record entity := mk_entity {
  e_id : Z;
  e_title : option string;
  e_username : option string;
  e_participants_count : option Z;
  e_about : option string;
  e_date : option datetime;
  e_verified : bool;
  e_scam : bool;
  e_fake : bool
}.

(** One element delivered by [client.iter_messages]: [None], or a message
    together with what [_process_message] returns for it (the record, or
    [None] when processing raised; [_process_message] and [_download_media]
    catch every exception themselves). *)
Inductive tg_item :=
  | NoneMessage
  | Message (processed : option dict).

(** What the platform does during one call of [scrape_messages] and the calls
    it makes to itself: the items delivered before the iteration ends, or
    before it raises [e]; [retry] is what happens in the call made after a
    [FloodWaitError]. *)
Inductive script :=
  | Ends (items : list tg_item)
  | Raises (items : list tg_item) (e : exn) (retry : script).

Record telegram := mk_telegram {
  tg_start : option exn;        (* what [client.start] raises, if anything *)
  tg_disconnect : option exn;   (* what [client.disconnect] raises, if anything *)
  tg_get_entity : string → result entity;
  tg_iter_messages : string → script
}.

Definition opt_str (o : option string) : pyval :=
  match o with Some s => PStr s | None => PNone end.
Definition opt_int (o : option Z) : pyval :=
  match o with Some n => PInt n | None => PNone end.
Definition opt_datetime (o : option datetime) : pyval :=
  match o with Some d => PDatetime d | None => PNone end.

Definition connect (tg : telegram) : M unit :=
  try_except
    (match tg_start tg with
     | Some e => raise e
     | None => emit (LogScrapingStart "telegram_client" "connection")
     end)
    (fun e => emit (LogScrapingError "telegram_client" e "connection") ;;;
              raise e).

Definition disconnect (tg : telegram) : M unit :=
  match tg_disconnect tg with
  | Some e => raise e
  | None => emit (LogScrapingStart "telegram_client" "disconnection")
  end.

(** [async with TelegramClientService() as client: body] *)
Definition async_with_client {A} (tg : telegram) (body : M A) : M A :=
  connect tg ;;;
  fun w =>
    let '(r, w1) := body w in
    match disconnect tg w1 with
    | (Return _, w2) => (r, w2)
    | (Raise e, w2) => (Raise e, w2)
    end.

(** The dict [get_channel_info] builds from the entity. *)
Definition channel_info_of (e : entity) : dict :=
  [("id", PInt (e_id e)); ("title", opt_str (e_title e));
   ("username", opt_str (e_username e));
   ("participants_count", opt_int (e_participants_count e));
   ("description", opt_str (e_about e));
   ("created_at", opt_datetime (e_date e));
   ("verified", PBool (e_verified e)); ("scam", PBool (e_scam e));
   ("fake", PBool (e_fake e))].

Definition get_channel_info (tg : telegram) (channel_username : string)
  : M (option dict) :=
  try_except
    (entity <- lift (tg_get_entity tg channel_username) ;;
     ret (Some (channel_info_of entity)))
    (fun e => emit (LogScrapingError channel_username e "get_channel_info") ;;;
              ret None).

(** An asynchronous generator, unrolled: what it yields and what it does in
    between, and the exception that ends it, if any. *)
Inductive gen_step :=
  | Yield (d : dict)
  | Effect (e : event).

Definition has_image (d : dict) : bool :=
  py_truthy (dict_get_default "has_image" PNone d).

(** The body of the [async for] over [iter_messages], with its counters. *)
Fixpoint iterate (items : list tg_item) (message_count image_count : Z)
  : list gen_step * (Z * Z) :=
  match items with
  | [] => ([], (message_count, image_count))
  | NoneMessage :: rest => iterate rest message_count image_count
  | Message None :: rest =>
      let '(steps, counts) := iterate rest message_count image_count in
      (Effect (Sleep 100) :: steps, counts)
  | Message (Some message_data) :: rest =>
      let message_count := message_count + 1 in
      let image_count :=
        if has_image message_data then image_count + 1 else image_count in
      let '(steps, counts) := iterate rest message_count image_count in
      (Yield message_data :: Effect (Sleep 100) :: steps, counts)
  end.

Fixpoint scrape_messages (channel_username : string) (limit : Z)
    (offset_date : option datetime) (platform : script)
  : list gen_step * option exn :=
  let start := Effect (LogScrapingStart channel_username "message_scraping") in
  match platform with
  | Ends items =>
      let '(steps, (message_count, image_count)) := iterate items 0 0 in
      (start :: steps
         ++ [Effect (LogScrapingSuccess channel_username message_count image_count);
             Effect (UpdateChannelMetrics channel_username message_count image_count)],
       None)
  | Raises items e retry =>
      let '(steps, _) := iterate items 0 0 in
      match e with
      | FloodWaitError seconds _ =>
          let '(again, ending) :=
            scrape_messages channel_username limit offset_date retry in
          (start :: steps
             ++ Effect (LogRateLimit channel_username seconds)
             :: Effect (Sleep (seconds * 1000)) :: again,
           ending)
      | ChannelPrivateError _ | ChatAdminRequiredError _ =>
          (start :: steps
             ++ [Effect (LogScrapingError channel_username e "access_denied")],
           Some e)
      | PyError _ _ =>
          (start :: steps
             ++ [Effect (LogScrapingError channel_username e "message_scraping")],
           Some e)
      end
  end.

(** The records a consumer of the generator receives, in order. *)
Definition yielded (steps : list gen_step) : list dict :=
  omap (fun s => match s with Yield d => Some d | Effect _ => None end) steps.

(** The pauses a consumer of the generator observes, in order. *)
Definition pauses (steps : list gen_step) : list Z :=
  omap (fun s => match s with Effect (Sleep ms) => Some ms | _ => None end) steps.

(** The records among the delivered items, in order: what an uninterrupted
    iteration yields. *)
Definition records (items : list tg_item) : list dict :=
  omap (fun i => match i with Message (Some d) => Some d | _ => None end) items.

(** ** [TelegramScraper] (app/services/scrapers/telegram_scraper.py) *)

Record TelegramScraper := mk_scraper {
  channels : list string;
  scraper_data_dir : path
}.

(** [TelegramScraper.__init__] for a given [settings.storage.data_dir]. *)
Definition TelegramScraper_init (data_dir : path) : TelegramScraper :=
  mk_scraper ["chemed"; "lobelia4cosmetics"; "tikvahpharma"] data_dir.

Definition raw_messages_dir (self : TelegramScraper) : path :=
  scraper_data_dir self ++ ["raw"; "telegram_messages"].

Definition batch_filename (timestamp : string) (count : nat) : string :=
  "messages_" +:+ timestamp +:+ "_" +:+ pretty count +:+ ".json".

Definition _save_messages_batch (channel_username : string)
    (messages : list dict) (channel_dir : path) : M unit :=
  try_except
    (t <- now ;;
     let filename := batch_filename (strftime_stamp t) (length messages) in
     let file_path := channel_dir ++ [filename] in
     write_json false file_path (PList (map PDict messages)) ;;;
     emit (LogDataSaved channel_username (path_str file_path) (len messages)))
    (fun e => emit (LogScrapingError channel_username e "batch_save")).

(** The body of the [async for] over [client.scrape_messages]: the state is
    the batch in memory and the two counters. *)
Fixpoint consume (channel_username : string) (channel_dir : path)
    (steps : list gen_step) (messages : list dict)
    (message_count image_count : Z) : M (list dict * Z * Z) :=
  match steps with
  | [] => ret (messages, message_count, image_count)
  | Effect e :: rest =>
      emit e ;;;
      consume channel_username channel_dir rest messages message_count
        image_count
  | Yield message_data :: rest =>
      let messages := messages ++ [message_data] in
      let message_count := message_count + 1 in
      let image_count :=
        if has_image message_data then image_count + 1 else image_count in
      if 100 <=? len messages then
        _save_messages_batch channel_username messages channel_dir ;;;
        consume channel_username channel_dir rest [] message_count image_count
      else
        consume channel_username channel_dir rest messages message_count
          image_count
  end.

(** Lines 114-132 of [_scrape_channel]: scrape the messages, saving them in
    batches, then save what remains. *)
Definition scrape_loop (channel_username : string) (channel_dir : path)
    (stream : list gen_step * option exn) : M (Z * Z) :=
  state <- consume channel_username channel_dir (fst stream) [] 0 0 ;;
  let '(messages, message_count, image_count) := state in
  match snd stream with
  | Some e => raise e
  | None =>
      (match messages with
       | [] => ret tt
       | _ => _save_messages_batch channel_username messages channel_dir
       end) ;;;
      ret (message_count, image_count)
  end.

Definition error_result (text : string) : dict := [("error", PStr text)].

Definition _scrape_channel (self : TelegramScraper) (client : telegram)
    (channel_username : string) (limit : Z) (offset_date : option datetime)
  : M dict :=
  try_except
    (channel_info <- get_channel_info client channel_username ;;
     match channel_info with
     | None => ret (error_result "Could not get channel info")
     | Some channel_info =>
         t <- now ;;
         let date_str := strftime_date t in
         let channel_dir := raw_messages_dir self ++ [date_str; channel_username] in
         mkdir_p channel_dir ;;;
         counts <-
           scrape_loop channel_username channel_dir
             (scrape_messages channel_username limit offset_date
                (tg_iter_messages client channel_username)) ;;
         let '(message_count, image_count) := counts in
         scraped_at <- now ;;
         let metadata :=
           [("channel_info", PDict channel_info);
            ("scraping_info",
             PDict [("scraped_at", PStr (isoformat scraped_at));
                    ("messages_scraped", PInt message_count);
                    ("images_scraped", PInt image_count);
                    ("limit", PInt limit);
                    ("offset_date",
                     match offset_date with
                     | Some d => PStr (isoformat d)
                     | None => PNone
                     end)])] in
         write_json false (channel_dir ++ ["metadata.json"]) (PDict metadata) ;;;
         emit (LogDataSaved channel_username (path_str channel_dir) message_count) ;;;
         ret [("success", PBool true);
              ("channel_info", PDict channel_info);
              ("messages_scraped", PInt message_count);
              ("images_scraped", PInt image_count);
              ("data_path", PStr (path_str channel_dir))]
     end)
    (fun e =>
       emit (LogScrapingError channel_username e "channel_scraping") ;;;
       ret (error_result (exn_str e))).

(** [datetime.now() - timedelta(days=days_back) if days_back > 0 else None] *)
Definition offset_date_of (days_back : Z) : M (option datetime) :=
  if 0 <? days_back then
    t <- now ;; ret (Some (datetime_sub_days t days_back))
  else ret None.

Definition scrape_single_channel (self : TelegramScraper) (client : telegram)
    (channel_username : string) (limit days_back : Z) : M dict :=
  offset_date <- offset_date_of days_back ;;
  async_with_client client
    (_scrape_channel self client channel_username limit offset_date).

(** [x += y] on two counters of a report. *)
Definition py_add (total : Z) (v : pyval) : result Z :=
  match v with
  | PInt n => Return (total + n)
  | PBool b => Return (total + (if b then 1 else 0))
  | _ => Raise (PyError "TypeError" "unsupported operand type(s) for +=")
  end.

(** [result.get(k)] on an entry of [results]. *)
Definition result_get (k : string) (v : pyval) : result (option pyval) :=
  match v with
  | PDict d => Return (dict_get k d)
  | _ => Raise (PyError "AttributeError" "object has no attribute 'get'")
  end.

Record tally := mk_tally {
  successful_channels : Z;
  failed_channels : Z;
  total_messages : Z;
  total_images : Z
}.

(** The loop of [_generate_scraping_report] over [results.items()]. *)
Fixpoint tally_results (items : dict) (t : tally) : result tally :=
  match items with
  | [] => Return t
  | (channel, res) :: rest =>
      match result_get "success" res with
      | Raise e => Raise e
      | Return success =>
          if py_truthy (default PNone success) then
            match result_get "messages_scraped" res with
            | Raise e => Raise e
            | Return m =>
                match py_add (total_messages t) (default (PInt 0) m) with
                | Raise e => Raise e
                | Return tm =>
                    match result_get "images_scraped" res with
                    | Raise e => Raise e
                    | Return i =>
                        match py_add (total_images t) (default (PInt 0) i) with
                        | Raise e => Raise e
                        | Return ti =>
                            tally_results rest
                              (mk_tally (successful_channels t + 1)
                                 (failed_channels t) tm ti)
                        end
                    end
                end
            end
          else
            tally_results rest
              (mk_tally (successful_channels t) (failed_channels t + 1)
                 (total_messages t) (total_images t))
      end
  end.

Definition report_doc (generated_at : string) (total_channels : Z)
    (t : tally) (results : dict) : pyval :=
  PDict [("scraping_report",
          PDict [("generated_at", PStr generated_at);
                 ("total_channels", PInt total_channels);
                 ("successful_channels", PInt (successful_channels t));
                 ("failed_channels", PInt (failed_channels t));
                 ("total_messages", PInt (total_messages t));
                 ("total_images", PInt (total_images t));
                 ("channel_results", PDict results)])].

Definition report_path (self : TelegramScraper) (timestamp : string) : path :=
  scraper_data_dir self ++ ["raw"; "scraping_report_" +:+ timestamp +:+ ".json"].

Definition _generate_scraping_report (self : TelegramScraper) (results : dict)
  : M unit :=
  generated_at <- now ;;
  t <- lift (tally_results results (mk_tally 0 0 0 0)) ;;
  stamp <- now ;;
  write_json false (report_path self (strftime_stamp stamp))
    (report_doc (isoformat generated_at) (len (channels self)) t results).

(** The [for channel in self.channels] loop of [scrape_all_channels]. *)
Fixpoint scrape_channels (self : TelegramScraper) (client : telegram)
    (todo : list string) (limit_per_channel : Z)
    (offset_date : option datetime) (results : dict) : M dict :=
  match todo with
  | [] => ret results
  | channel :: rest =>
      results <-
        try_except
          (channel_results <-
             _scrape_channel self client channel limit_per_channel offset_date ;;
           let results := dict_set channel (PDict channel_results) results in
           emit (Sleep 2000) ;;;
           ret results)
          (fun e =>
             emit (LogScrapingError channel e "channel_scraping") ;;;
             ret (dict_set channel (PDict (error_result (exn_str e))) results)) ;;
      scrape_channels self client rest limit_per_channel offset_date results
  end.

Definition scrape_all_channels (self : TelegramScraper) (client : telegram)
    (limit_per_channel days_back : Z) : M dict :=
  emit (LogScrapingStart "all_channels" "batch_scraping") ;;;
  offset_date <- offset_date_of days_back ;;
  results <-
    async_with_client client
      (scrape_channels self client (channels self) limit_per_channel
         offset_date []) ;;
  _generate_scraping_report self results ;;;
  ret results.

(** ** [DataLakeManager] (app/services/scrapers/data_lake_manager.py) *)

Record DataLakeManager := mk_lake {
  data_dir : path
}.

Definition raw_dir (self : DataLakeManager) : path := data_dir self ++ ["raw"].

Definition messages_root (self : DataLakeManager) : path :=
  raw_dir self ++ ["telegram_messages"].

(** *** [pathlib] and [glob] *)

(** Splits a name at its last dot: [(before, from the dot on)]. *)
Fixpoint split_last_dot (name : string) : option (string * string) :=
  match name with
  | EmptyString => None
  | String c rest =>
      match split_last_dot rest with
      | Some (a, b) => Some (String c a, b)
      | None => if Ascii.eqb c "." then Some (EmptyString, name) else None
      end
  end.

(** [PurePath.suffix]: from the last dot on, unless the dot is the first or
    the last character of the name. *)
Definition name_split_suffix (name : string) : string * string :=
  match split_last_dot name with
  | Some (stem, suffix) =>
      if negb (String.eqb stem "") && (1 <? String.length suffix)%nat
      then (stem, suffix)
      else (name, "")
  | None => (name, "")
  end.

(** [p.with_suffix(suffix)], for a well-formed [suffix]. *)
Fixpoint with_suffix (p : path) (suffix : string) : path :=
  match p with
  | [] => []
  | [name] => [fst (name_split_suffix name) +:+ suffix]
  | c :: p' => c :: with_suffix p' suffix
  end.

(** [s.startswith(prefix)] and [s.endswith(suffix)] *)
Fixpoint startswith (s prefix : string) {struct prefix} : bool :=
  match prefix with
  | EmptyString => true
  | String a prefix' =>
      match s with
      | EmptyString => false
      | String b s' => Ascii.eqb a b && startswith s' prefix'
      end
  end.

Definition endswith (s suffix : string) : bool :=
  (String.length suffix <=? String.length s)%nat
  && String.eqb
       (substring (String.length s - String.length suffix)
          (String.length suffix) s) suffix.

(** The pattern [messages_*.json]. *)
Definition is_batch_file (name : string) : bool :=
  startswith name "messages_" && endswith name ".json"
  && (14 <=? String.length name)%nat.

(** *** Sorting, as [sorted(..., reverse=True)] and [list.sort(reverse=True)]
    do it: stable, largest key first. *)

Fixpoint insert_desc {A} (key : A → string) (x : A) (l : list A) : list A :=
  match l with
  | [] => [x]
  | y :: l' =>
      if String.ltb (key x) (key y) then y :: insert_desc key x l'
      else x :: l
  end.

Definition sort_desc {A} (key : A → string) (l : list A) : list A :=
  foldr (insert_desc key) [] l.

(** [l[:limit]] *)
Definition py_take {A} (limit : Z) (l : list A) : list A :=
  if 0 <=? limit then take (Z.to_nat limit) l
  else take (length l - Z.to_nat (- limit)) l.

(** What [list.extend(v)] appends. *)
Definition py_iter (v : pyval) : result (list pyval) :=
  match v with
  | PList l => Return l
  | PDict kv => Return (map (fun e => PStr (fst e)) kv)
  | PStr s =>
      Return (map (fun c => PStr (String c EmptyString)) (list_ascii_of_string s))
  | _ => Raise (PyError "TypeError" "object is not iterable")
  end.

Section DataLake.

(** [hashlib.md5(s.encode('utf-8')).hexdigest()], and [repr] for the values
    whose [str] is not spelled out below. *)
Variable md5_hexdigest : string → string.
Variable py_repr : pyval → string.

(** [str(v)], as an f-string formats [v]. *)
Definition py_str (v : pyval) : string :=
  match v with
  | PNone => "None"
  | PBool true => "True"
  | PBool false => "False"
  | PInt n => pretty n
  | PStr s => s
  | _ => py_repr v
  end.

Definition _generate_message_hash (message : dict) : string :=
  let content :=
    py_str (dict_get_default "message_id" (PStr "") message)
    +:+ py_str (dict_get_default "date" (PStr "") message)
    +:+ py_str (dict_get_default "text" (PStr "") message) in
  md5_hexdigest content.

(** The loop of [save_messages] that adds [_metadata] to every message. *)
Fixpoint enrich (channel date_str file_path : string) (messages : list dict)
  : M (list dict) :=
  match messages with
  | [] => ret []
  | message :: rest =>
      scraped_at <- now ;;
      let enriched_message :=
        dict_set "_metadata"
          (PDict [("scraped_at", PStr (isoformat scraped_at));
                  ("channel", PStr channel);
                  ("partition_date", PStr date_str);
                  ("file_path", PStr file_path);
                  ("message_hash", PStr (_generate_message_hash message))])
          message in
      enriched <- enrich channel date_str file_path rest ;;
      ret (enriched_message :: enriched)
  end.

Definition save_messages (self : DataLakeManager) (channel : string)
    (messages : list dict) (date : option datetime) : M string :=
  date <- match date with Some d => ret d | None => now end ;;
  let date_str := strftime_date date in
  let channel_dir := messages_root self ++ [date_str; channel] in
  mkdir_p channel_dir ;;;
  timestamp <- now ;;
  let filename := batch_filename (strftime_stamp timestamp) (length messages) in
  let file_path := channel_dir ++ [filename] in
  enriched_messages <- enrich channel date_str (path_str file_path) messages ;;
  let compressed_path := with_suffix file_path ".json.gz" in
  write_json true compressed_path (PList (map PDict enriched_messages)) ;;;
  write_json false file_path (PList (map PDict enriched_messages)) ;;;
  emit (LogDataSaved channel (path_str file_path) (len messages)) ;;;
  ret (path_str file_path).

End DataLake.

(** *** [get_latest_messages] *)

(** The batch files of [channel], newest partition first and, in a partition,
    largest name first. *)
Definition latest_message_files (self : DataLakeManager) (channel : string)
    (fs : gmap path node) : list path :=
  flat_map
    (fun date_dir =>
       let channel_dir := messages_root self ++ [date_dir; channel] in
       if path_exists channel_dir fs then
         map (fun name => channel_dir ++ [name])
           (sort_desc id (filter (fun n => is_batch_file n = true) (listdir channel_dir fs)))
       else [])
    (sort_desc id (listdir (messages_root self) fs)).

(** The loop that reads the selected files; an unreadable file is logged and
    skipped. *)
Fixpoint load_files (channel context : string) (files : list path)
    (messages : list pyval) : M (list pyval) :=
  match files with
  | [] => ret messages
  | file_path :: rest =>
      messages <-
        try_except
          (w <- get_world ;;
           file_messages <- lift (read_json file_path (w_fs w)) ;;
           items <- lift (py_iter file_messages) ;;
           ret (messages ++ items))
          (fun e =>
             emit (LogScrapingError channel e
                     (context +:+ path_str file_path)) ;;;
             ret messages) ;;
      load_files channel context rest messages
  end.

(** [x.get('date', '')] for the sort; a message must be a dict. *)
Definition date_key (x : pyval) : result pyval :=
  match x with
  | PDict d => Return (dict_get_default "date" (PStr "") d)
  | _ => Raise (PyError "AttributeError" "object has no attribute 'get'")
  end.

Fixpoint date_keys (messages : list pyval) : result (list (string * pyval)) :=
  match messages with
  | [] => Return []
  | x :: rest =>
      match date_key x with
      | Raise e => Raise e
      | Return (PStr k) =>
          match date_keys rest with
          | Raise e => Raise e
          | Return l => Return ((k, x) :: l)
          end
      | Return _ =>
          match date_keys rest with
          | Raise e => Raise e
          | Return _ =>
              Raise (PyError "TypeError" "'<' not supported between instances")
          end
      end
  end.

(** [messages.sort(key=lambda x: x.get('date', ''), reverse=True)].  The keys
    are compared as strings; a key that is not a string raises [TypeError]
    here (Python would still order keys that are all numbers, and compares
    nothing when there is a single message). *)
Definition sort_by_date (messages : list pyval) : result (list pyval) :=
  match date_keys messages with
  | Raise e => Raise e
  | Return keyed => Return (map snd (sort_desc fst keyed))
  end.

Definition get_latest_messages (self : DataLakeManager) (channel : string)
    (limit : Z) : M (list pyval) :=
  w <- get_world ;;
  let message_files := latest_message_files self channel (w_fs w) in
  messages <-
    load_files channel "loading_latest_messages_from_"
      (py_take limit message_files) [] ;;
  messages <- lift (sort_by_date messages) ;;
  ret (py_take limit messages).

(** *** [validate_data_integrity] *)

(** The keys of the [validation_results] dict. *)
Record validation := mk_validation {
  v_channel : string;
  v_validation_date : string;
  v_total_files : Z;
  v_valid_files : Z;
  v_invalid_files : Z;
  v_total_messages : Z;
  v_duplicate_messages : Z;
  v_missing_fields : list string;
  v_errors : list string
}.

(** The hashable values, as members of the set [message_hashes]: [True] and
    [1] are the same member. *)
Inductive hkey :=
  | HNone
  | HInt (n : Z)
  | HStr (s : string)
  | HDatetime (d : datetime).

#[global] Instance hkey_eq_dec : EqDecision hkey.
Proof. solve_decision. Defined.

Definition hash_key (v : pyval) : result hkey :=
  match v with
  | PNone => Return HNone
  | PBool b => Return (HInt (if b then 1 else 0))
  | PInt n => Return (HInt n)
  | PStr s => Return (HStr s)
  | PDatetime d => Return (HDatetime d)
  | PList _ => Raise (PyError "TypeError" "unhashable type: 'list'")
  | PDict _ => Raise (PyError "TypeError" "unhashable type: 'dict'")
  end.

Definition no_get : exn :=
  PyError "AttributeError" "object has no attribute 'get'".

(** [message.get("_metadata", {}).get("message_hash")] *)
Definition stored_hash (message : pyval) : result (option pyval) :=
  match message with
  | PDict d =>
      match dict_get_default "_metadata" (PDict []) d with
      | PDict md => Return (dict_get "message_hash" md)
      | _ => Raise no_get
      end
  | _ => Raise no_get
  end.

Definition required_fields : list string :=
  ["message_id"; "channel_username"; "date"; "text"].

Definition fields_missing (message : pyval) : list string :=
  match message with
  | PDict d => filter (fun field => dict_mem field d = false) required_fields
  | _ => []
  end.

(** The validation state: the results so far and the set [message_hashes]. *)
Definition vstate : Type := validation * list hkey.

Definition count_duplicate (st : vstate) : vstate :=
  let '(v, hashes) := st in
  (mk_validation (v_channel v) (v_validation_date v) (v_total_files v)
     (v_valid_files v) (v_invalid_files v) (v_total_messages v)
     (v_duplicate_messages v + 1) (v_missing_fields v) (v_errors v), hashes).

Definition add_missing (fields : list string) (st : vstate) : vstate :=
  let '(v, hashes) := st in
  (mk_validation (v_channel v) (v_validation_date v) (v_total_files v)
     (v_valid_files v) (v_invalid_files v) (v_total_messages v)
     (v_duplicate_messages v) (v_missing_fields v ++ fields) (v_errors v),
   hashes).

(** The body of [for message in messages]. *)
Definition check_message (message : pyval) (st : vstate) : result vstate :=
  match stored_hash message with
  | Raise e => Raise e
  | Return message_hash =>
      let message_hash := default PNone message_hash in
      if py_truthy message_hash then
        match hash_key message_hash with
        | Raise e => Raise e
        | Return h =>
            let st :=
              if bool_decide (h ∈ snd st) then count_duplicate st
              else (fst st, snd st ++ [h]) in
            Return (add_missing (fields_missing message) st)
        end
      else Return (add_missing (fields_missing message) st)
  end.

(** [for message in messages], stopped by the first exception; what was
    counted before it stays counted. *)
Fixpoint check_messages (messages : list pyval) (st : vstate)
  : vstate * option exn :=
  match messages with
  | [] => (st, None)
  | message :: rest =>
      match check_message message st with
      | Raise e => (st, Some e)
      | Return st => check_messages rest st
      end
  end.

Definition file_invalid (error : string) (st : vstate) : vstate :=
  let '(v, hashes) := st in
  (mk_validation (v_channel v) (v_validation_date v) (v_total_files v)
     (v_valid_files v) (v_invalid_files v + 1) (v_total_messages v)
     (v_duplicate_messages v) (v_missing_fields v) (v_errors v ++ [error]),
   hashes).

Definition file_counted (st : vstate) : vstate :=
  let '(v, hashes) := st in
  (mk_validation (v_channel v) (v_validation_date v) (v_total_files v + 1)
     (v_valid_files v) (v_invalid_files v) (v_total_messages v)
     (v_duplicate_messages v) (v_missing_fields v) (v_errors v), hashes).

Definition file_valid (count : Z) (st : vstate) : vstate :=
  let '(v, hashes) := st in
  (mk_validation (v_channel v) (v_validation_date v) (v_total_files v)
     (v_valid_files v + 1) (v_invalid_files v) (v_total_messages v + count)
     (v_duplicate_messages v) (v_missing_fields v) (v_errors v), hashes).

(** The body of [for file_path in channel_dir.glob("messages_*.json")]. *)
Definition check_file (fs : gmap path node) (file_path : path) (st : vstate)
  : vstate :=
  let st := file_counted st in
  let failed e :=
    file_invalid ("Error reading " +:+ path_str file_path +:+ ": "
                  +:+ exn_str e) in
  match read_json file_path fs with
  | Raise e => failed e st
  | Return (PList messages) =>
      let st := file_valid (len messages) st in
      match check_messages messages st with
      | (st, None) => st
      | (st, Some e) => failed e st
      end
  | Return _ => file_invalid ("Invalid format in " +:+ path_str file_path) st
  end.

(** The batch files of [channel], in the order the two loops visit them. *)
Definition channel_batch_files (self : DataLakeManager) (channel : string)
    (fs : gmap path node) : list path :=
  flat_map
    (fun date_dir =>
       let channel_dir := messages_root self ++ [date_dir; channel] in
       if path_exists channel_dir fs then
         map (fun name => channel_dir ++ [name])
           (filter (fun n => is_batch_file n = true) (listdir channel_dir fs))
       else [])
    (listdir (messages_root self) fs).

Definition validate_data_integrity (self : DataLakeManager) (channel : string)
  : M validation :=
  validation_date <- now ;;
  w <- get_world ;;
  let validation_results :=
    mk_validation channel (isoformat validation_date) 0 0 0 0 0 [] [] in
  ret (fst (fold_left (fun st file_path => check_file (w_fs w) file_path st)
              (channel_batch_files self channel (w_fs w))
              (validation_results, []))).

(** *** [cleanup_old_data] *)

(** The body of [for date_dir in self.raw_dir.glob("telegram_messages/*")]. *)
Definition cleanup_dir (self : DataLakeManager) (cutoff_date : datetime)
    (date_str : string) : M unit :=
  try_except
    (dir_date <- lift (strptime_date date_str) ;;
     if datetime_ltb dir_date cutoff_date
     then rmtree (messages_root self ++ [date_str])
     else ret tt)
    (fun e => ret tt).

Fixpoint cleanup_dirs (self : DataLakeManager) (cutoff_date : datetime)
    (names : list string) : M unit :=
  match names with
  | [] => ret tt
  | date_str :: rest =>
      cleanup_dir self cutoff_date date_str ;;;
      cleanup_dirs self cutoff_date rest
  end.

Definition cleanup_old_data (self : DataLakeManager) (days_to_keep : Z)
  : M unit :=
  t <- now ;;
  let cutoff_date := datetime_sub_days t days_to_keep in
  w <- get_world ;;
  cleanup_dirs self cutoff_date (listdir (messages_root self) (w_fs w)).

(** ** Small worlds to run the definitions on *)

Definition clock_from (start : datetime) (n : nat) : datetime :=
  mk_dt (dt_ordinal start) (dt_hour start) (dt_minute start)
    (dt_second start + Z.of_nat n) (dt_microsecond start).

Definition new_world (start : datetime) : world :=
  mk_world (clock_from start) 0 ∅ (fun _ => false) [].

Definition toy_md5 (s : string) : string := "md5:" +:+ s.
Definition toy_repr (v : pyval) : string := "<object>".

Definition lake0 : DataLakeManager := mk_lake ["data"].

Definition msg1 : dict :=
  [("message_id", PInt 1); ("channel_username", PStr "chemed");
   ("date", PStr "2024-01-01T00:00:00"); ("text", PStr "hello")].

Definition msg2 : dict :=
  [("message_id", PInt 2); ("channel_username", PStr "chemed");
   ("date", PStr "2024-01-02T00:00:00"); ("text", PStr "world")].

Definition chemed_entity : entity :=
  mk_entity 1001 (Some "Chemed") (Some "chemed") (Some 5000) None None
    false false false.

(** A platform on which every channel resolves to [chemed_entity] and
    delivers [items]. *)
Definition quiet_platform (items : list tg_item) : telegram :=
  mk_telegram None None (fun _ => Return chemed_entity) (fun _ => Ends items).

(** A platform whose entity lookup fails at the transport level. *)
Definition offline_platform : telegram :=
  mk_telegram None None
    (fun _ => Raise (PyError "ConnectionError" "Connection to Telegram failed 5 time(s)"))
    (fun _ => Ends []).

(** ** Definitions used to state the properties *)

(** The batches a run of the loop hands to [_save_messages_batch] while it
    consumes [ys] with [acc] already in memory, and what is left in memory. *)
Fixpoint batches_from (acc ys : list dict) : list (list dict) * list dict :=
  match ys with
  | [] => ([], acc)
  | y :: rest =>
      let acc := acc ++ [y] in
      if 100 <=? len acc then
        let '(bs, fin) := batches_from [] rest in (acc :: bs, fin)
      else batches_from acc rest
  end.

(** The batches written to disk, read off the events. *)
Definition batch_writes (events : list event) : list (list pyval) :=
  omap (fun e => match e with
                 | WriteFile _ (JsonText (PList l)) => Some l
                 | _ => None
                 end) events.

(** A generator step that writes no file. *)
Definition quiet_step (s : gen_step) : bool :=
  match s with
  | Effect (WriteFile _ _) => false
  | _ => true
  end.

Definition count_images (ys : list dict) : Z :=
  len (filter (fun d => has_image d = true) ys).

(** The two shapes of a per-channel result. *)
Definition success_result (channel_info : dict) (message_count image_count : Z)
    (data_path : string) : dict :=
  [("success", PBool true);
   ("channel_info", PDict channel_info);
   ("messages_scraped", PInt message_count);
   ("images_scraped", PInt image_count);
   ("data_path", PStr data_path)].

Definition is_outcome (r : dict) : Prop :=
  (∃ text, r = error_result text)
  ∨ (∃ channel_info message_count image_count data_path,
       r = success_result channel_info message_count image_count data_path
       ∧ json_serializable (PDict channel_info) = true).

(** A path [data_dir/raw/scraping_report_*]. *)
Definition is_report_path (self : TelegramScraper) (p : path) : bool :=
  bool_decide (take (length (scraper_data_dir self)) p = scraper_data_dir self)
  && match drop (length (scraper_data_dir self)) p with
     | [r; name] => String.eqb r "raw" && startswith name "scraping_report_"
     | _ => false
     end.

(** The run reports written, read off the events. *)
Definition reports_written (self : TelegramScraper) (events : list event)
  : list (path * file) :=
  omap (fun e => match e with
                 | WriteFile p f =>
                     if is_report_path self p then Some (p, f) else None
                 | _ => None
                 end) events.

Definition not_a_report (self : TelegramScraper) (e : event) : Prop :=
  match e with
  | WriteFile p _ => is_report_path self p = false
  | _ => True
  end.

(** [w'] is [w] after some more events, all satisfying [Q]; the clock and the
    permissions of the disk are those of [w]. *)
Definition stable (Q : event → Prop) (w w' : world) : Prop :=
  w_clock w' = w_clock w
  ∧ w_denied w' = w_denied w
  ∧ (w_tick w ≤ w_tick w')%nat
  ∧ ∃ new, w_events w' = w_events w ++ new ∧ Forall Q new.

Definition frames {A} (Q : event → Prop) (m : M A) : Prop :=
  ∀ w, stable Q w (snd (m w)).

(** A computation that returns, whatever the world. *)
Definition returns {A} (m : M A) : Prop :=
  ∀ w, ∃ a, fst (m w) = Return a.

(** Whatever [m] returns satisfies [P]. *)
Definition post {A} (m : M A) (P : A → Prop) : Prop :=
  ∀ w a w', m w = (Return a, w') → P a.

(** A platform that rejects the credentials when the session is opened. *)
Definition unauthorized_platform : telegram :=
  mk_telegram
    (Some (PyError "AccessTokenInvalidError" "The bot token is invalid"))
    None (fun _ => Return chemed_entity) (fun _ => Ends []).

Definition noon : datetime := datetime_of 2024 3 5 12 0 0 0.

Definition scraper0 : TelegramScraper := TelegramScraper_init ["data"].

(** What the entry of [channel] in [results] must be: an outcome, and an error
    when the channel's message stream ended with an exception. *)
Definition channel_outcome (tg : telegram) (limit : Z)
    (offset_date : option datetime) (channel : string) (r : dict) : Prop :=
  is_outcome r
  ∧ ∀ e, snd (scrape_messages channel limit offset_date
                (tg_iter_messages tg channel)) = Some e →
         ∃ text, r = error_result text.

Definition results_ok (tg : telegram) (limit : Z)
    (offset_date : option datetime) (results : dict) : Prop :=
  Forall (fun entry => ∃ r, snd entry = PDict r
                            ∧ channel_outcome tg limit offset_date (fst entry) r)
    results.

(** [with gzip.open(p, 'rt') as f: json.load(f)], the reader that matches the
    compressed copy [save_messages] writes. *)
Definition read_gzip_json (p : path) (fs : gmap path node) : result pyval :=
  match fs !! p with
  | Some (File (GzipJsonText doc)) => Return doc
  | Some (File _) => Raise (PyError "BadGzipFile" "Not a gzipped file")
  | Some Dir => Raise (PyError "IsADirectoryError" "Is a directory")
  | None => Raise (PyError "FileNotFoundError" "No such file or directory")
  end.

Section DataLakeSpec.

Variable md5_hexdigest : string → string.
Variable py_repr : pyval → string.

(** The [_metadata] that [save_messages] attaches to [message]. *)
Definition message_metadata (channel date_str file_path : string)
    (scraped_at : datetime) (message : dict) : pyval :=
  PDict [("scraped_at", PStr (isoformat scraped_at));
         ("channel", PStr channel);
         ("partition_date", PStr date_str);
         ("file_path", PStr file_path);
         ("message_hash",
          PStr (_generate_message_hash md5_hexdigest py_repr message))].

(** The enriched batch: every message with its [_metadata], the capture
    times read from the clock one after the other. *)
Fixpoint enriched_from (channel date_str file_path : string)
    (clock : nat → datetime) (tick : nat) (messages : list dict)
  : list dict :=
  match messages with
  | [] => []
  | message :: rest =>
      dict_set "_metadata"
        (message_metadata channel date_str file_path (clock tick) message)
        message
      :: enriched_from channel date_str file_path clock (S tick) rest
  end.

End DataLakeSpec.

(** The hash under which [validate_data_integrity] counts a message, if it
    counts it at all. *)
Definition counted_hash (message : pyval) : option hkey :=
  match stored_hash message with
  | Return (Some v) =>
      if py_truthy v then
        match hash_key v with Return h => Some h | Raise _ => None end
      else None
  | _ => None
  end.

(** A message on which the body of the validation loop raises nothing: a dict
    whose [_metadata], if any, is a dict with a hashable [message_hash]. *)
Definition checks_cleanly (message : pyval) : bool :=
  match stored_hash message with
  | Raise _ => false
  | Return None => true
  | Return (Some v) => negb (py_truthy v) || is_Return (hash_key v)
  end.

Definition file_hashes (fs : gmap path node) (p : path) : list hkey :=
  match read_json p fs with
  | Return (PList messages) => omap counted_hash messages
  | _ => []
  end.

(** Every hash occurrence in the scanned files of [channel], in scan order. *)
Definition scanned_hashes (self : DataLakeManager) (channel : string)
    (fs : gmap path node) : list hkey :=
  flat_map (file_hashes fs) (channel_batch_files self channel fs).

(** The occurrences beyond the first one of each distinct hash. *)
Definition repeats (hashes : list hkey) : nat :=
  length hashes - length (remove_dups hashes).

Definition batches_check_cleanly (self : DataLakeManager) (channel : string)
    (fs : gmap path node) : Prop :=
  ∀ p messages,
    p ∈ channel_batch_files self channel fs →
    read_json p fs = Return (PList messages) →
    forallb checks_cleanly messages = true.

(** The validation state agrees with the hash occurrences [seen] so far. *)
Definition counts_repeats (st : vstate) (seen : list hkey) : Prop :=
  NoDup (snd st)
  ∧ (∀ h, h ∈ snd st ↔ h ∈ seen)
  ∧ v_duplicate_messages (fst st) + len (snd st) = len seen.

(** A partition directory name that parses as a date strictly before the
    cutoff. *)
Definition expired (cutoff_date : datetime) (date_str : string) : bool :=
  match strptime_date date_str with
  | Return dir_date => datetime_ltb dir_date cutoff_date
  | Raise _ => false
  end.

(** [p] lies in (or is) one of the partition directories [names] that are
    expired. *)
Definition in_expired_partition (self : DataLakeManager)
    (cutoff_date : datetime) (names : list string) (p : path) : bool :=
  existsb (fun name =>
             expired cutoff_date name
             && bool_decide ((messages_root self ++ [name]) `prefix_of` p))
    names.

(** What reading the batch file [p] adds to [messages]: its elements, or
    nothing when the file cannot be read or holds no iterable. *)
Definition file_items (fs : gmap path node) (p : path) : list pyval :=
  match read_json p fs with
  | Return doc =>
      match py_iter doc with Return items => items | Raise _ => [] end
  | Raise _ => []
  end.

(** A message that is a dict whose ['date'], when present, is a string. *)
Definition string_dated (x : pyval) : bool :=
  match date_key x with Return (PStr _) => true | _ => false end.

(** The sort key of such a message. *)
Definition date_string (x : pyval) : string :=
  match date_key x with Return (PStr k) => k | _ => "" end.

(** [l] is in descending order of [key]. *)
Definition descending {A} (key : A → string) (l : list A) : Prop :=
  StronglySorted (fun a b => String.le (key b) (key a)) l.

(** Two stores to run [get_latest_messages] on: one batch file of two
    messages. *)
Definition two_message_lake : world :=
  snd (save_messages toy_md5 toy_repr lake0 "chemed" [msg1; msg2]
         (Some (datetime_of 2024 1 2 0 0 0 0)) (new_world noon)).

(** ** Concrete runs *)

Definition chemed_dir : path :=
  ["data"; "raw"; "telegram_messages"; "2024-03-05"; "chemed"].

(** A channel that delivers 250 messages. *)
Definition long_channel : script := Ends (replicate 250 (Message (Some msg1))).

(** A channel that turns private after its first message. *)
Definition private_channel : telegram :=
  mk_telegram None None (fun _ => Return chemed_entity)
    (fun _ => Raises [Message (Some msg1)]
                (ChannelPrivateError "The channel specified is private")
                (Ends [])).

(** The same record saved twice, one second apart. *)
Definition duplicate_lake : world :=
  snd ((save_messages toy_md5 toy_repr lake0 "chemed" [msg1] None ;;;
        save_messages toy_md5 toy_repr lake0 "chemed" [msg1] None)
         (new_world noon)).

(** Partitions dated 120 and 30 days before the 5th of March 2024. *)
Definition aged_lake : world :=
  snd ((save_messages toy_md5 toy_repr lake0 "chemed" [msg1]
          (Some (datetime_of 2023 11 6 0 0 0 0)) ;;;
        save_messages toy_md5 toy_repr lake0 "tikvahpharma" [msg2]
          (Some (datetime_of 2024 2 4 0 0 0 0)))
         (new_world noon)).

Definition new_year : datetime := datetime_of 2024 1 1 0 0 0 0.

Definition new_year_dir : path :=
  ["data"; "raw"; "telegram_messages"; "2024-01-01"; "chemed"].

(** ** Further definitions used to state properties *)

Definition is_flood (e : exn) : bool :=
  match e with FloodWaitError _ _ => true | _ => false end.

(** The errors [scrape_messages] logs, read off the generator's steps. *)
Definition logged_errors (steps : list gen_step)
  : list (string * exn * string) :=
  omap (fun s => match s with
                 | Effect (LogScrapingError c e o) => Some (c, e, o)
                 | _ => None
                 end) steps.

(** The tag under which [scrape_messages] logs the exception that ends it. *)
Definition error_operation (e : exn) : string :=
  match e with
  | ChannelPrivateError _ | ChatAdminRequiredError _ => "access_denied"
  | _ => "message_scraping"
  end.

(** The rate limits the platform signals during a call, in order. *)
Fixpoint flood_waits (platform : script) : list Z :=
  match platform with
  | Ends _ => []
  | Raises _ (FloodWaitError seconds _) retry => seconds :: flood_waits retry
  | Raises _ _ _ => []
  end.

(** The rate limits [scrape_messages] logs. *)
Definition logged_rate_limits (steps : list gen_step) : list Z :=
  omap (fun s => match s with
                 | Effect (LogRateLimit _ seconds) => Some seconds
                 | _ => None
                 end) steps.

(** Every file written, read off the events. *)
Definition writes (events : list event) : list (path * file) :=
  omap (fun e => match e with WriteFile p f => Some (p, f) | _ => None end)
    events.

(** The metadata [_scrape_channel] saves beside the batches. *)
Definition channel_metadata_doc (channel_info : dict) (scraped_at : datetime)
    (message_count image_count limit : Z) (offset_date : option datetime)
  : pyval :=
  PDict [("channel_info", PDict channel_info);
         ("scraping_info",
          PDict [("scraped_at", PStr (isoformat scraped_at));
                 ("messages_scraped", PInt message_count);
                 ("images_scraped", PInt image_count);
                 ("limit", PInt limit);
                 ("offset_date",
                  match offset_date with
                  | Some d => PStr (isoformat d)
                  | None => PNone
                  end)])].

(** ** Further concrete runs *)

(** A channel whose entity carries its creation date. *)
Definition dated_entity : entity :=
  mk_entity 1002 (Some "Tikvah Pharma") (Some "tikvahpharma") (Some 80000)
    None (Some (datetime_of 2019 6 1 9 30 0 0)) true false false.

Definition dated_platform (items : list tg_item) : telegram :=
  mk_telegram None None (fun _ => Return dated_entity) (fun _ => Ends items).

(** A channel that turns private after delivering 150 messages. *)
Definition interrupted_channel : telegram :=
  mk_telegram None None (fun _ => Return chemed_entity)
    (fun _ => Raises (replicate 150 (Message (Some msg1)))
                (ChannelPrivateError "The channel specified is private")
                (Ends [])).

(** ** The totals of the run report *)

(** [result.get("success")] is truthy. *)
Definition succeeded (res : pyval) : bool :=
  match res with
  | PDict d => py_truthy (default PNone (dict_get "success" d))
  | _ => false
  end.

(** What [result.get(k, 0)] adds to a total. *)
Definition counter (k : string) (res : pyval) : Z :=
  match res with
  | PDict d =>
      match dict_get k d with
      | Some (PInt n) => n
      | Some (PBool b) => if b then 1 else 0
      | _ => 0
      end
  | _ => 0
  end.

(** The sum of counter [k] over the successful entries of [results]. *)
Definition sum_counter (k : string) (results : dict) : Z :=
  foldr (fun entry total =>
           (if succeeded (snd entry) then counter k (snd entry) else 0) + total)
    0 results.

(** ** [DataLakeManager.get_messages_for_date_range] *)

(** [a <= b] on naive datetimes. *)
Definition datetime_leb (a b : datetime) : bool := negb (datetime_ltb b a).

(** [date.max.toordinal()]: the 31st of December 9999. *)
Definition max_ordinal : Z := 3652059.

(** [d + timedelta(days=1)] *)
Definition datetime_add_day (d : datetime) : result datetime :=
  if dt_ordinal d + 1 <=? max_ordinal
  then Return (mk_dt (dt_ordinal d + 1) (dt_hour d) (dt_minute d)
                 (dt_second d) (dt_microsecond d))
  else Raise (PyError "OverflowError" "date value out of range").

(** [channel_dir.glob("messages_*.json")] in the partition [date_str], when
    the directory of the channel exists there. *)
Definition partition_batch_files (self : DataLakeManager) (channel : string)
    (fs : gmap path node) (date_str : string) : list path :=
  let channel_dir := messages_root self ++ [date_str; channel] in
  if path_exists channel_dir fs then
    map (fun name => channel_dir ++ [name])
      (filter (fun n => is_batch_file n = true) (listdir channel_dir fs))
  else [].

(** What a loop bounded by [fuel] iterations raises when it would need one
    more. *)
Definition out_of_fuel : exn := PyError "OutOfFuel" "iteration bound reached".

(** [while current_date <= end_date: ...], for at most [fuel] iterations. *)
Fixpoint date_range_loop (fuel : nat) (self : DataLakeManager)
    (channel : string) (current_date end_date : datetime)
    (messages : list pyval) : M (list pyval) :=
  if datetime_leb current_date end_date then
    match fuel with
    | O => raise out_of_fuel
    | S fuel =>
        let date_str := strftime_date current_date in
        w <- get_world ;;
        messages <-
          load_files channel "loading_messages_from_"
            (partition_batch_files self channel (w_fs w) date_str) messages ;;
        current_date <- lift (datetime_add_day current_date) ;;
        date_range_loop fuel self channel current_date end_date messages
    end
  else ret messages.

(** The loop runs at most once per day from [start_date] to [end_date]. *)
Definition get_messages_for_date_range (self : DataLakeManager)
    (channel : string) (start_date end_date : datetime) : M (list pyval) :=
  date_range_loop
    (Z.to_nat (dt_ordinal end_date - dt_ordinal start_date + 1))
    self channel start_date end_date [].

(** [n] consecutive days from [d] on, at the time of day of [d]. *)
Fixpoint days_from (n : nat) (d : datetime) : list datetime :=
  match n with
  | O => []
  | S n =>
      d :: days_from n (mk_dt (dt_ordinal d + 1) (dt_hour d) (dt_minute d)
                          (dt_second d) (dt_microsecond d))
  end.

(** The values [current_date] takes in the loop: the day of [end_date] is
    among them only when the time of day of [start_date] is not later than
    that of [end_date]. *)
Definition visited_dates (start_date end_date : datetime) : list datetime :=
  days_from
    (Z.to_nat (dt_ordinal end_date - dt_ordinal start_date
               + (if time_of_day start_date <=? time_of_day end_date
                  then 1 else 0)))
    start_date.

(** ** The counters of [validate_data_integrity] *)

(** The number of messages of a batch file that holds a JSON list. *)
Definition listed_messages (fs : gmap path node) (file_path : path)
  : option Z :=
  match read_json file_path fs with
  | Return (PList messages) => Some (len messages)
  | _ => None
  end.

Definition sum_Z (l : list Z) : Z := foldr Z.add 0 l.

(** A message without [_metadata], as [_save_messages_batch] stores the
    records of the scraper. *)
Definition unhashed (message : pyval) : bool :=
  match message with
  | PDict d => negb (dict_mem "_metadata" d)
  | _ => false
  end.

(** A channel that signals a rate limit after its first message. *)
Definition flooding_channel : telegram :=
  mk_telegram None None (fun _ => Return chemed_entity)
    (fun _ => Raises [Message (Some msg1)]
                (FloodWaitError 5 "A wait of 5 seconds is required")
                (Ends [Message (Some msg1); Message (Some msg2)])).

(** The disk after the scraper has run on that channel. *)
Definition flooded_lake : world :=
  snd (_scrape_channel scraper0 flooding_channel "chemed" 1000 None
         (new_world noon)).

(** ** [cleanup_old_data] on a disk that refuses some removals *)

(** An expired partition directory that the disk lets go. *)
Definition removable (self : DataLakeManager) (denied : path → bool)
    (cutoff_date : datetime) (date_str : string) : bool :=
  expired cutoff_date date_str
  && negb (denied (messages_root self ++ [date_str])).

(** [p] lies in (or is) one of the partition directories [names] that are
    removable. *)
Definition in_removed_partition (self : DataLakeManager)
    (denied : path → bool) (cutoff_date : datetime) (names : list string)
    (p : path) : bool :=
  existsb (fun name =>
             removable self denied cutoff_date name
             && bool_decide ((messages_root self ++ [name]) `prefix_of` p))
    names.

(** ** [DataLakeManager.save_channel_metadata] *)

Definition save_channel_metadata (self : DataLakeManager) (channel : string)
    (metadata : dict) (date : option datetime) : M string :=
  date <- match date with Some d => ret d | None => now end ;;
  let date_str := strftime_date date in
  let channel_dir := messages_root self ++ [date_str; channel] in
  mkdir_p channel_dir ;;;
  let metadata_file := channel_dir ++ ["channel_metadata.json"] in
  saved_at <- now ;;
  let enriched_metadata :=
    dict_set "_metadata"
      (PDict [("saved_at", PStr (isoformat saved_at));
              ("channel", PStr channel);
              ("partition_date", PStr date_str)])
      metadata in
  write_json false metadata_file (PDict enriched_metadata) ;;;
  ret (path_str metadata_file).

(** ** [TelegramClientService._process_message] and [_download_media]
    (app/services/telegram/client.py) *)

(** The attributes of a Telethon message that [_process_message] reads.  An
    attribute that is absent or [None] is [None] here, an empty or absent list
    is [[]].  [datetime] is naive: the offset that [isoformat] appends for
    the timezone-aware dates Telethon delivers is left out. *)
Record message_entity := mk_message_entity {
  me_type : string;            (* [type(entity).__name__] *)
  me_offset : Z;
  me_length : Z;
  me_url : option string       (* [entity.url], when the entity has one *)
}.

Record reaction_count := mk_reaction_count {
  rc_emoji : option string;    (* [reaction.reaction.emoji], when it has one *)
  rc_count : Z
}.

Inductive media :=
  | MessageMediaPhoto
  | MessageMediaDocument
  | OtherMedia.

Record forward_header := mk_forward_header {
  fw_chat_id : option Z;
  fw_user_id : option Z;
  fw_date : option datetime
}.

(** [m_download] is what [client.download_media] does with the media of the
    message: it raises, returns [None], or stores the file under the name it
    is given, with the extension it returns here appended. *)
Record tl_message := mk_tl_message {
  m_id : Z;
  m_date : option datetime;
  m_text : option string;
  m_reply_to : option (option Z);   (* [reply_to.reply_to_msg_id] *)
  m_views : option Z;
  m_forwards : option Z;
  m_entities : list message_entity;
  m_reactions : list reaction_count;
  m_media : option media;
  m_forward : option forward_header;
  m_download : result (option string)
}.

(** The lines [telegram_logger.log_image_download] writes. *)
Inductive image_log :=
  | ImageDownloaded (channel image_id file_path : string)
  | ImageDownloadFailed (channel image_id : string).

(** A binary file stored by [client.download_media]. *)
Definition store_media (p : path) : M unit :=
  w <- get_world ;;
  if w_denied w p then raise (os_error p)
  else set_fs (<[p := File Garbage]> (w_fs w)) ;;; emit (WriteFile p Garbage).

Definition _download_media (data_dir : path) (message : tl_message)
    (channel_username media_type : string) (log : list image_log)
  : M (option string * list image_log) :=
  try_except
    (date_str <-
       match m_date message with
       | Some d => ret (strftime_date d)
       | None => t <- now ;; ret (strftime_date t)
       end ;;
     let media_dir :=
       data_dir ++ ["raw"; "telegram_" +:+ media_type +:+ "s"; date_str;
                    channel_username] in
     mkdir_p media_dir ;;;
     downloaded <- lift (m_download message) ;;
     match downloaded with
     | Some extension =>
         let file_path :=
           media_dir ++ [pretty (m_id message) +:+ "_" +:+ media_type
                         +:+ extension] in
         store_media file_path ;;;
         ret (Some (path_str file_path),
              log ++ [ImageDownloaded channel_username (pretty (m_id message))
                        (path_str file_path)])
     | None =>
         ret (None,
              log ++ [ImageDownloadFailed channel_username
                        (pretty (m_id message))])
     end)
    (fun e =>
       emit (LogScrapingError channel_username e "media_download") ;;;
       ret (None, log)).

Definition entity_data (entity : message_entity) : pyval :=
  PDict ([("type", PStr (me_type entity));
          ("offset", PInt (me_offset entity));
          ("length", PInt (me_length entity))]
         ++ match me_url entity with
            | Some url => [("url", PStr url)]
            | None => []
            end).

Definition reaction_data (reaction : reaction_count) : pyval :=
  PDict [("emoji", opt_str (rc_emoji reaction));
         ("count", PInt (rc_count reaction))].

(** [x if x else None] on an identifier. *)
Definition truthy_int (o : option Z) : pyval :=
  match o with
  | Some n => if n =? 0 then PNone else PInt n
  | None => PNone
  end.

Definition forward_data (forward : forward_header) : pyval :=
  PDict [("chat_id", truthy_int (fw_chat_id forward));
         ("user_id", truthy_int (fw_user_id forward));
         ("date", match fw_date forward with
                  | Some d => PStr (isoformat d)
                  | None => PNone
                  end)].

Definition path_list (downloaded : option string) : pyval :=
  PList match downloaded with Some p => [PStr p] | None => [] end.

Definition _process_message (data_dir : path) (message : tl_message)
    (channel_username : string) (log : list image_log)
  : M (option dict * list image_log) :=
  try_except
    (scraped_at <- now ;;
     media_data <-
       match m_media message with
       | Some MessageMediaPhoto =>
           downloaded <-
             _download_media data_dir message channel_username "image" log ;;
           ret (true, false, path_list (fst downloaded), PList [],
                snd downloaded)
       | Some MessageMediaDocument =>
           downloaded <-
             _download_media data_dir message channel_username "document"
               log ;;
           ret (false, true, PList [], path_list (fst downloaded),
                snd downloaded)
       | _ => ret (false, false, PList [], PList [], log)
       end ;;
     let '(has_image, has_document, image_paths, document_paths, log) :=
       media_data in
     ret (Some [("message_id", PInt (m_id message));
                ("channel_username", PStr channel_username);
                ("date", match m_date message with
                         | Some d => PStr (isoformat d)
                         | None => PNone
                         end);
                ("text", PStr (default "" (m_text message)));
                ("has_image", PBool has_image);
                ("has_document", PBool has_document);
                ("image_paths", image_paths);
                ("document_paths", document_paths);
                ("forward_from", match m_forward message with
                                 | Some forward => forward_data forward
                                 | None => PNone
                                 end);
                ("reply_to", match m_reply_to message with
                             | Some reply_to_msg_id => opt_int reply_to_msg_id
                             | None => PNone
                             end);
                ("views", opt_int (m_views message));
                ("forwards", opt_int (m_forwards message));
                ("reactions", PList (map reaction_data (m_reactions message)));
                ("entities", PList (map entity_data (m_entities message)));
                ("scraped_at", PStr (isoformat scraped_at))],
          log))
    (fun e =>
       emit (LogScrapingError channel_username e "message_processing") ;;;
       ret (None, log)).

(** A photo whose download times out. *)
Definition lost_photo : tl_message :=
  mk_tl_message 42 (Some noon) (Some "Paracetamol 500mg") None (Some 10) None
    [] [] (Some MessageMediaPhoto) None
    (Raise (PyError "TimeoutError" "timed out")).

(** A photo stored as a JPEG file. *)
Definition stored_photo : tl_message :=
  mk_tl_message 43 (Some noon) None None (Some 12) (Some 1)
    [mk_message_entity "MessageEntityTextUrl" 0 4 (Some "https://example.org")]
    [mk_reaction_count (Some "+1") 3] (Some MessageMediaPhoto)
    (Some (mk_forward_header (Some 0) None (Some noon)))
    (Return (Some ".jpg")).

(** ** [ScrapingMetrics] (app/utils/logging/logger.py) *)

(** [self.metrics] maps a channel to its days and a day to its counters.
    The model covers the metrics that [update_channel_metrics] builds, whose
    counters are integers; both levels keep the insertion order of the
    keys. *)
Record day_metrics := mk_day_metrics {
  dm_messages : Z;
  dm_images : Z;
  dm_last_scraped : option string;
  dm_scraping_count : Z
}.

Abbreviation channel_metrics := (list (string * day_metrics)).
Abbreviation metrics := (list (string * list (string * day_metrics))).

Fixpoint assoc_get {A} (k : string) (d : list (string * A)) : option A :=
  match d with
  | [] => None
  | (k', v) :: d' => if String.eqb k k' then Some v else assoc_get k d'
  end.

Fixpoint assoc_set {A} (k : string) (v : A) (d : list (string * A))
  : list (string * A) :=
  match d with
  | [] => [(k, v)]
  | (k', v') :: d' =>
      if String.eqb k k' then (k, v) :: d' else (k', v') :: assoc_set k v d'
  end.

(** The JSON document [json.dump] writes for the metrics. *)
Definition day_doc (day : day_metrics) : pyval :=
  PDict [("messages", PInt (dm_messages day));
         ("images", PInt (dm_images day));
         ("last_scraped", opt_str (dm_last_scraped day));
         ("scraping_count", PInt (dm_scraping_count day))].

Definition channel_doc (days : channel_metrics) : pyval :=
  PDict (map (fun entry => (fst entry, day_doc (snd entry))) days).

Definition metrics_doc (m : metrics) : pyval :=
  PDict (map (fun entry => (fst entry, channel_doc (snd entry))) m).

(** The metrics a JSON document stands for, when it has the shape of the
    documents above. *)
Definition day_of_doc (v : pyval) : option day_metrics :=
  match v with
  | PDict [("messages", PInt messages); ("images", PInt images);
           ("last_scraped", last_scraped); ("scraping_count", PInt count)] =>
      match last_scraped with
      | PStr s => Some (mk_day_metrics messages images (Some s) count)
      | PNone => Some (mk_day_metrics messages images None count)
      | _ => None
      end
  | _ => None
  end.

Definition entries_of_doc {A} (of_doc : pyval → option A) (v : pyval)
  : option (list (string * A)) :=
  match v with
  | PDict kv =>
      mapM (fun entry => a ← of_doc (snd entry); Some (fst entry, a)) kv
  | _ => None
  end.

Definition metrics_of_doc (v : pyval) : option metrics :=
  entries_of_doc (entries_of_doc day_of_doc) v.

(** [load_metrics]: no file, or a file that cannot be read, gives [{}].
    [None] stands for a file that holds JSON of another shape than
    [update_channel_metrics] writes, which the model does not cover. *)
Definition load_metrics (metrics_file : path) (fs : gmap path node)
  : option metrics :=
  if path_exists metrics_file fs then
    match read_json metrics_file fs with
    | Return doc => metrics_of_doc doc
    | Raise _ => Some []
    end
  else Some [].

(** [save_metrics]: a failure to write is logged and goes no further. *)
Definition save_metrics (metrics_file : path) (m : metrics) : M unit :=
  try_except (write_json false metrics_file (metrics_doc m))
    (fun e => ret tt).

(** [update_channel_metrics], returning the new value of [self.metrics].
    The entries of the channel and of the day are created when absent, at
    the end of their dict. *)
Definition update_channel_metrics (metrics_file : path) (channel : string)
    (message_count image_count : Z) (m : metrics) : M metrics :=
  t <- now ;;
  let today := strftime_date t in
  let channel_data := default [] (assoc_get channel m) in
  let day :=
    default (mk_day_metrics 0 0 None 0) (assoc_get today channel_data) in
  last_scraped <- now ;;
  let day :=
    mk_day_metrics (dm_messages day + message_count)
      (dm_images day + image_count) (Some (isoformat last_scraped))
      (dm_scraping_count day + 1) in
  let m := assoc_set channel (assoc_set today day channel_data) m in
  save_metrics metrics_file m ;;;
  ret m.

(** [max(day["last_scraped"] for day in ...)]: [max] keeps the first of the
    largest values, and comparing [None] with anything raises. *)
Fixpoint max_from (best : option string) (rest : list (option string))
  : result (option string) :=
  match rest with
  | [] => Return best
  | x :: rest =>
      match best, x with
      | Some a, Some b => max_from (if String.ltb a b then x else best) rest
      | _, _ =>
          Raise (PyError "TypeError"
                   "'>' not supported between instances of 'NoneType' and 'str'")
      end
  end.

Definition get_channel_summary (channel : string) (m : metrics)
  : result dict :=
  match assoc_get channel m with
  | None => Return []
  | Some channel_data =>
      let days := map snd channel_data in
      match
        match map dm_last_scraped days with
        | [] => Return None
        | first :: rest => max_from first rest
        end
      with
      | Raise e => Raise e
      | Return last_scraped =>
          Return [("total_messages", PInt (sum_Z (map dm_messages days)));
                  ("total_images", PInt (sum_Z (map dm_images days)));
                  ("total_scrapes",
                   PInt (sum_Z (map dm_scraping_count days)));
                  ("days_scraped", PInt (len channel_data));
                  ("last_scraped", opt_str last_scraped)]
      end
  end.

(** [TelegramScraper.get_scraping_status] *)
Fixpoint channel_summaries (todo : list string) (m : metrics)
    (summaries : dict) : result dict :=
  match todo with
  | [] => Return summaries
  | channel :: rest =>
      match get_channel_summary channel m with
      | Raise e => Raise e
      | Return summary =>
          channel_summaries rest m (dict_set channel (PDict summary) summaries)
      end
  end.

Definition get_scraping_status (self : TelegramScraper) (m : metrics)
  : result dict :=
  match channel_summaries (channels self) m [] with
  | Raise e => Raise e
  | Return summaries =>
      Return [("configured_channels", PList (map PStr (channels self)));
              ("channel_summaries", PDict summaries)]
  end.

(** A sequence of calls of [update_channel_metrics]. *)
Fixpoint update_all (metrics_file : path) (calls : list (string * Z * Z))
    (m : metrics) : M metrics :=
  match calls with
  | [] => ret m
  | (channel, message_count, image_count) :: rest =>
      m <- update_channel_metrics metrics_file channel message_count
             image_count m ;;
      update_all metrics_file rest m
  end.

(** What the calls for [channel] add up to. *)
Definition calls_for (channel : string) (calls : list (string * Z * Z))
  : list (Z * Z) :=
  omap (fun call =>
          if String.eqb (fst (fst call)) channel
          then Some (snd (fst call), snd call) else None) calls.

Definition summary_field (k : string) (summary : dict) : Z :=
  match dict_get k summary with Some (PInt n) => n | _ => 0 end.

(** The days recorded for a channel, and a counter added up over them. *)
Definition days_of (channel : string) (m : metrics) : channel_metrics :=
  default [] (assoc_get channel m).

Definition channel_total (counter : day_metrics → Z) (channel : string)
    (m : metrics) : Z :=
  sum_Z (map counter (map snd (days_of channel m))).

(** Every day recorded for the channel has its [last_scraped]. *)
Definition stamped (channel : string) (m : metrics) : bool :=
  forallb (fun entry =>
             match dm_last_scraped (snd entry) with
             | Some _ => true
             | None => false
             end) (days_of channel m).

(** The metrics after one run on the 4th of March 2024. *)
Definition yesterday_metrics : metrics :=
  [("chemed",
    [("2024-03-04",
      mk_day_metrics 10 1 (Some "2024-03-04T08:00:00") 1)])].

(** ** [DataLakeManager.get_data_lake_stats] and [_get_directory_size] *)

(** [len(v)]; the length of a string is that of its encoding, which is the
    number of its characters when they are ASCII. *)
Definition py_len (v : pyval) : result Z :=
  match v with
  | PList l => Return (len l)
  | PDict kv => Return (len kv)
  | PStr s => Return (Z.of_nat (String.length s))
  | _ => Raise (PyError "TypeError" "object has no len()")
  end.

(** What a batch file adds to the message counts: nothing when it cannot be
    read or holds a value without a length ([except: pass]). *)
Definition counted_messages (fs : gmap path node) (file_path : path)
  : option Z :=
  match read_json file_path fs with
  | Return messages =>
      match py_len messages with
      | Return n => Some n
      | Raise _ => None
      end
  | Raise _ => None
  end.

(** The counters of the scan: [stats["total_messages"]] and, per channel in
    the order of first appearance, [stats["channel_stats"][c]["total_messages"]];
    the set [channels] has the same members as [channel_stats]. *)
Definition scan_state : Type := Z * list (string * Z).

(** The loop over [channel_dir.glob("messages_*.json")]. *)
Definition scan_files (fs : gmap path node) (name : string)
    (files : list path) (st : scan_state) : scan_state :=
  fold_left
    (fun st file_path =>
       match counted_messages fs file_path with
       | Some n =>
           (fst st + n,
            assoc_set name (default 0 (assoc_get name (snd st)) + n) (snd st))
       | None => st
       end)
    files st.

(** The body of [for channel_dir in date_dir.iterdir()]. *)
Definition scan_channel_dir (fs : gmap path node) (date_dir : path)
    (name : string) (st : scan_state) : scan_state :=
  let channel_dir := date_dir ++ [name] in
  match fs !! channel_dir with
  | Some Dir =>
      let st :=
        match assoc_get name (snd st) with
        | Some _ => st
        | None => (fst st, assoc_set name 0 (snd st))
        end in
      scan_files fs name
        (map (fun n => channel_dir ++ [n])
           (filter (fun n => is_batch_file n = true) (listdir channel_dir fs)))
        st
  | _ => st
  end.

(** The loop over [self.raw_dir.glob("telegram_messages/*")]: [iterdir] on an
    entry that is no directory raises. *)
Fixpoint scan_date_dirs (fs : gmap path node) (root : path)
    (names : list string) (st : scan_state) : result scan_state :=
  match names with
  | [] => Return st
  | name :: rest =>
      let date_dir := root ++ [name] in
      match fs !! date_dir with
      | Some Dir =>
          scan_date_dirs fs root rest
            (fold_left (fun st n => scan_channel_dir fs date_dir n st)
               (listdir date_dir fs) st)
      | _ =>
          Raise (PyError "NotADirectoryError"
                   ("[Errno 20] Not a directory: '" +:+ path_str date_dir
                    +:+ "'"))
      end
  end.

(** [min] and [max] of a non-empty set of strings. *)
Definition string_min (first : string) (rest : list string) : string :=
  fold_left (fun best s => if String.ltb s best then s else best) rest first.

Definition string_max (first : string) (rest : list string) : string :=
  fold_left (fun best s => if String.ltb best s then s else best) rest first.

Section LakeStats.

(** [file_path.stat().st_size] *)
Variable st_size : file → Z.

Definition _get_directory_size (directory : path) (fs : gmap path node) : Z :=
  if path_exists directory fs then
    sum_Z (omap (fun entry =>
                   match snd entry with
                   | File f =>
                       if bool_decide (directory `prefix_of` fst entry
                                       ∧ fst entry ≠ directory)
                       then Some (st_size f) else None
                   | Dir => None
                   end) (map_to_list fs))
  else 0.

Definition get_data_lake_stats (self : DataLakeManager)
    (fs : gmap path node) : result dict :=
  let all_dates := listdir (messages_root self) fs in
  match scan_date_dirs fs (messages_root self) all_dates (0, []) with
  | Raise e => Raise e
  | Return (total_messages, channel_stats) =>
      Return
        [("total_channels", PInt (len channel_stats));
         ("total_messages", PInt total_messages);
         ("total_images", PInt 0);
         ("total_documents", PInt 0);
         ("date_range",
          match all_dates with
          | [] => PDict []
          | first :: rest =>
              PDict [("earliest", PStr (string_min first rest));
                     ("latest", PStr (string_max first rest))]
          end);
         ("storage_size",
          PDict [("raw_messages",
                  PInt (_get_directory_size (messages_root self) fs));
                 ("raw_images",
                  PInt (_get_directory_size
                          (raw_dir self ++ ["telegram_images"]) fs));
                 ("raw_documents",
                  PInt (_get_directory_size
                          (raw_dir self ++ ["telegram_documents"]) fs))]);
         ("channel_stats",
          PDict (map (fun entry =>
                        (fst entry,
                         PDict [("total_messages", PInt (snd entry));
                                ("date_range",
                                 PDict [("earliest", PNone);
                                        ("latest", PNone)])]))
                   channel_stats))]
  end.

End LakeStats.

(** The [total_messages] of an entry of [channel_stats]. *)
Definition channel_messages (entry : pyval) : Z :=
  match entry with
  | PDict d =>
      match dict_get "total_messages" d with
      | Some (PInt n) => n
      | _ => 0
      end
  | _ => 0
  end.

(** Every entry of [telegram_messages] is a directory. *)
Definition partitions_are_dirs (self : DataLakeManager)
    (fs : gmap path node) : bool :=
  forallb (fun name =>
             match fs !! (messages_root self ++ [name]) with
             | Some Dir => true
             | _ => false
             end) (listdir (messages_root self) fs).

(** ** Partition names: [strftime] then [strptime] *)

(** The month and the day of the month of the [n]-th day (from 0) of a year,
    as the second half of [_ord2ymd] computes them. *)
Definition month_day (n : Z) (leapyear : bool) : Z * Z :=
  let month := Z.shiftr (n + 50) 5 in
  let preceding :=
    _DAYS_BEFORE_MONTH month + (if (2 <? month) && leapyear then 1 else 0) in
  if n <? preceding then
    let month := month - 1 in
    let preceding :=
      preceding - (_DAYS_IN_MONTH month
                   + (if (month =? 2) && leapyear then 1 else 0)) in
    (month, n - preceding + 1)
  else (month, n - preceding + 1).

(** What is expected of [month_day n leapyear]: a month, a day of that
    month, and [n] days of the year before it. *)
Definition month_day_ok (leapyear : bool) (n : Z) : bool :=
  let '(m, d) := month_day n leapyear in
  (1 <=? m) && (m <=? 12) && (1 <=? d)
  && (d <=? _DAYS_IN_MONTH m + (if (m =? 2) && leapyear then 1 else 0))
  && (_DAYS_BEFORE_MONTH m + (if (2 <? m) && leapyear then 1 else 0) + d
      =? n + 1).

(** ** Messages without a date *)

(** A record whose ['date'] is [None], as [_process_message] writes it for
    a message without date. *)
Definition undated (x : pyval) : bool :=
  match x with
  | PDict d =>
      match dict_get "date" d with
      | Some PNone => true
      | _ => false
      end
  | _ => false
  end.

Definition is_dict (x : pyval) : bool :=
  match x with PDict _ => true | _ => false end.

(** A service message: no date, no text. *)
Definition service_message : tl_message :=
  mk_tl_message 44 None None None None None [] [] None None (Return None).

(** Its record, and a lake that holds it beside [msg1]. *)
Definition service_record : dict :=
  match fst (_process_message ["data"] service_message "chemed" []
               (new_world noon)) with
  | Return (Some r, _) => r
  | _ => []
  end.

Definition undated_lake : world :=
  snd (save_messages toy_md5 toy_repr lake0 "chemed" [msg1; service_record]
         None (new_world noon)).

(** ** Properties of the client *)

Lemma iterate_yielded items mc ic :
  yielded (fst (iterate items mc ic)) = records items.
Proof.
  revert mc ic. induction items as [|i items IH]; intros mc ic; [done|].
  destruct i as [|[d|]]; simpl.
  - apply IH.
  - specialize (IH (mc + 1) (if has_image d then ic + 1 else ic)).
    destruct (iterate items _ _) as [steps counts]. simpl in *.
    unfold records; simpl. f_equal. exact IH.
  - specialize (IH mc ic). destruct (iterate items mc ic) as [steps counts].
    simpl in *. exact IH.
Qed.

Lemma yielded_app s1 s2 : yielded (s1 ++ s2) = yielded s1 ++ yielded s2.
Proof. unfold yielded. apply omap_app. Qed.

Lemma pauses_app s1 s2 : pauses (s1 ++ s2) = pauses s1 ++ pauses s2.
Proof. unfold pauses. apply omap_app. Qed.

Lemma scrape_messages_Ends channel limit offset items :
  yielded (fst (scrape_messages channel limit offset (Ends items)))
  = records items
  ∧ snd (scrape_messages channel limit offset (Ends items)) = None.
Proof.
  simpl. pose proof (iterate_yielded items 0 0) as H.
  destruct (iterate items 0 0) as [steps [mc ic]]. simpl in *.
  split; [|done]. unfold yielded in *. simpl.
  rewrite omap_app, H. simpl. apply app_nil_r.
Qed.

Lemma scrape_messages_flood channel limit offset items seconds msg retry :
  yielded (fst (scrape_messages channel limit offset
                  (Raises items (FloodWaitError seconds msg) retry)))
  = records items
    ++ yielded (fst (scrape_messages channel limit offset retry))
  ∧ snd (scrape_messages channel limit offset
           (Raises items (FloodWaitError seconds msg) retry))
    = snd (scrape_messages channel limit offset retry)
  ∧ seconds * 1000
    ∈ pauses (fst (scrape_messages channel limit offset
                     (Raises items (FloodWaitError seconds msg) retry))).
Proof.
  simpl. pose proof (iterate_yielded items 0 0) as H.
  destruct (iterate items 0 0) as [steps counts].
  destruct (scrape_messages channel limit offset retry) as [again ending].
  simpl in *. split; [|split; [done|]].
  - unfold yielded in *. simpl. rewrite omap_app, H. done.
  - unfold pauses. simpl. rewrite omap_app. apply elem_of_app. right.
    simpl. left.
Qed.

(** C1: a rate limit after the first [k] delivered items makes the consumer
    wait [seconds] seconds, and the retry then starts the iteration over: the
    consumer receives the records of the first [k] items, then the whole
    sequence again.  Nothing is lost, but everything yielded before the rate
    limit is yielded twice, where an uninterrupted run yields [records items]
    once. *)
Theorem scrape_messages_flood_restarts
    channel limit offset (k : nat) items seconds msg :
  let uninterrupted := scrape_messages channel limit offset (Ends items) in
  let interrupted :=
    scrape_messages channel limit offset
      (Raises (take k items) (FloodWaitError seconds msg) (Ends items)) in
  yielded (fst uninterrupted) = records items
  ∧ yielded (fst interrupted) = records (take k items) ++ records items
  ∧ snd interrupted = None
  ∧ seconds * 1000 ∈ pauses (fst interrupted).
Proof.
  intros uninterrupted interrupted.
  destruct (scrape_messages_Ends channel limit offset items) as [Hy He].
  destruct (scrape_messages_flood channel limit offset (take k items) seconds
              msg (Ends items)) as (Hf & Hs & Hp).
  subst uninterrupted interrupted. rewrite Hf, Hs, Hy, He. done.
Qed.

(** The rate-limit scenario of the specification: two messages, a wait of 5
    seconds signalled after the first; the first message arrives twice. *)
Example scrape_messages_flood_duplicates :
  let interrupted :=
    scrape_messages "chemed" 1000 None
      (Raises [Message (Some msg1)] (FloodWaitError 5 "A wait of 5 seconds is required")
         (Ends [Message (Some msg1); Message (Some msg2)])) in
  yielded (fst interrupted) = [msg1; msg1; msg2]
  ∧ pauses (fst interrupted) = [100; 5000; 100; 100]
  ∧ yielded (fst (scrape_messages "chemed" 1000 None
                    (Ends [Message (Some msg1); Message (Some msg2)])))
    = [msg1; msg2].
Proof. done. Qed.

(** C8, as stated, fails: on a transport-level failure of the entity lookup
    [get_channel_info] does not raise, it returns [None] like for a missing
    channel. *)
Lemma get_channel_info_transport_failure_not_raised :
  fst (get_channel_info offline_platform "chemed"
         (new_world (datetime_of 2024 3 5 12 0 0 0)))
  = Return None.
Proof. reflexivity. Qed.

(** C8, amended: [get_channel_info] never raises.  It returns the channel's
    metadata when the entity lookup succeeds, and logs the error and returns
    [None] whenever the lookup raises, whatever the exception. *)
Theorem get_channel_info_never_raises tg channel_username w :
  fst (get_channel_info tg channel_username w)
  = Return (match tg_get_entity tg channel_username with
            | Return e => Some (channel_info_of e)
            | Raise _ => None
            end).
Proof.
  unfold get_channel_info, try_except, bind, lift, ret.
  destruct (tg_get_entity tg channel_username); reflexivity.
Qed.

(** ** Properties of the scraper *)

Lemma iterate_quiet items mc ic :
  forallb quiet_step (fst (iterate items mc ic)) = true.
Proof.
  revert mc ic. induction items as [|i items IH]; intros mc ic; [done|].
  destruct i as [|[d|]]; simpl.
  - apply IH.
  - specialize (IH (mc + 1) (if has_image d then ic + 1 else ic)).
    destruct (iterate items _ _) as [steps counts]. exact IH.
  - specialize (IH mc ic). destruct (iterate items mc ic) as [steps counts].
    exact IH.
Qed.

Lemma scrape_messages_quiet channel limit offset platform :
  forallb quiet_step (fst (scrape_messages channel limit offset platform)) = true.
Proof.
  induction platform as [items|items e retry IH]; simpl.
  - pose proof (iterate_quiet items 0 0) as H.
    destruct (iterate items 0 0) as [steps [mc ic]]. simpl in *.
    rewrite forallb_app, H. done.
  - pose proof (iterate_quiet items 0 0) as H.
    destruct (iterate items 0 0) as [steps counts]. simpl in *.
    destruct e as [seconds msg|msg|msg|cls msg]; simpl.
    + destruct (scrape_messages channel limit offset retry) as [again ending].
      simpl in *. rewrite forallb_app, H. simpl. exact IH.
    + rewrite forallb_app, H. done.
    + rewrite forallb_app, H. done.
    + rewrite forallb_app, H. done.
Qed.

Lemma batches_from_spec acc ys :
  (length acc < 100)%nat →
  let '(bs, fin) := batches_from acc ys in
  concat bs ++ fin = acc ++ ys
  ∧ Forall (fun b => length b = 100%nat) bs
  ∧ (length fin < 100)%nat.
Proof.
  revert acc. induction ys as [|y ys IH]; intros acc Hacc; simpl.
  - rewrite app_nil_r. done.
  - unfold len. rewrite length_app. simpl.
    destruct (Z.leb_spec 100 (Z.of_nat (length acc + 1))) as [Hge|Hlt].
    + specialize (IH [] ltac:(simpl; lia)).
      destruct (batches_from [] ys) as [bs fin]. destruct IH as (Hc & Hf & Hl).
      split; [|split; [|done]].
      * simpl. rewrite <- !app_assoc. simpl in *. rewrite Hc. done.
      * constructor; [|done]. rewrite length_app. simpl. lia.
    + specialize (IH (acc ++ [y])). rewrite length_app in IH. simpl in IH.
      specialize (IH ltac:(lia)).
      destruct (batches_from (acc ++ [y]) ys) as [bs fin].
      destruct IH as (Hc & Hf & Hl). rewrite <- app_assoc in Hc. done.
Qed.

Lemma batches_from_count ys bs fin :
  batches_from [] ys = (bs, fin) →
  length bs = (length ys / 100)%nat ∧ length fin = (length ys mod 100)%nat.
Proof.
  intros Hb. pose proof (batches_from_spec [] ys ltac:(simpl; lia)) as H.
  rewrite Hb in H. destruct H as (Hc & Hf & Hl). simpl in Hc.
  assert (length ys = (100 * length bs + length fin)%nat) as Hlen.
  { rewrite <- Hc, length_app. f_equal. clear -Hf.
    induction Hf as [|b bs Hb _ IH]; [done|].
    simpl. rewrite length_app, IH, Hb. lia. }
  split.
  - apply (Nat.div_unique _ _ _ (length fin)); [lia|]. lia.
  - apply (Nat.mod_unique _ _ (length bs)); [lia|]. lia.
Qed.

Ltac run :=
  unfold try_except, bind, ret, raise, lift, emit, now, set_fs, get_world;
  simpl.

Lemma save_batch_run channel msgs dir w :
  let p := dir ++ [batch_filename (strftime_stamp (w_clock w (w_tick w)))
                     (length msgs)] in
  let f := JsonText (PList (map PDict msgs)) in
  w_denied w p = false →
  forallb json_serializable (map PDict msgs) = true →
  _save_messages_batch channel msgs dir w
  = (Return tt,
     mk_world (w_clock w) (S (w_tick w)) (<[p := File f]> (w_fs w))
       (w_denied w)
       (w_events w ++ [WriteFile p f; LogDataSaved channel (path_str p) (len msgs)])).
Proof.
  intros p f Hden Hser. unfold _save_messages_batch, write_json. run.
  fold p. rewrite Hden. simpl. rewrite Hser. simpl.
  rewrite <- app_assoc. done.
Qed.

Lemma batch_writes_app e1 e2 :
  batch_writes (e1 ++ e2) = batch_writes e1 ++ batch_writes e2.
Proof. unfold batch_writes. apply omap_app. Qed.

Lemma consume_run channel dir steps :
  ∀ acc mc ic w,
    (∀ name, w_denied w (dir ++ [name]) = false) →
    forallb json_serializable (map PDict (acc ++ yielded steps)) = true →
    forallb quiet_step steps = true →
    ∃ w' new,
      consume channel dir steps acc mc ic w
      = (Return (snd (batches_from acc (yielded steps)),
                 mc + len (yielded steps),
                 ic + count_images (yielded steps)), w')
      ∧ w_denied w' = w_denied w
      ∧ w_events w' = w_events w ++ new
      ∧ batch_writes new
        = map (map PDict) (fst (batches_from acc (yielded steps))).
Proof.
  induction steps as [|s steps IH]; intros acc mc ic w Hden Hser Hq.
  - exists w, []. simpl. unfold count_images, len. simpl.
    rewrite !Z.add_0_r, app_nil_r. done.
  - simpl in Hq. apply andb_prop in Hq as [Hs Hq]. destruct s as [d|e].
    + change (yielded (Yield d :: steps)) with (d :: yielded steps) in *.
      simpl.
      assert (ic + count_images (d :: yielded steps)
              = (if has_image d then ic + 1 else ic)
                + count_images (yielded steps)) as Hic.
      { unfold count_images, len. rewrite filter_cons.
        destruct (has_image d); simpl; [|lia].
        destruct (decide (true = true)); [|done]. simpl. lia. }
      assert (mc + len (d :: yielded steps) = mc + 1 + len (yielded steps))
        as Hmc by (unfold len; simpl; lia).
      rewrite Hic, Hmc. clear Hic Hmc.
      destruct (100 <=? len (acc ++ [d])) eqn:Hfull.
      * assert (forallb json_serializable (map PDict (acc ++ [d])) = true
                ∧ forallb json_serializable (map PDict ([] ++ yielded steps))
                  = true) as [Hs1 Hs2].
        { replace (acc ++ d :: yielded steps)
            with ((acc ++ [d]) ++ yielded steps) in Hser
            by (rewrite <- app_assoc; done).
          rewrite map_app, forallb_app in Hser.
          apply andb_prop in Hser. done. }
        unfold bind at 1.
        rewrite save_batch_run; [|apply Hden|exact Hs1].
        match goal with
        | |- context [consume _ _ _ _ _ _ ?w1] =>
            destruct (IH [] (mc + 1) (if has_image d then ic + 1 else ic) w1)
              as (w' & new & Hrun & Hd & He & Hb); [exact Hden|exact Hs2|exact Hq|]
        end.
        rewrite Hrun. simpl in Hd, He.
        destruct (batches_from [] (yielded steps)) as [bs fin]. simpl in *.
        eexists w', _. split; [done|]. split; [done|]. split.
        { rewrite He, <- app_assoc. done. }
        rewrite batch_writes_app, Hb. done.
      * destruct (IH (acc ++ [d]) (mc + 1) (if has_image d then ic + 1 else ic) w)
          as (w' & new & Hrun & Hd & He & Hb); [exact Hden| |exact Hq|].
        { rewrite <- app_assoc. exact Hser. }
        rewrite Hrun. exists w', new. done.
    + change (yielded (Effect e :: steps)) with (yielded steps) in *.
      simpl. unfold bind at 1. unfold emit at 1.
      match goal with
      | |- context [consume _ _ _ _ _ _ ?w1] =>
          destruct (IH acc mc ic w1)
            as (w' & new & Hrun & Hd & He & Hb); [exact Hden|exact Hser|exact Hq|]
      end.
      rewrite Hrun. simpl in Hd, He. exists w', (e :: new).
      split; [done|]. split; [done|]. split.
      { rewrite He, <- app_assoc. done. }
      destruct e; try exact Hb. simpl in Hs. done.
Qed.

Lemma lengths_all_100 {A} (bs : list (list A)) :
  Forall (fun b => length b = 100%nat) bs →
  map length bs = replicate (length bs) 100%nat.
Proof.
  induction 1 as [|b bs Hb _ IH]; [done|]. simpl. rewrite Hb, IH. done.
Qed.


(** *** Effects of the building blocks *)

Lemma stable_refl Q w : stable Q w w.
Proof.
  repeat split; try done. exists []. rewrite app_nil_r. done.
Qed.

Lemma stable_trans Q w1 w2 w3 :
  stable Q w1 w2 → stable Q w2 w3 → stable Q w1 w3.
Proof.
  intros (Hc1 & Hd1 & Ht1 & n1 & He1 & Hq1) (Hc2 & Hd2 & Ht2 & n2 & He2 & Hq2).
  repeat split; try congruence; try lia.
  exists (n1 ++ n2). rewrite He2, He1, <- app_assoc. split; [done|].
  apply Forall_app. done.
Qed.

Lemma frames_ret {A} Q (a : A) : frames Q (ret a).
Proof. intros w. apply stable_refl. Qed.

Lemma frames_raise {A} Q e : frames Q (@raise A e).
Proof. intros w. apply stable_refl. Qed.

Lemma frames_lift {A} Q (r : result A) : frames Q (lift r).
Proof. intros w. apply stable_refl. Qed.

Lemma frames_get_world Q : frames Q get_world.
Proof. intros w. apply stable_refl. Qed.

Lemma frames_now Q : frames Q now.
Proof.
  intros w. simpl. repeat split; try done; simpl; [lia|].
  exists []. rewrite app_nil_r. done.
Qed.

Lemma frames_set_fs Q fs : frames Q (set_fs fs).
Proof.
  intros w. simpl. repeat split; try done.
  exists []. simpl. rewrite app_nil_r. done.
Qed.

Lemma frames_emit (Q : event → Prop) e : Q e → frames Q (emit e).
Proof.
  intros He w. simpl. repeat split; try done.
  exists [e]. simpl. split; [done|]. constructor; done.
Qed.

Lemma frames_bind {A B} Q (m : M A) (k : A → M B) :
  frames Q m → (∀ a, frames Q (k a)) → frames Q (bind m k).
Proof.
  intros Hm Hk w. unfold bind. specialize (Hm w).
  destruct (m w) as [[a|e] w1]; simpl in *; [|done].
  eapply stable_trans; [exact Hm|]. apply Hk.
Qed.

Lemma frames_try_except {A} Q (m : M A) (h : exn → M A) :
  frames Q m → (∀ e, frames Q (h e)) → frames Q (try_except m h).
Proof.
  intros Hm Hh w. unfold try_except. specialize (Hm w).
  destruct (m w) as [[a|e] w1]; simpl in *; [done|].
  eapply stable_trans; [exact Hm|]. apply Hh.
Qed.

Lemma frames_if {A} Q (c : bool) (m1 m2 : M A) :
  frames Q m1 → frames Q m2 → frames Q (if c then m1 else m2).
Proof. destruct c; done. Qed.

Lemma frames_write_json Q gz p doc :
  (∀ f, Q (WriteFile p f)) → frames Q (write_json gz p doc).
Proof.
  intros HQ. unfold write_json. apply frames_bind; [apply frames_get_world|].
  intros w. repeat apply frames_if; try apply frames_raise;
    repeat (apply frames_bind; [|intros ?]);
    auto using frames_set_fs, frames_emit, frames_raise.
Qed.

Lemma frames_mkdir_p Q p : Q (Mkdir p) → frames Q (mkdir_p p).
Proof.
  intros HQ. unfold mkdir_p. apply frames_bind; [apply frames_get_world|].
  intros w. repeat apply frames_if; try apply frames_raise.
  apply frames_bind; [apply frames_set_fs|]. intros _. by apply frames_emit.
Qed.

Lemma returns_ret {A} (a : A) : returns (ret a).
Proof. intros w. by exists a. Qed.

Lemma returns_emit e : returns (emit e).
Proof. intros w. by exists tt. Qed.

Lemma returns_now : returns now.
Proof. intros w. by eexists. Qed.

Lemma returns_bind {A B} (m : M A) (k : A → M B) :
  returns m → (∀ a, returns (k a)) → returns (bind m k).
Proof.
  intros Hm Hk w. unfold bind. destruct (Hm w) as [a Ha].
  destruct (m w) as [[a'|e] w1]; simpl in *; [|done]. apply Hk.
Qed.

Lemma returns_try_except {A} (m : M A) (h : exn → M A) :
  (∀ e, returns (h e)) → returns (try_except m h).
Proof.
  intros Hh w. unfold try_except.
  destruct (m w) as [[a|e] w1]; simpl; [by exists a|]. apply Hh.
Qed.

Lemma post_ret {A} (a : A) (P : A → Prop) : P a → post (ret a) P.
Proof. intros Ha w a' w' [= <- _]. exact Ha. Qed.

Lemma post_raise {A} e (P : A → Prop) : post (raise e) P.
Proof. intros w a w' [=]. Qed.

Lemma post_bind {A B} (m : M A) (k : A → M B) (R : A → Prop) (P : B → Prop) :
  post m R → (∀ a, R a → post (k a) P) → post (bind m k) P.
Proof.
  intros Hm Hk w b w'. unfold bind.
  destruct (m w) as [[a|e] w1] eqn:Hrun; [|done].
  intros Hb. eapply Hk; [|exact Hb]. eapply Hm. exact Hrun.
Qed.

Lemma post_true {A} (m : M A) : post m (fun _ => True).
Proof. done. Qed.

Lemma post_try_except {A} (m : M A) (h : exn → M A) (P : A → Prop) :
  post m P → (∀ e, post (h e) P) → post (try_except m h) P.
Proof.
  intros Hm Hh w a w'. unfold try_except.
  destruct (m w) as [[a'|e] w1] eqn:Hrun.
  - intros [= <- <-]. eapply Hm. exact Hrun.
  - apply Hh.
Qed.

Lemma post_write_json gz p doc :
  post (write_json gz p doc) (fun _ => json_serializable doc = true).
Proof.
  intros w a w'. unfold write_json. run.
  destruct (w_denied w p); [done|].
  destruct (json_serializable doc); done.
Qed.

Lemma not_report_below self (rest : path) :
  (2 < length rest)%nat →
  is_report_path self (scraper_data_dir self ++ rest) = false.
Proof.
  intros Hlen. unfold is_report_path. rewrite drop_app_length.
  destruct rest as [|a [|b [|c rest]]]; simpl in Hlen; [lia..|].
  apply andb_false_r.
Qed.

Lemma not_report_in_channel_dir self date_str channel name f :
  not_a_report self
    (WriteFile ((raw_messages_dir self ++ [date_str; channel]) ++ [name]) f).
Proof.
  unfold not_a_report, raw_messages_dir. rewrite <- !app_assoc.
  apply not_report_below. simpl. lia.
Qed.

Lemma save_batch_returns channel msgs dir :
  returns (_save_messages_batch channel msgs dir).
Proof.
  unfold _save_messages_batch. apply returns_try_except.
  intros e. apply returns_emit.
Qed.

Lemma save_batch_frames self channel msgs date_str ch :
  frames (not_a_report self)
    (_save_messages_batch channel msgs (raw_messages_dir self ++ [date_str; ch])).
Proof.
  unfold _save_messages_batch. apply frames_try_except.
  - apply frames_bind; [apply frames_now|]. intros t.
    apply frames_bind.
    + apply frames_write_json. intros f. apply not_report_in_channel_dir.
    + intros _. by apply frames_emit.
  - intros e. by apply frames_emit.
Qed.

Lemma quiet_not_report self e :
  quiet_step (Effect e) = true → not_a_report self e.
Proof. destruct e; done. Qed.

Lemma consume_returns channel dir steps :
  ∀ acc mc ic, returns (consume channel dir steps acc mc ic).
Proof.
  induction steps as [|[d|e] steps IH]; intros acc mc ic; simpl.
  - apply returns_ret.
  - destruct (100 <=? len (acc ++ [d])); [|apply IH].
    apply returns_bind; [apply save_batch_returns|]. intros _. apply IH.
  - apply returns_bind; [apply returns_emit|]. intros _. apply IH.
Qed.

Lemma consume_frames self channel date_str ch steps :
  forallb quiet_step steps = true →
  ∀ acc mc ic,
    frames (not_a_report self)
      (consume channel (raw_messages_dir self ++ [date_str; ch]) steps acc mc ic).
Proof.
  induction steps as [|[d|e] steps IH]; intros Hq acc mc ic; simpl.
  - apply frames_ret.
  - destruct (100 <=? len (acc ++ [d])); [|by apply IH].
    apply frames_bind; [apply save_batch_frames|]. intros _. by apply IH.
  - simpl in Hq. apply andb_prop in Hq as [He Hq].
    apply frames_bind; [|intros _; by apply IH].
    apply frames_emit. by apply quiet_not_report.
Qed.

Lemma scrape_loop_frames self channel date_str ch stream :
  forallb quiet_step (fst stream) = true →
  frames (not_a_report self)
    (scrape_loop channel (raw_messages_dir self ++ [date_str; ch]) stream).
Proof.
  intros Hq. unfold scrape_loop.
  apply frames_bind; [by apply consume_frames|].
  intros [[messages mc] ic]. destruct (snd stream); [apply frames_raise|].
  apply frames_bind; [|intros _; apply frames_ret].
  destruct messages; [apply frames_ret|apply save_batch_frames].
Qed.

Lemma scrape_loop_post channel dir stream :
  post (scrape_loop channel dir stream) (fun _ => snd stream = None).
Proof.
  unfold scrape_loop. eapply post_bind; [apply post_true|].
  intros [[messages mc] ic] _. destruct (snd stream); [apply post_raise|].
  intros w a w' _. done.
Qed.

Lemma scrape_loop_raises channel dir stream e w :
  snd stream = Some e →
  fst (scrape_loop channel dir stream w) = Raise e.
Proof.
  intros He. unfold scrape_loop, bind.
  destruct (consume_returns channel dir (fst stream) [] 0 0 w) as [a Ha].
  destruct (consume channel dir (fst stream) [] 0 0 w) as [[a'|e'] w1];
    simpl in Ha; [|done].
  destruct a' as [[messages mc] ic]. rewrite He. done.
Qed.

Lemma get_channel_info_frames self tg channel :
  frames (not_a_report self) (get_channel_info tg channel).
Proof.
  unfold get_channel_info. apply frames_try_except.
  - apply frames_bind; [apply frames_lift|]. intros e. apply frames_ret.
  - intros e. apply frames_bind; [by apply frames_emit|].
    intros _. apply frames_ret.
Qed.

Lemma scrape_channel_returns self tg channel limit offset :
  returns (_scrape_channel self tg channel limit offset).
Proof.
  unfold _scrape_channel. apply returns_try_except. intros e.
  apply returns_bind; [apply returns_emit|]. intros _. apply returns_ret.
Qed.

Lemma scrape_channel_frames self tg channel limit offset :
  frames (not_a_report self) (_scrape_channel self tg channel limit offset).
Proof.
  unfold _scrape_channel. apply frames_try_except.
  - apply frames_bind; [apply get_channel_info_frames|].
    intros [info|]; [|apply frames_ret].
    apply frames_bind; [apply frames_now|]. intros t.
    apply frames_bind; [by apply frames_mkdir_p|]. intros _.
    apply frames_bind.
    { apply scrape_loop_frames. apply scrape_messages_quiet. }
    intros [mc ic]. apply frames_bind; [apply frames_now|]. intros t2.
    apply frames_bind.
    { apply frames_write_json. intros f. apply not_report_in_channel_dir. }
    intros _. apply frames_bind; [by apply frames_emit|].
    intros _. apply frames_ret.
  - intros e. apply frames_bind; [by apply frames_emit|].
    intros _. apply frames_ret.
Qed.

Lemma scrape_channel_post self tg channel limit offset :
  post (_scrape_channel self tg channel limit offset)
    (fun r =>
       is_outcome r
       ∧ ∀ e, snd (scrape_messages channel limit offset
                     (tg_iter_messages tg channel)) = Some e →
              ∃ text, r = error_result text).
Proof.
  unfold _scrape_channel. apply post_try_except.
  - eapply post_bind; [apply post_true|]. intros [info|] _.
    2:{ apply post_ret. split; [left|]; eauto. }
    eapply post_bind; [apply post_true|]. intros t _.
    eapply post_bind; [apply post_true|]. intros _ _.
    eapply post_bind; [apply scrape_loop_post|]. intros [mc ic] Hend.
    eapply post_bind; [apply post_true|]. intros t2 _.
    eapply post_bind; [apply post_write_json|]. intros u Hser.
    eapply post_bind; [apply post_true|]. intros _ _.
    apply post_ret. split.
    + right. eexists _, _, _, _. split; [done|].
      simpl in Hser. apply andb_prop in Hser as [Hinfo _].
      exact Hinfo.
    + intros e He. rewrite Hend in He. done.
  - intros e. eapply post_bind; [apply post_true|]. intros _ _.
    apply post_ret. split; [left|]; eauto.
Qed.

Lemma run_cases {A} (m : M A) (P : A → Prop) w :
  returns m → post m P →
  ∃ a w', m w = (Return a, w') ∧ P a.
Proof.
  intros Hr Hp. destruct (Hr w) as [a Ha].
  destruct (m w) as [[a'|e] w'] eqn:Hrun; simpl in Ha; [|done].
  exists a', w'. split; [done|]. eapply Hp. exact Hrun.
Qed.

Lemma scrape_channel_info_failure self tg channel limit offset w e :
  tg_get_entity tg channel = Raise e →
  fst (_scrape_channel self tg channel limit offset w)
  = Return (error_result "Could not get channel info").
Proof.
  intros He. unfold _scrape_channel, get_channel_info. run. rewrite He. done.
Qed.

Lemma scrape_channel_stream_failure self tg channel limit offset w en e :
  let channel_dir :=
    raw_messages_dir self ++ [strftime_date (w_clock w (w_tick w)); channel] in
  tg_get_entity tg channel = Return en →
  w_denied w channel_dir = false →
  existsb (is_file (w_fs w)) (ancestors channel_dir) = false →
  snd (scrape_messages channel limit offset (tg_iter_messages tg channel))
  = Some e →
  fst (_scrape_channel self tg channel limit offset w)
  = Return (error_result (exn_str e)).
Proof.
  intros channel_dir Hen Hden Hfile He.
  unfold _scrape_channel, get_channel_info, mkdir_p. run. rewrite Hen. simpl.
  fold channel_dir. rewrite Hden, Hfile. simpl.
  match goal with
  | |- context [scrape_loop ?c ?d ?s ?w1] =>
      pose proof (scrape_loop_raises c d s e w1 He) as Hraise;
      destruct (scrape_loop c d s w1) as [r w2]
  end.
  simpl in Hraise. subst r. done.
Qed.



(** *** Dictionaries *)

Lemma dict_get_set_eq k v (d : dict) : dict_get k (dict_set k v d) = Some v.
Proof.
  induction d as [|[k' v'] d IH]; simpl.
  - by rewrite String.eqb_refl.
  - destruct (String.eqb k k') eqn:E; simpl.
    + by rewrite String.eqb_refl.
    + by rewrite E.
Qed.

Lemma dict_get_set_ne k k' v (d : dict) :
  k ≠ k' → dict_get k' (dict_set k v d) = dict_get k' d.
Proof.
  intros Hne. induction d as [|[k0 v0] d IH]; simpl.
  - destruct (String.eqb_spec k' k); [congruence|done].
  - destruct (String.eqb_spec k k0) as [->|Hk]; simpl.
    + destruct (String.eqb_spec k' k0); [congruence|done].
    + destruct (String.eqb_spec k' k0); [done|exact IH].
Qed.

Lemma dict_get_elem k v (d : dict) : dict_get k d = Some v → (k, v) ∈ d.
Proof.
  induction d as [|[k' v'] d IH]; simpl; [done|].
  destruct (String.eqb_spec k k') as [->|Hk].
  - intros [= ->]. left.
  - intros H. right. by apply IH.
Qed.

Lemma dict_set_Forall (P : string * pyval → Prop) k v (d : dict) :
  Forall P d → P (k, v) → Forall P (dict_set k v d).
Proof.
  intros Hd Hkv. induction Hd as [|[k' v'] d Hx Hd IH]; simpl.
  - by constructor.
  - destruct (String.eqb k k'); constructor; done.
Qed.

(** *** The loop over the channels and the report *)

Lemma scrape_channels_run self tg limit offset todo :
  ∀ results w,
    results_ok tg limit offset results →
    ∃ results' w',
      scrape_channels self tg todo limit offset results w = (Return results', w')
      ∧ stable (not_a_report self) w w'
      ∧ results_ok tg limit offset results'
      ∧ ∀ ch, ch ∈ todo ∨ is_Some (dict_get ch results) →
              is_Some (dict_get ch results').
Proof.
  induction todo as [|channel todo IH]; intros results w Hok.
  - exists results, w. simpl. split; [done|]. split; [apply stable_refl|].
    split; [done|]. intros ch [Hin|H]; [by apply elem_of_nil in Hin|done].
  - simpl.
    destruct (run_cases (_scrape_channel self tg channel limit offset) _ w
                (scrape_channel_returns _ _ _ _ _)
                (scrape_channel_post _ _ _ _ _)) as (r & w1 & Hrun & Hout).
    pose proof (scrape_channel_frames self tg channel limit offset w) as Hst.
    rewrite Hrun in Hst. simpl in Hst.
    set (results1 := dict_set channel (PDict r) results).
    assert (results_ok tg limit offset results1) as Hok1.
    { apply dict_set_Forall; [exact Hok|]. exists r. done. }
    destruct (IH results1
                (mk_world (w_clock w1) (w_tick w1) (w_fs w1) (w_denied w1)
                   (w_events w1 ++ [Sleep 2000])) Hok1)
      as (results' & w' & Hrest & Hst' & Hok' & Hin').
    exists results', w'. unfold bind at 1. unfold try_except at 1.
    unfold bind at 1. rewrite Hrun. unfold bind at 1. unfold emit at 1.
    unfold ret at 1. fold results1. rewrite Hrest.
    split; [done|]. split; [|split; [done|]].
    + eapply stable_trans; [exact Hst|].
      eapply stable_trans; [|exact Hst'].
      repeat split; try done. exists [Sleep 2000]. simpl. split; [done|].
      by constructor.
    + intros ch Hch. apply Hin'.
      destruct (decide (ch = channel)) as [->|Hne].
      * right. unfold results1. rewrite dict_get_set_eq. by eexists.
      * destruct Hch as [Hch|Hch].
        -- left. apply elem_of_cons in Hch as [?|?]; done.
        -- right. unfold results1. by rewrite dict_get_set_ne.
Qed.

Lemma outcome_serializable r :
  is_outcome r → json_serializable (PDict r) = true.
Proof.
  intros [[text ->]|(info & mc & ic & p & -> & Hinfo)]; [done|].
  simpl in *. rewrite Hinfo. done.
Qed.

Lemma results_serializable tg limit offset results :
  results_ok tg limit offset results → json_serializable (PDict results) = true.
Proof.
  intros Hok. simpl. induction Hok as [|[ch v] results (r & Hv & Hout & _) _ IH];
    [done|].
  simpl in *. subst v. rewrite IH, andb_true_r.
  by apply outcome_serializable.
Qed.

Lemma tally_results_ok tg limit offset results :
  results_ok tg limit offset results →
  ∀ t, ∃ t', tally_results results t = Return t'.
Proof.
  induction 1 as [|[ch v] results (r & Hv & Hout & _) _ IH]; intros t.
  - by exists t.
  - simpl in Hv. subst v.
    destruct Hout as [[text ->]|(info & mc & ic & p & -> & _)]; simpl; apply IH.
Qed.

Lemma report_run self results w t :
  let p := report_path self (strftime_stamp (w_clock w (S (w_tick w)))) in
  let f := JsonText (report_doc (isoformat (w_clock w (w_tick w)))
                       (len (channels self)) t results) in
  tally_results results (mk_tally 0 0 0 0) = Return t →
  w_denied w p = false →
  json_serializable (PDict results) = true →
  _generate_scraping_report self results w
  = (Return tt,
     mk_world (w_clock w) (S (S (w_tick w))) (<[p := File f]> (w_fs w))
       (w_denied w) (w_events w ++ [WriteFile p f])).
Proof.
  intros p f Ht Hden Hser. unfold _generate_scraping_report, write_json. run.
  rewrite Ht. simpl. fold p. rewrite Hden.
  simpl in Hser. simpl. rewrite Hser. done.
Qed.

Lemma reports_written_app self e1 e2 :
  reports_written self (e1 ++ e2)
  = reports_written self e1 ++ reports_written self e2.
Proof. unfold reports_written. apply omap_app. Qed.

Lemma reports_written_none self events :
  Forall (not_a_report self) events → reports_written self events = [].
Proof.
  induction 1 as [|e events He _ IH]; [done|].
  change (e :: events) with ([e] ++ events).
  rewrite reports_written_app, IH, app_nil_r.
  destruct e; try done. simpl in He. unfold reports_written. simpl.
  by rewrite He.
Qed.

Lemma report_path_is_report self timestamp :
  is_report_path self (report_path self timestamp) = true.
Proof.
  unfold is_report_path, report_path.
  rewrite take_app_length, drop_app_length.
  rewrite bool_decide_eq_true_2 by done. reflexivity.
Qed.



(** ** Properties of the data lake manager *)

(** *** Strings and paths *)

Lemma str_app_cons c a b : String c a +:+ b = String c (a +:+ b).
Proof. reflexivity. Qed.

Lemma str_app_assoc a b c : (a +:+ b) +:+ c = a +:+ (b +:+ c).
Proof.
  induction a as [|x a IH]; [done|]. rewrite !str_app_cons, IH. done.
Qed.

Lemma str_length_app a b :
  String.length (a +:+ b) = (String.length a + String.length b)%nat.
Proof.
  induction a as [|x a IH]; [done|]. rewrite str_app_cons. simpl.
  by rewrite IH.
Qed.

Lemma split_last_dot_json stem :
  split_last_dot (stem +:+ ".json") = Some (stem, ".json").
Proof.
  induction stem as [|c stem IH]; [done|].
  rewrite str_app_cons. simpl. rewrite IH. done.
Qed.

Lemma with_suffix_last (d : path) name suffix :
  with_suffix (d ++ [name]) suffix
  = d ++ [fst (name_split_suffix name) +:+ suffix].
Proof.
  induction d as [|c d IH]; [done|]. simpl. rewrite IH.
  destruct (d ++ [name]) eqn:E; [|done]. by destruct d.
Qed.

Lemma batch_file_gz (d : path) timestamp count :
  with_suffix (d ++ [batch_filename timestamp count]) ".json.gz"
  = d ++ [batch_filename timestamp count +:+ ".gz"].
Proof.
  rewrite with_suffix_last. unfold batch_filename, name_split_suffix.
  rewrite <- !str_app_assoc, split_last_dot_json. simpl.
  rewrite !str_app_assoc. done.
Qed.

Lemma str_app_gz_ne name : name ≠ name +:+ ".gz".
Proof.
  intros H. apply (f_equal String.length) in H.
  rewrite str_length_app in H. simpl in H. lia.
Qed.

Lemma path_ne_child (d : path) name : d ≠ d ++ [name].
Proof.
  intros H. apply (f_equal length) in H. rewrite length_app in H.
  simpl in H. lia.
Qed.

(** *** Directories *)

Lemma make_dirs_keeps (ps : list path) (fs : gmap path node) (p : path) x :
  fs !! p = Some x → make_dirs ps fs !! p = Some x.
Proof.
  revert fs. induction ps as [|q ps IH]; intros fs Hp; [done|].
  simpl. apply IH. destruct (fs !! q) eqn:Hq; [done|].
  rewrite lookup_insert_ne; [done|]. intros ->. congruence.
Qed.

Lemma insert_dir_is_file (fs : gmap path node) (q p : path) :
  fs !! q = None → is_file (<[q := Dir]> fs) p = is_file fs p.
Proof.
  intros Hq. unfold is_file. destruct (decide (q = p)) as [->|Hne].
  - by rewrite lookup_insert_eq, Hq.
  - by rewrite lookup_insert_ne.
Qed.

Lemma make_dirs_creates (ps : list path) (fs : gmap path node) (p : path) :
  p ∈ ps → existsb (is_file fs) ps = false → make_dirs ps fs !! p = Some Dir.
Proof.
  revert fs. induction ps as [|q ps IH]; intros fs Hin Hfile.
  - by apply elem_of_nil in Hin.
  - simpl in Hfile. apply orb_false_elim in Hfile as [Hq Hps]. simpl.
    apply elem_of_cons in Hin as [->|Hin].
    + apply make_dirs_keeps. unfold is_file in Hq.
      destruct (fs !! q) as [[|f]|] eqn:E; [done|done|].
      apply lookup_insert_eq.
    + apply IH; [done|]. destruct (fs !! q) eqn:E; [done|].
      rewrite <- Hps. clear -E. induction ps as [|a ps IHps]; [done|].
      simpl. rewrite IHps. f_equal. by apply insert_dir_is_file.
Qed.

Lemma ancestors_self (p : path) : p ≠ [] → p ∈ ancestors p.
Proof.
  induction p as [|c p IH]; [done|]. intros _. simpl.
  destruct p as [|c' p]; [left|]. right.
  apply list_elem_of_fmap. exists (c' :: p). split; [done|]. by apply IH.
Qed.

(** *** [save_messages] *)

Lemma dict_set_serializable k v (d : dict) :
  json_serializable (PDict d) = true →
  json_serializable v = true →
  json_serializable (PDict (dict_set k v d)) = true.
Proof.
  simpl. intros Hd Hv. induction d as [|[k' v'] d IH]; simpl in *.
  - by rewrite Hv.
  - apply andb_prop in Hd as [Hv' Hd]. destruct (String.eqb k k'); simpl.
    + by rewrite Hv, Hd.
    + by rewrite Hv', IH.
Qed.

Section DataLakeProofs.

Variable md5_hexdigest : string → string.
Variable py_repr : pyval → string.

Lemma enrich_run channel date_str file_path messages :
  ∀ w,
    enrich md5_hexdigest py_repr channel date_str file_path messages w
    = (Return (enriched_from md5_hexdigest py_repr channel date_str file_path
                 (w_clock w) (w_tick w) messages),
       mk_world (w_clock w) (w_tick w + length messages) (w_fs w)
         (w_denied w) (w_events w)).
Proof.
  induction messages as [|m messages IH]; intros w.
  - simpl. unfold ret. rewrite Nat.add_0_r. by destruct w.
  - simpl. unfold bind at 1. unfold now at 1. unfold bind at 1.
    rewrite IH. simpl. unfold ret. do 2 f_equal. lia.
Qed.

Lemma enriched_serializable channel date_str file_path clock messages :
  ∀ tick,
    forallb json_serializable (map PDict messages) = true →
    forallb json_serializable
      (map PDict (enriched_from md5_hexdigest py_repr channel date_str
                    file_path clock tick messages)) = true.
Proof.
  induction messages as [|m messages IH]; intros tick Hser; [done|].
  cbn [map forallb enriched_from] in *. apply andb_prop in Hser as [Hm Hser].
  rewrite IH by done. rewrite andb_true_r.
  by apply dict_set_serializable.
Qed.

(** What a successful [save_messages] does, step by step. *)
Lemma save_messages_run self channel messages date w :
  let tick := match date with Some _ => w_tick w | None => S (w_tick w) end in
  let date_str := strftime_date (default (w_clock w (w_tick w)) date) in
  let channel_dir := messages_root self ++ [date_str; channel] in
  let filename :=
    batch_filename (strftime_stamp (w_clock w tick)) (length messages) in
  let file_path := channel_dir ++ [filename] in
  let compressed_path := channel_dir ++ [filename +:+ ".gz"] in
  let doc :=
    PList (map PDict
             (enriched_from md5_hexdigest py_repr channel date_str
                (path_str file_path) (w_clock w) (S tick) messages)) in
  w_denied w channel_dir = false →
  w_denied w file_path = false →
  w_denied w compressed_path = false →
  existsb (is_file (w_fs w)) (ancestors channel_dir) = false →
  forallb json_serializable (map PDict messages) = true →
  save_messages md5_hexdigest py_repr self channel messages date w
  = (Return (path_str file_path),
     mk_world (w_clock w) (S tick + length messages)
       (<[file_path := File (JsonText doc)]>
          (<[compressed_path := File (GzipJsonText doc)]>
             (make_dirs (ancestors channel_dir) (w_fs w))))
       (w_denied w)
       (w_events w
          ++ [Mkdir channel_dir;
              WriteFile compressed_path (GzipJsonText doc);
              WriteFile file_path (JsonText doc);
              LogDataSaved channel (path_str file_path) (len messages)])).
Proof.
  intros tick date_str channel_dir filename file_path compressed_path doc
    Hdir Hfile Hgz Hclear Hser.
  assert (forallb json_serializable
            (map PDict
               (enriched_from md5_hexdigest py_repr channel date_str
                  (path_str file_path) (w_clock w) (S tick) messages))
          = true) as Hdoc
    by (by apply enriched_serializable).
  assert (with_suffix file_path ".json.gz" = compressed_path) as Hsuffix
    by apply batch_file_gz.
  unfold save_messages.
  assert (∀ w0 : world,
            w_clock w0 = w_clock w → w_tick w0 = tick →
            w_fs w0 = w_fs w → w_denied w0 = w_denied w →
            w_events w0 = w_events w →
            (mkdir_p channel_dir ;;;
             timestamp <- now ;;
             let filename :=
               batch_filename (strftime_stamp timestamp) (length messages) in
             let file_path := channel_dir ++ [filename] in
             enriched_messages <-
               enrich md5_hexdigest py_repr channel date_str
                 (path_str file_path) messages ;;
             let compressed_path := with_suffix file_path ".json.gz" in
             write_json true compressed_path (PList (map PDict enriched_messages)) ;;;
             write_json false file_path (PList (map PDict enriched_messages)) ;;;
             emit (LogDataSaved channel (path_str file_path) (len messages)) ;;;
             ret (path_str file_path)) w0
            = (Return (path_str file_path),
               mk_world (w_clock w) (S tick + length messages)
                 (<[file_path := File (JsonText doc)]>
                    (<[compressed_path := File (GzipJsonText doc)]>
                       (make_dirs (ancestors channel_dir) (w_fs w))))
                 (w_denied w)
                 (w_events w
                    ++ [Mkdir channel_dir;
                        WriteFile compressed_path (GzipJsonText doc);
                        WriteFile file_path (JsonText doc);
                        LogDataSaved channel (path_str file_path)
                          (len messages)]))) as Hbody.
  { intros w0 Hc Ht Hf Hd He.
    unfold mkdir_p, write_json. run.
    rewrite Hd, Hdir, Hf, Hclear. simpl.
    rewrite enrich_run. simpl.
    rewrite Hc, Ht. fold filename. fold file_path.
    rewrite Hsuffix, Hd, Hgz, Hdoc. simpl.
    rewrite Hfile. simpl.
    rewrite He, <- !app_assoc. done. }
  destruct date as [d|]; simpl in *.
  - unfold bind at 1. unfold ret at 1. apply Hbody; done.
  - unfold bind at 1. unfold now at 1. apply Hbody; done.
Qed.

End DataLakeProofs.

(** C4: on a disk that accepts the writes, [save_messages] stores the batch,
    every message enriched with its [_metadata], in two files of the
    partition directory under the same name: [messages_..._n.json] as plain
    JSON text and [messages_..._n.json.gz] gzip-compressed.  Reading the two
    copies back gives the same document, and the plain-text path is
    returned. *)
Theorem save_messages_writes_both_copies
    md5_hexdigest py_repr self channel messages date w :
  let tick := match date with Some _ => w_tick w | None => S (w_tick w) end in
  let date_str := strftime_date (default (w_clock w (w_tick w)) date) in
  let channel_dir := messages_root self ++ [date_str; channel] in
  let filename :=
    batch_filename (strftime_stamp (w_clock w tick)) (length messages) in
  let file_path := channel_dir ++ [filename] in
  let compressed_path := channel_dir ++ [filename +:+ ".gz"] in
  let doc :=
    PList (map PDict
             (enriched_from md5_hexdigest py_repr channel date_str
                (path_str file_path) (w_clock w) (S tick) messages)) in
  w_denied w channel_dir = false →
  w_denied w file_path = false →
  w_denied w compressed_path = false →
  existsb (is_file (w_fs w)) (ancestors channel_dir) = false →
  forallb json_serializable (map PDict messages) = true →
  ∃ w',
    save_messages md5_hexdigest py_repr self channel messages date w
    = (Return (path_str file_path), w')
    ∧ with_suffix file_path ".json.gz" = compressed_path
    ∧ w_fs w' !! file_path = Some (File (JsonText doc))
    ∧ w_fs w' !! compressed_path = Some (File (GzipJsonText doc))
    ∧ read_json file_path (w_fs w') = Return doc
    ∧ read_gzip_json compressed_path (w_fs w') = Return doc.
Proof.
  intros tick date_str channel_dir filename file_path compressed_path doc
    Hdir Hfile Hgz Hclear Hser.
  eexists. split.
  { apply save_messages_run; done. }
  fold tick date_str channel_dir filename file_path compressed_path doc.
  assert (file_path ≠ compressed_path) as Hne.
  { unfold file_path, compressed_path. intros H.
    apply app_inv_head in H. injection H as H. by apply str_app_gz_ne in H. }
  split; [apply batch_file_gz|]. simpl.
  assert (<[file_path:=File (JsonText doc)]>
            (<[compressed_path:=File (GzipJsonText doc)]>
               (make_dirs (ancestors channel_dir) (w_fs w))) !! file_path
          = Some (File (JsonText doc))) as Hplain
    by apply lookup_insert_eq.
  assert (<[file_path:=File (JsonText doc)]>
            (<[compressed_path:=File (GzipJsonText doc)]>
               (make_dirs (ancestors channel_dir) (w_fs w))) !! compressed_path
          = Some (File (GzipJsonText doc))) as Hcompressed.
  { rewrite lookup_insert_ne by done. apply lookup_insert_eq. }
  unfold read_json, read_gzip_json. rewrite Hplain, Hcompressed. done.
Qed.

(** C10: [save_messages] with an empty list of messages does not fail.  On a
    disk that accepts the writes it creates the partition directory, writes
    [messages_{timestamp}_0.json] and [messages_{timestamp}_0.json.gz], each
    holding the empty JSON array, and returns the plain-text path. *)
Theorem save_messages_empty_batch md5_hexdigest py_repr self channel date w :
  let tick := match date with Some _ => w_tick w | None => S (w_tick w) end in
  let date_str := strftime_date (default (w_clock w (w_tick w)) date) in
  let channel_dir := messages_root self ++ [date_str; channel] in
  let timestamp := strftime_stamp (w_clock w tick) in
  let file_path := channel_dir ++ ["messages_" +:+ timestamp +:+ "_0.json"] in
  let compressed_path :=
    channel_dir ++ ["messages_" +:+ timestamp +:+ "_0.json.gz"] in
  w_denied w channel_dir = false →
  w_denied w file_path = false →
  w_denied w compressed_path = false →
  existsb (is_file (w_fs w)) (ancestors channel_dir) = false →
  ∃ w',
    save_messages md5_hexdigest py_repr self channel [] date w
    = (Return (path_str file_path), w')
    ∧ w_fs w' !! channel_dir = Some Dir
    ∧ w_fs w' !! file_path = Some (File (JsonText (PList [])))
    ∧ w_fs w' !! compressed_path = Some (File (GzipJsonText (PList []))).
Proof.
  intros tick date_str channel_dir timestamp file_path compressed_path
    Hdir Hfile Hgz Hclear.
  assert (batch_filename timestamp 0 = "messages_" +:+ timestamp +:+ "_0.json")
    as Hname by reflexivity.
  assert (batch_filename timestamp 0 +:+ ".gz"
          = "messages_" +:+ timestamp +:+ "_0.json.gz") as Hgzname.
  { rewrite Hname, !str_app_assoc. done. }
  assert (file_path ≠ compressed_path) as Hne.
  { unfold file_path, compressed_path. rewrite <- Hgzname, <- Hname.
    intros H. apply app_inv_head in H. injection H as H.
    by apply str_app_gz_ne in H. }
  pose proof (save_messages_run md5_hexdigest py_repr self channel [] date w)
    as Hrun.
  simpl in Hrun. fold tick date_str channel_dir timestamp in Hrun.
  rewrite Hgzname, Hname in Hrun. fold file_path compressed_path in Hrun.
  specialize (Hrun Hdir Hfile Hgz Hclear eq_refl).
  eexists. split; [exact Hrun|]. simpl. split; [|split].
  - rewrite !lookup_insert_ne by apply not_eq_sym, path_ne_child.
    apply make_dirs_creates; [|done]. apply ancestors_self.
    unfold channel_dir. by destruct (messages_root self).
  - apply lookup_insert_eq.
  - rewrite lookup_insert_ne by done. apply lookup_insert_eq.
Qed.

(** *** [validate_data_integrity] *)

Lemma counts_repeats_same st st' seen :
  snd st' = snd st →
  v_duplicate_messages (fst st') = v_duplicate_messages (fst st) →
  counts_repeats st seen → counts_repeats st' seen.
Proof. unfold counts_repeats. intros -> ->. done. Qed.

Lemma add_missing_same fields st :
  snd (add_missing fields st) = snd st
  ∧ v_duplicate_messages (fst (add_missing fields st))
    = v_duplicate_messages (fst st).
Proof. by destruct st as [[] ?]. Qed.

Lemma file_counted_same st :
  snd (file_counted st) = snd st
  ∧ v_duplicate_messages (fst (file_counted st))
    = v_duplicate_messages (fst st).
Proof. by destruct st as [[] ?]. Qed.

Lemma file_valid_same n st :
  snd (file_valid n st) = snd st
  ∧ v_duplicate_messages (fst (file_valid n st))
    = v_duplicate_messages (fst st).
Proof. by destruct st as [[] ?]. Qed.

Lemma file_invalid_same e st :
  snd (file_invalid e st) = snd st
  ∧ v_duplicate_messages (fst (file_invalid e st))
    = v_duplicate_messages (fst st).
Proof. by destruct st as [[] ?]. Qed.

Lemma counts_repeats_absorb st seen h :
  counts_repeats st seen →
  counts_repeats
    (if bool_decide (h ∈ snd st) then count_duplicate st
     else (fst st, snd st ++ [h]))
    (seen ++ [h]).
Proof.
  intros (Hnd & Hin & Hcount). unfold len in *.
  destruct (bool_decide_reflect (h ∈ snd st)) as [Hh|Hh].
  - destruct st as [[] hashes]. simpl in *. split; [done|]. split.
    + intros x. rewrite elem_of_app, list_elem_of_singleton, <- Hin.
      split; [tauto|]. intros [?| ->]; done.
    + unfold len. simpl. rewrite length_app. simpl. lia.
  - simpl. split.
    + apply NoDup_app. split; [done|]. split; [|apply NoDup_singleton].
      intros x Hx ->%list_elem_of_singleton. done.
    + split.
      * intros x. simpl. rewrite !elem_of_app, Hin. done.
      * unfold len. simpl. rewrite !length_app. simpl. lia.
Qed.

Lemma check_message_clean message st seen :
  checks_cleanly message = true →
  counts_repeats st seen →
  ∃ st', check_message message st = Return st'
         ∧ counts_repeats st' (seen ++ option_list (counted_hash message)).
Proof.
  unfold checks_cleanly, check_message, counted_hash. intros Hclean Hst.
  destruct (stored_hash message) as [[v|]|e]; [| |done]; simpl.
  - destruct (py_truthy v); simpl in *.
    + destruct (hash_key v) as [h|e]; [|done]. eexists. split; [done|].
      eapply counts_repeats_same; [apply add_missing_same..|].
      by apply counts_repeats_absorb.
    + eexists. split; [done|]. rewrite app_nil_r.
      eapply counts_repeats_same; [apply add_missing_same..|]. done.
  - eexists. split; [done|]. rewrite app_nil_r.
    eapply counts_repeats_same; [apply add_missing_same..|]. done.
Qed.

Lemma check_messages_clean messages :
  ∀ st seen,
    forallb checks_cleanly messages = true →
    counts_repeats st seen →
    ∃ st', check_messages messages st = (st', None)
           ∧ counts_repeats st' (seen ++ omap counted_hash messages).
Proof.
  induction messages as [|m messages IH]; intros st seen Hclean Hst.
  - exists st. rewrite app_nil_r. done.
  - simpl in Hclean. apply andb_prop in Hclean as [Hm Hclean].
    destruct (check_message_clean m st seen Hm Hst) as (st1 & Hrun & Hst1).
    destruct (IH st1 _ Hclean Hst1) as (st' & Hrest & Hst').
    exists st'. simpl. rewrite Hrun, Hrest. split; [done|].
    rewrite <- app_assoc in Hst'. simpl.
    by destruct (counted_hash m).
Qed.

Lemma check_file_clean fs p st seen :
  (∀ messages, read_json p fs = Return (PList messages) →
               forallb checks_cleanly messages = true) →
  counts_repeats st seen →
  counts_repeats (check_file fs p st) (seen ++ file_hashes fs p).
Proof.
  intros Hclean Hst. unfold check_file, file_hashes.
  assert (counts_repeats (file_counted st) seen) as Hst0
    by (eapply counts_repeats_same; [apply file_counted_same..|done]).
  assert (∀ e, counts_repeats (file_invalid e (file_counted st)) seen) as Hbad
    by (intros e; eapply counts_repeats_same; [apply file_invalid_same..|done]).
  destruct (read_json p fs) as [doc|e]; [|by rewrite app_nil_r].
  destruct doc as [| | | | |messages|]; try (by rewrite app_nil_r).
  assert (counts_repeats (file_valid (len messages) (file_counted st)) seen)
    as Hst1 by (eapply counts_repeats_same; [apply file_valid_same..|done]).
  destruct (check_messages_clean messages _ seen (Hclean _ eq_refl) Hst1)
    as (st' & Hrun & Hst').
  rewrite Hrun. done.
Qed.

Lemma check_files_clean fs files :
  ∀ st seen,
    (∀ p messages, p ∈ files → read_json p fs = Return (PList messages) →
                   forallb checks_cleanly messages = true) →
    counts_repeats st seen →
    counts_repeats (fold_left (fun st p => check_file fs p st) files st)
      (seen ++ flat_map (file_hashes fs) files).
Proof.
  induction files as [|p files IH]; intros st seen Hclean Hst.
  - simpl. by rewrite app_nil_r.
  - simpl. rewrite app_assoc. apply IH.
    + intros q messages Hq. apply Hclean. by right.
    + apply check_file_clean; [|done]. intros messages. apply Hclean. left.
Qed.

Lemma remove_dups_shorter (l : list hkey) :
  (length (remove_dups l) ≤ length l)%nat.
Proof.
  induction l as [|x l IH]; [done|]. simpl.
  destruct (decide_rel elem_of x l); simpl; lia.
Qed.

Lemma counts_repeats_final st seen :
  counts_repeats st seen →
  v_duplicate_messages (fst st) = Z.of_nat (repeats seen).
Proof.
  intros (Hnd & Hin & Hcount). unfold repeats, len in *.
  assert (length (snd st) = length (remove_dups seen)) as Hlen.
  { apply Permutation_length, NoDup_Permutation; [done|apply NoDup_remove_dups|].
    intros h. rewrite Hin. by rewrite elem_of_remove_dups. }
  pose proof (remove_dups_shorter seen). lia.
Qed.

(** C5: the content hash depends on [message_id], [date] and [text] only, so
    two records that agree on these get the same hash whatever their other
    fields; [save_messages] stores that hash in the [_metadata] that
    [validate_data_integrity] reads; and over the batch files it scans for the
    channel (files whose messages are dicts with a well-formed [_metadata]),
    [duplicate_messages] is the number of hash occurrences beyond the first
    occurrence of each distinct hash. *)
Theorem validate_counts_repeated_hashes
    md5_hexdigest py_repr self channel w :
  (∀ m1 m2 : dict,
     dict_get "message_id" m1 = dict_get "message_id" m2 →
     dict_get "date" m1 = dict_get "date" m2 →
     dict_get "text" m1 = dict_get "text" m2 →
     _generate_message_hash md5_hexdigest py_repr m1
     = _generate_message_hash md5_hexdigest py_repr m2)
  ∧ (∀ channel date_str file_path scraped_at (message : dict),
       stored_hash
         (PDict (dict_set "_metadata"
                   (message_metadata md5_hexdigest py_repr channel date_str
                      file_path scraped_at message) message))
       = Return (Some (PStr (_generate_message_hash md5_hexdigest py_repr
                               message))))
  ∧ (batches_check_cleanly self channel (w_fs w) →
     ∃ v w',
       validate_data_integrity self channel w = (Return v, w')
       ∧ v_duplicate_messages v
         = Z.of_nat (repeats (scanned_hashes self channel (w_fs w)))).
Proof.
  split; [|split].
  - intros m1 m2 Hid Hdate Htext.
    unfold _generate_message_hash, dict_get_default.
    by rewrite Hid, Hdate, Htext.
  - intros ch date_str file_path scraped_at message.
    unfold stored_hash, dict_get_default. rewrite dict_get_set_eq. done.
  - intros Hclean. unfold validate_data_integrity. run.
    eexists _, _. split; [done|].
    apply counts_repeats_final.
    apply (check_files_clean (w_fs w) _ _ []); [exact Hclean|].
    split; [apply NoDup_nil_2|]. split; [done|]. done.
Qed.

(** *** [cleanup_old_data] *)

Lemma rmtree_lookup (d p : path) (fs : gmap path node) :
  filter (fun e => negb (bool_decide (d `prefix_of` fst e))) fs !! p
  = if bool_decide (d `prefix_of` p) then None else fs !! p.
Proof.
  destruct (bool_decide (d `prefix_of` p)) eqn:Hpre.
  - apply map_lookup_filter_None. right. intros x _. simpl. rewrite Hpre.
    simpl. tauto.
  - destruct (fs !! p) as [x|] eqn:Hp.
    + apply map_lookup_filter_Some. split; [done|]. simpl. rewrite Hpre.
      exact I.
    + apply map_lookup_filter_None. by left.
Qed.

Lemma cleanup_dir_run self cutoff_date date_str w :
  w_denied w (messages_root self ++ [date_str]) = false →
  cleanup_dir self cutoff_date date_str w
  = (Return tt,
     if expired cutoff_date date_str then
       mk_world (w_clock w) (w_tick w)
         (filter (fun e => negb (bool_decide
                                   ((messages_root self ++ [date_str])
                                      `prefix_of` fst e))) (w_fs w))
         (w_denied w)
         (w_events w ++ [Rmtree (messages_root self ++ [date_str])])
     else w).
Proof.
  intros Hden. unfold cleanup_dir, expired, rmtree. run.
  destruct (strptime_date date_str) as [dir_date|e]; simpl; [|done].
  destruct (datetime_ltb dir_date cutoff_date); simpl; [|done].
  by rewrite Hden.
Qed.

Lemma cleanup_dirs_run self cutoff_date names :
  ∀ w,
    (∀ name, w_denied w (messages_root self ++ [name]) = false) →
    ∃ w',
      cleanup_dirs self cutoff_date names w = (Return tt, w')
      ∧ ∀ p, w_fs w' !! p
             = if in_expired_partition self cutoff_date names p then None
               else w_fs w !! p.
Proof.
  induction names as [|name names IH]; intros w Hden.
  - exists w. done.
  - simpl. unfold bind at 1. rewrite cleanup_dir_run by apply Hden.
    match goal with
    | |- context [cleanup_dirs _ _ _ ?w1] =>
        destruct (IH w1) as (w' & Hrun & Hfs)
    end.
    { intros n. by destruct (expired cutoff_date name); simpl. }
    exists w'. split; [exact Hrun|]. intros p. rewrite Hfs.
    destruct (in_expired_partition self cutoff_date names p);
      [by rewrite orb_true_r|].
    rewrite orb_false_r.
    destruct (expired cutoff_date name); simpl; [|done].
    apply rmtree_lookup.
Qed.


(** *** Sorting *)

Lemma ltb_leb a b : String.ltb a b = true → String.le a b.
Proof.
  unfold String.le, String.ltb, String.leb.
  destruct (String.compare a b); done.
Qed.

Lemma not_ltb_leb a b : String.ltb a b = false → String.le b a.
Proof.
  unfold String.le, String.ltb, String.leb.
  rewrite (String.compare_antisym b a).
  destruct (String.compare a b); done.
Qed.

Lemma insert_desc_perm {A} (key : A → string) x l :
  insert_desc key x l ≡ₚ x :: l.
Proof.
  induction l as [|y l IH]; [done|]. simpl.
  destruct (String.ltb (key x) (key y)); [|done].
  rewrite IH. apply Permutation_swap.
Qed.

Lemma sort_desc_perm {A} (key : A → string) l : sort_desc key l ≡ₚ l.
Proof.
  induction l as [|x l IH]; [done|]. simpl.
  rewrite insert_desc_perm. by rewrite IH.
Qed.

Lemma insert_desc_descending {A} (key : A → string) x l :
  descending key l → descending key (insert_desc key x l).
Proof.
  unfold descending. induction 1 as [|y l Hl IH Hy].
  - repeat constructor.
  - simpl. destruct (String.ltb (key x) (key y)) eqn:Hlt.
    + constructor; [done|].
      rewrite insert_desc_perm. constructor; [by apply ltb_leb|done].
    + constructor; [by constructor|]. constructor; [by apply not_ltb_leb|].
      eapply Forall_impl; [exact Hy|]. intros z Hz. simpl in *.
      etrans; [exact Hz|]. by apply not_ltb_leb.
Qed.

Lemma sort_desc_descending {A} (key : A → string) l :
  descending key (sort_desc key l).
Proof.
  induction l as [|x l IH]; [constructor|].
  by apply insert_desc_descending.
Qed.

Lemma insert_desc_keyed {A} (key : A → string) x l :
  map snd (insert_desc fst (key x, x) (map (fun y => (key y, y)) l))
  = insert_desc key x l.
Proof.
  induction l as [|y l IH]; [done|]. simpl.
  destruct (String.ltb (key x) (key y)); simpl; [by rewrite IH|].
  f_equal. f_equal. rewrite map_map. simpl. apply map_id.
Qed.

Lemma sort_desc_keyed {A} (key : A → string) l :
  sort_desc fst (map (fun y => (key y, y)) l)
  = map (fun y => (key y, y)) (sort_desc key l).
Proof.
  induction l as [|x l IH]; [done|]. simpl. rewrite IH.
  generalize (sort_desc key l). clear. intros l.
  induction l as [|y l IH]; [done|]. simpl.
  destruct (String.ltb (key x) (key y)); simpl; [by rewrite IH|done].
Qed.

Lemma py_take_length {A} limit (l : list A) :
  0 ≤ limit → len (py_take limit l) ≤ limit.
Proof.
  intros Hlimit. unfold py_take, len.
  destruct (Z.leb_spec 0 limit); [|lia]. rewrite length_take. lia.
Qed.

(** *** [get_latest_messages] *)

Lemma load_files_run channel context files :
  ∀ messages w,
    ∃ w',
      load_files channel context files messages w
      = (Return (messages ++ flat_map (file_items (w_fs w)) files), w')
      ∧ w_fs w' = w_fs w.
Proof.
  induction files as [|p files IH]; intros messages w.
  - exists w. simpl. by rewrite app_nil_r.
  - simpl. unfold file_items at 1.
    destruct (read_json p (w_fs w)) as [doc|e] eqn:Hread.
    + destruct (py_iter doc) as [items|e] eqn:Hiter.
      * destruct (IH (messages ++ items) w) as (w' & Hrun & Hfs).
        exists w'. unfold bind at 1. unfold try_except, get_world, lift.
        unfold bind at 1. unfold bind at 1. rewrite Hread.
        unfold bind at 1. rewrite Hiter. unfold ret at 1.
        rewrite Hrun, <- app_assoc. done.
      * destruct (IH messages
                    (mk_world (w_clock w) (w_tick w) (w_fs w) (w_denied w)
                       (w_events w
                          ++ [LogScrapingError channel e
                                (context +:+ path_str p)])))
          as (w' & Hrun & Hfs).
        exists w'. unfold bind at 1. unfold try_except, get_world, lift.
        unfold bind at 1. unfold bind at 1. rewrite Hread.
        unfold bind at 1. rewrite Hiter. unfold bind at 1, emit at 1.
        unfold ret at 1. simpl in Hrun. rewrite Hrun. done.
    + destruct (IH messages
                  (mk_world (w_clock w) (w_tick w) (w_fs w) (w_denied w)
                     (w_events w
                        ++ [LogScrapingError channel e
                              (context +:+ path_str p)])))
        as (w' & Hrun & Hfs).
      exists w'. unfold bind at 1. unfold try_except, get_world, lift.
      unfold bind at 1. unfold bind at 1. rewrite Hread.
      unfold bind at 1, emit at 1. unfold ret at 1.
      simpl in Hrun. rewrite Hrun. done.
Qed.

Lemma date_keys_strings messages :
  forallb string_dated messages = true →
  date_keys messages = Return (map (fun x => (date_string x, x)) messages).
Proof.
  induction messages as [|x messages IH]; [done|]. simpl.
  intros [Hx Hrest]%andb_prop. rewrite (IH Hrest).
  unfold string_dated, date_string in *.
  destruct (date_key x) as [[]|]; done.
Qed.

Lemma sort_by_date_strings messages :
  forallb string_dated messages = true →
  sort_by_date messages = Return (sort_desc date_string messages).
Proof.
  intros H. unfold sort_by_date. rewrite date_keys_strings by done.
  rewrite sort_desc_keyed, map_map. simpl. by rewrite map_id.
Qed.


(** ** The theorems at concrete inputs *)




Lemma save_messages_writes_both_copies_witness :
  let file_path := new_year_dir ++ ["messages_20240305_120000_1.json"] in
  let compressed_path := new_year_dir ++ ["messages_20240305_120000_1.json.gz"] in
  let doc :=
    PList (map PDict
             (enriched_from toy_md5 toy_repr "chemed" "2024-01-01"
                (path_str file_path) (clock_from noon) 1 [msg1])) in
  (w_denied (new_world noon) new_year_dir = false
   ∧ w_denied (new_world noon) file_path = false
   ∧ w_denied (new_world noon) compressed_path = false
   ∧ existsb (is_file (w_fs (new_world noon))) (ancestors new_year_dir) = false
   ∧ forallb json_serializable (map PDict [msg1]) = true)
  ∧ ∃ w',
      save_messages toy_md5 toy_repr lake0 "chemed" [msg1] (Some new_year)
        (new_world noon)
      = (Return (path_str file_path), w')
      ∧ with_suffix file_path ".json.gz" = compressed_path
      ∧ w_fs w' !! file_path = Some (File (JsonText doc))
      ∧ w_fs w' !! compressed_path = Some (File (GzipJsonText doc))
      ∧ read_json file_path (w_fs w') = Return doc
      ∧ read_gzip_json compressed_path (w_fs w') = Return doc.
Proof.
  intros file_path compressed_path doc. split.
  - repeat split; reflexivity.
  - apply (save_messages_writes_both_copies toy_md5 toy_repr lake0 "chemed"
             [msg1] (Some new_year) (new_world noon)); reflexivity.
Defined.

Lemma save_messages_empty_batch_witness :
  let file_path := new_year_dir ++ ["messages_20240305_120000_0.json"] in
  let compressed_path := new_year_dir ++ ["messages_20240305_120000_0.json.gz"] in
  (w_denied (new_world noon) new_year_dir = false
   ∧ w_denied (new_world noon) file_path = false
   ∧ w_denied (new_world noon) compressed_path = false
   ∧ existsb (is_file (w_fs (new_world noon))) (ancestors new_year_dir) = false)
  ∧ ∃ w',
      save_messages toy_md5 toy_repr lake0 "chemed" [] (Some new_year)
        (new_world noon)
      = (Return "data/raw/telegram_messages/2024-01-01/chemed/messages_20240305_120000_0.json",
         w')
      ∧ w_fs w' !! new_year_dir = Some Dir
      ∧ w_fs w' !! file_path = Some (File (JsonText (PList [])))
      ∧ w_fs w' !! compressed_path = Some (File (GzipJsonText (PList []))).
Proof.
  intros file_path compressed_path. split.
  - repeat split; reflexivity.
  - apply (save_messages_empty_batch toy_md5 toy_repr lake0 "chemed"
             (Some new_year) (new_world noon)); reflexivity.
Defined.

Lemma duplicate_lake_files :
  channel_batch_files lake0 "chemed" (w_fs duplicate_lake)
  = [["data"; "raw"; "telegram_messages"; "2024-03-05"; "chemed";
      "messages_20240305_120004_1.json"];
     ["data"; "raw"; "telegram_messages"; "2024-03-05"; "chemed";
      "messages_20240305_120001_1.json"]].
Proof. vm_compute. reflexivity. Qed.

Lemma duplicate_lake_second_batch :
  ∃ messages,
    read_json ["data"; "raw"; "telegram_messages"; "2024-03-05"; "chemed";
               "messages_20240305_120004_1.json"] (w_fs duplicate_lake)
    = Return (PList messages)
    ∧ forallb checks_cleanly messages = true.
Proof.
  eexists. split; [vm_compute; reflexivity|]. vm_compute. reflexivity.
Qed.

Lemma duplicate_lake_first_batch :
  ∃ messages,
    read_json ["data"; "raw"; "telegram_messages"; "2024-03-05"; "chemed";
               "messages_20240305_120001_1.json"] (w_fs duplicate_lake)
    = Return (PList messages)
    ∧ forallb checks_cleanly messages = true.
Proof.
  eexists. split; [vm_compute; reflexivity|]. vm_compute. reflexivity.
Qed.

Lemma duplicate_lake_checks_cleanly :
  batches_check_cleanly lake0 "chemed" (w_fs duplicate_lake).
Proof.
  intros p messages Hin Hread. rewrite duplicate_lake_files in Hin.
  apply elem_of_cons in Hin as [Hp|Hin];
    [|apply elem_of_cons in Hin as [Hp|Hin];
      [|apply elem_of_nil in Hin; destruct Hin]].
  - destruct duplicate_lake_second_batch as (messages' & Hread' & Hok).
    rewrite Hp, Hread' in Hread. injection Hread as <-. exact Hok.
  - destruct duplicate_lake_first_batch as (messages' & Hread' & Hok).
    rewrite Hp, Hread' in Hread. injection Hread as <-. exact Hok.
Qed.

Lemma validate_counts_repeated_hashes_witness :
  batches_check_cleanly lake0 "chemed" (w_fs duplicate_lake)
  ∧ ∃ v w',
      validate_data_integrity lake0 "chemed" duplicate_lake = (Return v, w')
      ∧ v_duplicate_messages v
        = Z.of_nat (repeats (scanned_hashes lake0 "chemed" (w_fs duplicate_lake))).
Proof.
  split; [exact duplicate_lake_checks_cleanly|].
  apply (validate_counts_repeated_hashes toy_md5 toy_repr lake0 "chemed"
           duplicate_lake).
  exact duplicate_lake_checks_cleanly.
Defined.

(** The duplicate-detection scenario of the specification: the record saved
    twice is counted as one duplicate. *)
Example validate_duplicate_scenario :
  match fst (validate_data_integrity lake0 "chemed" duplicate_lake) with
  | Return v =>
      v_total_files v = 2 ∧ v_total_messages v = 2 ∧ v_duplicate_messages v = 1
  | Raise _ => False
  end.
Proof. vm_compute. repeat split; reflexivity. Qed.


(** The newer of the two stored messages is the one returned. *)
Example get_latest_messages_scenario :
  fst (get_latest_messages lake0 "chemed" 1 two_message_lake)
  = Return
      [PDict (dict_set "_metadata"
                (message_metadata toy_md5 toy_repr "chemed" "2024-01-02"
                   "data/raw/telegram_messages/2024-01-02/chemed/messages_20240305_120000_2.json"
                   (clock_from noon 2) msg2) msg2)].
Proof. vm_compute. reflexivity. Qed.


(** The retention scenario of the specification: of the partitions dated 120
    and 30 days ago, [cleanup_old_data(90)] removes the first and keeps the
    second. *)
Example cleanup_old_data_scenario :
  let after := snd (cleanup_old_data lake0 90 aged_lake) in
  strftime_date (w_clock aged_lake (w_tick aged_lake)) = "2024-03-05"
  ∧ dt_ordinal (datetime_of 2023 11 6 0 0 0 0) = dt_ordinal noon - 120
  ∧ dt_ordinal (datetime_of 2024 2 4 0 0 0 0) = dt_ordinal noon - 30
  ∧ path_exists (messages_root lake0 ++ ["2023-11-06"]) (w_fs aged_lake) = true
  ∧ path_exists (messages_root lake0 ++ ["2024-02-04"]) (w_fs aged_lake) = true
  ∧ listdir (messages_root lake0) (w_fs after) = ["2024-02-04"]
  ∧ path_exists (messages_root lake0 ++ ["2023-11-06"; "chemed"]) (w_fs after)
    = false
  ∧ path_exists (messages_root lake0 ++ ["2024-02-04"; "tikvahpharma"])
      (w_fs after) = true.
Proof. vm_compute. repeat split; reflexivity. Qed.

(** ** Further properties of the client *)

Lemma iterate_no_logs items mc ic :
  logged_errors (fst (iterate items mc ic)) = []
  ∧ logged_rate_limits (fst (iterate items mc ic)) = [].
Proof.
  revert mc ic. induction items as [|i items IH]; intros mc ic; [done|].
  destruct i as [|[d|]]; simpl.
  - apply IH.
  - specialize (IH (mc + 1) (if has_image d then ic + 1 else ic)).
    destruct (iterate items _ _) as [steps counts]. exact IH.
  - specialize (IH mc ic). destruct (iterate items mc ic) as [steps counts].
    exact IH.
Qed.

Lemma logged_errors_app s1 s2 :
  logged_errors (s1 ++ s2) = logged_errors s1 ++ logged_errors s2.
Proof. unfold logged_errors. apply omap_app. Qed.

Lemma logged_rate_limits_app s1 s2 :
  logged_rate_limits (s1 ++ s2)
  = logged_rate_limits s1 ++ logged_rate_limits s2.
Proof. unfold logged_rate_limits. apply omap_app. Qed.

(** X1: a rate limit never reaches the consumer of [scrape_messages].  The
    generator either ends normally, having logged no error, or ends with an
    exception that is not a [FloodWaitError], logged exactly once (with the
    tag [access_denied] for a private or admin-only channel and
    [message_scraping] otherwise), however many retries came before; and it
    logs every rate limit the platform signalled, in order. *)
Theorem scrape_messages_ending channel limit offset platform :
  let steps := fst (scrape_messages channel limit offset platform) in
  let ending := snd (scrape_messages channel limit offset platform) in
  match ending with
  | None => logged_errors steps = []
  | Some e =>
      is_flood e = false
      ∧ logged_errors steps = [(channel, e, error_operation e)]
  end
  ∧ logged_rate_limits steps = flood_waits platform.
Proof.
  induction platform as [items|items e retry IH]; simpl.
  - destruct (iterate_no_logs items 0 0) as [He Hr].
    destruct (iterate items 0 0) as [steps [mc ic]]. simpl in *.
    unfold logged_errors, logged_rate_limits in *. simpl.
    rewrite !omap_app, He, Hr. done.
  - destruct (iterate_no_logs items 0 0) as [He Hr].
    destruct (iterate items 0 0) as [steps counts]. simpl in *.
    destruct e as [seconds msg|msg|msg|cls msg]; simpl.
    + destruct (scrape_messages channel limit offset retry) as [again ending].
      simpl in *. destruct IH as [IHe IHr]. split.
      * destruct ending as [e|].
        -- destruct IHe as [Hf Hl]. split; [done|].
           unfold logged_errors in *. simpl. rewrite omap_app, He. simpl.
           exact Hl.
        -- unfold logged_errors in *. simpl. rewrite omap_app, He. simpl.
           exact IHe.
      * rewrite <- IHr. unfold logged_rate_limits in *. simpl.
        rewrite omap_app, Hr. done.
    + unfold logged_errors, logged_rate_limits in *. simpl.
      rewrite !omap_app, He, Hr. done.
    + unfold logged_errors, logged_rate_limits in *. simpl.
      rewrite !omap_app, He, Hr. done.
    + unfold logged_errors, logged_rate_limits in *. simpl.
      rewrite !omap_app, He, Hr. done.
Qed.

Lemma iterate_yield_then_sleep items mc ic (i : nat) d :
  fst (iterate items mc ic) !! i = Some (Yield d) →
  fst (iterate items mc ic) !! S i = Some (Effect (Sleep 100)).
Proof.
  revert mc ic i. induction items as [|it items IH]; intros mc ic i; [done|].
  destruct it as [|[d'|]]; simpl.
  - apply IH.
  - specialize (IH (mc + 1) (if has_image d' then ic + 1 else ic)).
    destruct (iterate items _ _) as [steps counts]. simpl in *.
    destruct i as [|[|i]]; simpl; [done|done|]. apply IH.
  - specialize (IH mc ic). destruct (iterate items mc ic) as [steps counts].
    simpl in *. destruct i as [|i]; simpl; [done|]. apply IH.
Qed.

Lemma iterate_not_last_yield items mc ic d :
  last (fst (iterate items mc ic)) ≠ Some (Yield d).
Proof.
  revert mc ic. induction items as [|it items IH]; intros mc ic; [done|].
  destruct it as [|[d'|]]; simpl.
  - apply IH.
  - specialize (IH (mc + 1) (if has_image d' then ic + 1 else ic)).
    destruct (iterate items _ _) as [steps counts]. simpl in *.
    destruct steps; [done|]. exact IH.
  - specialize (IH mc ic). destruct (iterate items mc ic) as [steps counts].
    simpl in *. destruct steps; [done|]. exact IH.
Qed.

Lemma yield_then_sleep_app (s1 s2 : list gen_step) :
  (∀ (i : nat) d, s1 !! i = Some (Yield d) →
                  s1 !! S i = Some (Effect (Sleep 100))) →
  (∀ d, last s1 ≠ Some (Yield d)) →
  (∀ (i : nat) d, s2 !! i = Some (Yield d) →
                  s2 !! S i = Some (Effect (Sleep 100))) →
  ∀ (i : nat) d, (s1 ++ s2) !! i = Some (Yield d) →
                 (s1 ++ s2) !! S i = Some (Effect (Sleep 100)).
Proof.
  intros H1 Hlast H2 i d Hi.
  destruct (decide (i < length s1)%nat) as [Hlt|Hge].
  - rewrite lookup_app_l in Hi by done.
    destruct (decide (S i < length s1)%nat) as [Hlt'|Hge'].
    + rewrite lookup_app_l by done. by eapply H1.
    + exfalso. apply (Hlast d). rewrite last_lookup.
      replace (Init.Nat.pred (length s1)) with i by lia. done.
  - rewrite lookup_app_r in Hi by lia.
    rewrite lookup_app_r by lia.
    replace (S i - length s1)%nat with (S (i - length s1)) by lia.
    by eapply H2.
Qed.

(** X2: the politeness delay.  Whatever the platform does, every record
    [scrape_messages] yields is followed at once by a pause of 100
    milliseconds, before the next message is fetched. *)
Theorem scrape_messages_pause_after_yield
    channel limit offset platform (i : nat) d :
  fst (scrape_messages channel limit offset platform) !! i = Some (Yield d) →
  fst (scrape_messages channel limit offset platform) !! S i
  = Some (Effect (Sleep 100)).
Proof.
  revert i d. induction platform as [items|items e retry IH]; intros i d.
  - simpl. pose proof (iterate_yield_then_sleep items 0 0) as Hy.
    pose proof (iterate_not_last_yield items 0 0) as Hl.
    destruct (iterate items 0 0) as [steps [mc ic]]. simpl in *.
    destruct i as [|i]; [done|]. simpl.
    apply yield_then_sleep_app; [exact Hy|exact Hl|].
    intros [|[|j]] d'; done.
  - simpl. pose proof (iterate_yield_then_sleep items 0 0) as Hy.
    pose proof (iterate_not_last_yield items 0 0) as Hl.
    destruct (iterate items 0 0) as [steps counts]. simpl in *.
    destruct e as [seconds msg|msg|msg|cls msg]; simpl.
    + destruct (scrape_messages channel limit offset retry) as [again ending].
      simpl in *. destruct i as [|i]; [done|]. simpl.
      apply yield_then_sleep_app; [exact Hy|exact Hl|].
      intros [|[|j]] d'; [done|done|]. simpl. apply IH.
    + destruct i as [|i]; [done|]. simpl.
      apply yield_then_sleep_app; [exact Hy|exact Hl|].
      intros [|j] d'; done.
    + destruct i as [|i]; [done|]. simpl.
      apply yield_then_sleep_app; [exact Hy|exact Hl|].
      intros [|j] d'; done.
    + destruct i as [|i]; [done|]. simpl.
      apply yield_then_sleep_app; [exact Hy|exact Hl|].
      intros [|j] d'; done.
Qed.

(** ** Further properties of the scraper *)

Lemma count_images_cons d ys :
  count_images (d :: ys)
  = (if has_image d then 1 else 0) + count_images ys.
Proof.
  unfold count_images, len. rewrite filter_cons.
  destruct (has_image d); simpl.
  - destruct (decide (true = true)); [|done]. simpl. lia.
  - destruct (decide (false = true)); [done|]. lia.
Qed.

Lemma consume_counts channel dir steps :
  ∀ acc mc ic w,
    ∃ w',
      consume channel dir steps acc mc ic w
      = (Return (snd (batches_from acc (yielded steps)),
                 mc + len (yielded steps),
                 ic + count_images (yielded steps)), w').
Proof.
  induction steps as [|[d|e] steps IH]; intros acc mc ic w.
  - exists w. simpl. unfold count_images, len. simpl.
    by rewrite !Z.add_0_r.
  - change (yielded (Yield d :: steps)) with (d :: yielded steps).
    simpl. rewrite count_images_cons.
    replace (mc + len (d :: yielded steps)) with (mc + 1 + len (yielded steps))
      by (unfold len; simpl; lia).
    replace (ic + ((if has_image d then 1 else 0) + count_images (yielded steps)))
      with ((if has_image d then ic + 1 else ic) + count_images (yielded steps))
      by (destruct (has_image d); lia).
    destruct (100 <=? len (acc ++ [d])).
    + unfold bind at 1.
      destruct (save_batch_returns channel (acc ++ [d]) dir w) as [[] Hs].
      destruct (_save_messages_batch channel (acc ++ [d]) dir w)
        as [[[]|e] w1]; simpl in Hs; [|done].
      destruct (IH [] (mc + 1) (if has_image d then ic + 1 else ic) w1)
        as (w' & Hrun).
      exists w'. rewrite Hrun.
      by destruct (batches_from [] (yielded steps)).
    + apply IH.
  - change (yielded (Effect e :: steps)) with (yielded steps). simpl.
    unfold bind at 1, emit at 1. apply IH.
Qed.

Lemma scrape_loop_counts channel dir stream w :
  snd stream = None →
  ∃ w',
    scrape_loop channel dir stream w
    = (Return (len (yielded (fst stream)), count_images (yielded (fst stream))),
       w').
Proof.
  intros Hend. unfold scrape_loop. unfold bind at 1.
  destruct (consume_counts channel dir (fst stream) [] 0 0 w) as (w1 & Hrun).
  rewrite Hrun, Hend, !Z.add_0_l.
  set (fin := snd (batches_from [] (yielded (fst stream)))).
  unfold bind at 1. destruct fin as [|y fin'].
  - eexists. reflexivity.
  - destruct (save_batch_returns channel (y :: fin') dir w1) as [[] Hs].
    destruct (_save_messages_batch channel (y :: fin') dir w1)
      as [[[]|e] w2]; simpl in Hs; [|done].
    eexists. reflexivity.
Qed.

Lemma channel_info_serializable en :
  json_serializable (PDict (channel_info_of en))
  = match e_date en with None => true | Some _ => false end.
Proof.
  destruct en as [id title username participants about date v s f].
  simpl. destruct title, username, participants, about, date; reflexivity.
Qed.

Lemma write_json_run gz p doc w :
  w_denied w p = false →
  write_json gz p doc w
  = if json_serializable doc then
      (Return tt,
       mk_world (w_clock w) (w_tick w)
         (<[p := File (if gz then GzipJsonText doc else JsonText doc)]> (w_fs w))
         (w_denied w)
         (w_events w
            ++ [WriteFile p (if gz then GzipJsonText doc else JsonText doc)]))
    else
      (Raise (PyError "TypeError"
                "Object of type datetime is not JSON serializable"),
       mk_world (w_clock w) (w_tick w) (<[p := File Garbage]> (w_fs w))
         (w_denied w) (w_events w ++ [WriteFile p Garbage])).
Proof.
  intros Hden. unfold write_json. run. rewrite Hden.
  destruct (json_serializable doc); reflexivity.
Qed.

Lemma metadata_serializable info scraped_at mc ic limit offset :
  json_serializable (channel_metadata_doc info scraped_at mc ic limit offset)
  = json_serializable (PDict info).
Proof.
  unfold channel_metadata_doc. cbn [json_serializable forallb snd].
  destruct offset; cbn [json_serializable]; by rewrite !andb_true_r.
Qed.

Lemma scrape_channel_after_stream self tg channel limit offset w en :
  let channel_dir :=
    raw_messages_dir self ++ [strftime_date (w_clock w (w_tick w)); channel] in
  let stream :=
    scrape_messages channel limit offset (tg_iter_messages tg channel) in
  let ys := yielded (fst stream) in
  tg_get_entity tg channel = Return en →
  w_denied w channel_dir = false →
  existsb (is_file (w_fs w)) (ancestors channel_dir) = false →
  snd stream = None →
  ∃ w1,
    stable (not_a_report self) w w1
    ∧ _scrape_channel self tg channel limit offset w
      = try_except
          (write_json false (channel_dir ++ ["metadata.json"])
             (channel_metadata_doc (channel_info_of en)
                (w_clock w1 (Nat.pred (w_tick w1))) (len ys)
                (count_images ys) limit offset) ;;;
           emit (LogDataSaved channel (path_str channel_dir) (len ys)) ;;;
           ret (success_result (channel_info_of en) (len ys) (count_images ys)
                  (path_str channel_dir)))
          (fun e =>
             emit (LogScrapingError channel e "channel_scraping") ;;;
             ret (error_result (exn_str e))) w1.
Proof.
  intros channel_dir stream ys Hen Hden Hfile Hend.
  set (wa := mk_world (w_clock w) (S (w_tick w))
               (make_dirs (ancestors channel_dir) (w_fs w)) (w_denied w)
               (w_events w ++ [Mkdir channel_dir])).
  destruct (scrape_loop_counts channel channel_dir stream wa Hend)
    as (wb & Hrun).
  pose proof (scrape_loop_frames self channel
                (strftime_date (w_clock w (w_tick w))) channel stream
                (scrape_messages_quiet _ _ _ _) wa) as Hst.
  fold channel_dir in Hst. rewrite Hrun in Hst. simpl in Hst.
  exists (mk_world (w_clock wb) (S (w_tick wb)) (w_fs wb) (w_denied wb)
            (w_events wb)).
  split.
  - destruct Hst as (Hc & Hd & Ht & new & He & Hq).
    subst wa. simpl in *. repeat split; simpl; try done; [lia|].
    exists (Mkdir channel_dir :: new). rewrite He, <- app_assoc.
    split; [done|]. constructor; done.
  - unfold _scrape_channel, get_channel_info, mkdir_p.
    unfold try_except, bind, ret, lift, now, get_world, set_fs, emit.
    rewrite Hen. cbn [w_denied w_fs w_clock w_tick w_events].
    fold channel_dir. rewrite Hden, Hfile.
    cbn [w_denied w_fs w_clock w_tick w_events]. fold stream. fold wa.
    rewrite Hrun. cbn [w_denied w_fs w_clock w_tick w_events Nat.pred].
    fold ys. reflexivity.
Qed.

(** X3: when the channel resolves to an entity without a creation date, its
    directory can be created, the message stream ends normally and
    [metadata.json] can be written, [_scrape_channel] returns the success
    dictionary: [messages_scraped] is the number of records the stream
    yielded and [images_scraped] the number of those with [has_image]; the
    same counts are in [metadata.json].  This holds whether or not the batch
    files themselves could be written. *)
Theorem scrape_channel_success self tg channel limit offset w en :
  let channel_dir :=
    raw_messages_dir self ++ [strftime_date (w_clock w (w_tick w)); channel] in
  let ys :=
    yielded (fst (scrape_messages channel limit offset
                    (tg_iter_messages tg channel))) in
  tg_get_entity tg channel = Return en →
  e_date en = None →
  w_denied w channel_dir = false →
  existsb (is_file (w_fs w)) (ancestors channel_dir) = false →
  snd (scrape_messages channel limit offset (tg_iter_messages tg channel))
  = None →
  w_denied w (channel_dir ++ ["metadata.json"]) = false →
  ∃ w' scraped_at,
    _scrape_channel self tg channel limit offset w
    = (Return (success_result (channel_info_of en) (len ys) (count_images ys)
                 (path_str channel_dir)), w')
    ∧ w_fs w' !! (channel_dir ++ ["metadata.json"])
      = Some (File (JsonText
                      (channel_metadata_doc (channel_info_of en) scraped_at
                         (len ys) (count_images ys) limit offset))).
Proof.
  intros channel_dir ys Hen Hdate Hden Hfile Hend Hmeta.
  destruct (scrape_channel_after_stream self tg channel limit offset w en
              Hen Hden Hfile Hend) as (w1 & Hst & Hrun).
  fold channel_dir ys in Hrun. rewrite Hrun.
  destruct Hst as (_ & Hd & _).
  unfold try_except, bind. rewrite write_json_run by (by rewrite Hd).
  rewrite metadata_serializable, channel_info_serializable, Hdate.
  eexists _, _. split; [reflexivity|]. simpl. apply lookup_insert_eq.
Qed.

(** X4: when the entity of the channel carries a creation date,
    [channel_info["created_at"]] is a [datetime], which [json.dump] rejects:
    although the channel resolved and the stream ended normally,
    [_scrape_channel] returns the error "Object of type datetime is not JSON
    serializable" and leaves a truncated [metadata.json] behind. *)
Theorem scrape_channel_created_at_fails self tg channel limit offset w en d :
  let channel_dir :=
    raw_messages_dir self ++ [strftime_date (w_clock w (w_tick w)); channel] in
  tg_get_entity tg channel = Return en →
  e_date en = Some d →
  w_denied w channel_dir = false →
  existsb (is_file (w_fs w)) (ancestors channel_dir) = false →
  snd (scrape_messages channel limit offset (tg_iter_messages tg channel))
  = None →
  w_denied w (channel_dir ++ ["metadata.json"]) = false →
  ∃ w',
    _scrape_channel self tg channel limit offset w
    = (Return (error_result "Object of type datetime is not JSON serializable"),
       w')
    ∧ w_fs w' !! (channel_dir ++ ["metadata.json"]) = Some (File Garbage).
Proof.
  intros channel_dir Hen Hdate Hden Hfile Hend Hmeta.
  destruct (scrape_channel_after_stream self tg channel limit offset w en
              Hen Hden Hfile Hend) as (w1 & Hst & Hrun).
  fold channel_dir in Hrun. rewrite Hrun.
  destruct Hst as (_ & Hd & _).
  unfold try_except, bind. rewrite write_json_run by (by rewrite Hd).
  rewrite metadata_serializable, channel_info_serializable, Hdate.
  eexists. split; [reflexivity|]. simpl. apply lookup_insert_eq.
Qed.

Lemma writes_app e1 e2 : writes (e1 ++ e2) = writes e1 ++ writes e2.
Proof. unfold writes. apply omap_app. Qed.

Lemma batch_writes_of_writes events :
  batch_writes events
  = omap (fun pf => match snd pf with
                    | JsonText (PList l) => Some l
                    | _ => None
                    end) (writes events).
Proof.
  induction events as [|e events IH]; [done|].
  change (e :: events) with ([e] ++ events).
  rewrite batch_writes_app, writes_app, omap_app, IH. f_equal.
  destruct e as [| | | | | | | |p f|]; try done.
Qed.

Lemma omap_json_lists (bs : list (list dict)) (fs : list (path * file)) :
  map snd fs = map (fun b => JsonText (PList (map PDict b))) bs →
  omap (fun pf => match snd pf with
                  | JsonText (PList l) => Some l
                  | _ => None
                  end) fs
  = map (map PDict) bs.
Proof.
  revert bs. induction fs as [|[p f] fs IH]; intros [|b bs] H; try done.
  simpl in H. injection H as Hf Hfs. subst f. simpl.
  f_equal. exact (IH bs Hfs).
Qed.

Lemma consume_writes channel dir steps :
  ∀ acc mc ic w,
    (∀ name, w_denied w (dir ++ [name]) = false) →
    forallb json_serializable (map PDict (acc ++ yielded steps)) = true →
    forallb quiet_step steps = true →
    ∃ w' new,
      consume channel dir steps acc mc ic w
      = (Return (snd (batches_from acc (yielded steps)),
                 mc + len (yielded steps),
                 ic + count_images (yielded steps)), w')
      ∧ w_denied w' = w_denied w
      ∧ w_events w' = w_events w ++ new
      ∧ map snd (writes new)
        = map (fun b => JsonText (PList (map PDict b)))
            (fst (batches_from acc (yielded steps))).
Proof.
  induction steps as [|s steps IH]; intros acc mc ic w Hden Hser Hq.
  - exists w, []. simpl. unfold count_images, len. simpl.
    rewrite !Z.add_0_r, app_nil_r. done.
  - simpl in Hq. apply andb_prop in Hq as [Hs Hq]. destruct s as [d|e].
    + change (yielded (Yield d :: steps)) with (d :: yielded steps) in *.
      simpl. rewrite count_images_cons.
      replace (mc + len (d :: yielded steps))
        with (mc + 1 + len (yielded steps)) by (unfold len; simpl; lia).
      replace (ic + ((if has_image d then 1 else 0)
                     + count_images (yielded steps)))
        with ((if has_image d then ic + 1 else ic)
              + count_images (yielded steps))
        by (destruct (has_image d); lia).
      destruct (100 <=? len (acc ++ [d])) eqn:Hfull.
      * assert (forallb json_serializable (map PDict (acc ++ [d])) = true
                ∧ forallb json_serializable (map PDict ([] ++ yielded steps))
                  = true) as [Hs1 Hs2].
        { replace (acc ++ d :: yielded steps)
            with ((acc ++ [d]) ++ yielded steps) in Hser
            by (rewrite <- app_assoc; done).
          rewrite map_app, forallb_app in Hser.
          apply andb_prop in Hser. done. }
        unfold bind at 1.
        rewrite save_batch_run; [|apply Hden|exact Hs1].
        match goal with
        | |- context [consume _ _ _ _ _ _ ?w1] =>
            destruct (IH [] (mc + 1) (if has_image d then ic + 1 else ic) w1)
              as (w' & new & Hrun & Hd & He & Hb);
              [exact Hden|exact Hs2|exact Hq|]
        end.
        rewrite Hrun. simpl in Hd, He.
        destruct (batches_from [] (yielded steps)) as [bs fin]. simpl in *.
        eexists w', _. split; [done|]. split; [done|]. split.
        { rewrite He, <- app_assoc. done. }
        rewrite writes_app. simpl. rewrite Hb. done.
      * destruct (IH (acc ++ [d]) (mc + 1)
                    (if has_image d then ic + 1 else ic) w)
          as (w' & new & Hrun & Hd & He & Hb); [exact Hden| |exact Hq|].
        { rewrite <- app_assoc. exact Hser. }
        rewrite Hrun. exists w', new. done.
    + change (yielded (Effect e :: steps)) with (yielded steps) in *.
      simpl. unfold bind at 1. unfold emit at 1.
      match goal with
      | |- context [consume _ _ _ _ _ _ ?w1] =>
          destruct (IH acc mc ic w1)
            as (w' & new & Hrun & Hd & He & Hb);
            [exact Hden|exact Hser|exact Hq|]
      end.
      rewrite Hrun. simpl in Hd, He. exists w', (e :: new).
      split; [done|]. split; [done|]. split.
      { rewrite He, <- app_assoc. done. }
      destruct e; try exact Hb. simpl in Hs. done.
Qed.

Lemma batches_from_full_part (ys : list dict) :
  concat (fst (batches_from [] ys))
  = take (100 * (length ys / 100))%nat ys
  ∧ length (fst (batches_from [] ys)) = (length ys / 100)%nat.
Proof.
  pose proof (batches_from_spec [] ys ltac:(simpl; lia)) as Hspec.
  destruct (batches_from [] ys) as [bs fin] eqn:Hb.
  destruct (batches_from_count ys bs fin Hb) as [Hnb Hnf].
  destruct Hspec as (Hcat & Hfull & Hfin).
  change ([] ++ ys) with ys in Hcat. cbn [fst]. split; [|exact Hnb].
  assert (length (concat bs) = (100 * (length ys / 100))%nat) as Hlen.
  { rewrite <- Hnb. clear -Hfull.
    induction Hfull as [|b bs Hb _ IH]; [done|].
    cbn [concat]. rewrite length_app, IH, Hb. cbn [length]. lia. }
  rewrite <- Hlen, <- Hcat. by rewrite take_app_length.
Qed.

(** X5: when the message stream ends with an exception after yielding [n]
    records, [_scrape_channel] returns [{"error": str(e)}]; the batches of
    100 flushed before the exception stay on disk, but the records still in
    memory (the last [n mod 100]) are never written, and neither is
    [metadata.json]: the only files written are the [n / 100] full batches. *)
Theorem scrape_channel_stream_failure_drops_remainder
    self tg channel limit offset w en e :
  let channel_dir :=
    raw_messages_dir self ++ [strftime_date (w_clock w (w_tick w)); channel] in
  let stream :=
    scrape_messages channel limit offset (tg_iter_messages tg channel) in
  let ys := yielded (fst stream) in
  tg_get_entity tg channel = Return en →
  w_denied w channel_dir = false →
  existsb (is_file (w_fs w)) (ancestors channel_dir) = false →
  (∀ name, w_denied w (channel_dir ++ [name]) = false) →
  forallb json_serializable (map PDict ys) = true →
  snd stream = Some e →
  ∃ w' new,
    _scrape_channel self tg channel limit offset w
    = (Return (error_result (exn_str e)), w')
    ∧ w_events w' = w_events w ++ new
    ∧ length (writes new) = (length ys / 100)%nat
    ∧ concat (batch_writes new)
      = map PDict (take (100 * (length ys / 100))%nat ys).
Proof.
  intros channel_dir stream ys Hen Hden Hfile Hfiles Hser He.
  set (wa := mk_world (w_clock w) (S (w_tick w))
               (make_dirs (ancestors channel_dir) (w_fs w)) (w_denied w)
               (w_events w ++ [Mkdir channel_dir])).
  destruct (consume_writes channel channel_dir (fst stream) [] 0 0 wa)
    as (wb & new & Hrun & Hd & Hev & Hw);
    [exact Hfiles|exact Hser|apply scrape_messages_quiet|].
  fold ys in Hw.
  destruct (batches_from_full_part ys) as [Hcat Hlen].
  exists (mk_world (w_clock wb) (w_tick wb) (w_fs wb) (w_denied wb)
            (w_events wb ++ [LogScrapingError channel e "channel_scraping"])),
    (Mkdir channel_dir :: new
       ++ [LogScrapingError channel e "channel_scraping"]).
  split; [|split; [|split]].
  - unfold _scrape_channel, get_channel_info, mkdir_p, scrape_loop.
    unfold try_except, bind, ret, raise, lift, now, get_world, set_fs, emit.
    rewrite Hen. cbn [w_denied w_fs w_clock w_tick w_events].
    fold channel_dir. rewrite Hden, Hfile.
    cbn [w_denied w_fs w_clock w_tick w_events]. fold stream. fold wa.
    rewrite Hrun. rewrite He. reflexivity.
  - simpl. rewrite Hev. subst wa. simpl. rewrite <- !app_assoc. done.
  - change (Mkdir channel_dir :: new ++ [LogScrapingError channel e "channel_scraping"])
      with ([Mkdir channel_dir] ++ new ++ [LogScrapingError channel e "channel_scraping"]).
    rewrite !writes_app.
    change (writes [Mkdir channel_dir]) with (@nil (path * file)).
    change (writes [LogScrapingError channel e "channel_scraping"])
      with (@nil (path * file)).
    rewrite app_nil_r. cbn [app].
    rewrite <- (length_map snd), Hw, length_map. exact Hlen.
  - change (Mkdir channel_dir :: new ++ [LogScrapingError channel e "channel_scraping"])
      with ([Mkdir channel_dir] ++ new ++ [LogScrapingError channel e "channel_scraping"]).
    rewrite !batch_writes_app.
    change (batch_writes [Mkdir channel_dir]) with (@nil (list pyval)).
    change (batch_writes [LogScrapingError channel e "channel_scraping"])
      with (@nil (list pyval)).
    rewrite app_nil_r. cbn [app].
    rewrite batch_writes_of_writes, (omap_json_lists _ _ Hw).
    rewrite <- Hcat. clear.
    induction (fst (batches_from [] ys)) as [|b bs IH]; [done|].
    simpl. by rewrite map_app, IH.
Qed.

Lemma scrape_messages_pause_after_yield_witness :
  fst (scrape_messages "chemed" 10 None (Ends [Message (Some msg1)])) !! 2%nat
  = Some (Effect (Sleep 100)).
Proof.
  apply (scrape_messages_pause_after_yield "chemed" 10 None
           (Ends [Message (Some msg1)]) 1 msg1).
  reflexivity.
Defined.

Lemma scrape_channel_success_witness :
  ∃ w' scraped_at,
    _scrape_channel scraper0 (quiet_platform [Message (Some msg1)]) "chemed"
      10 None (new_world noon)
    = (Return (success_result (channel_info_of chemed_entity) 1 0
                 "data/raw/telegram_messages/2024-03-05/chemed"), w')
    ∧ w_fs w' !! (chemed_dir ++ ["metadata.json"])
      = Some (File (JsonText
                      (channel_metadata_doc (channel_info_of chemed_entity)
                         scraped_at 1 0 10 None))).
Proof.
  apply (scrape_channel_success scraper0 (quiet_platform [Message (Some msg1)])
           "chemed" 10 None (new_world noon) chemed_entity);
    vm_compute; reflexivity.
Defined.

Lemma scrape_channel_created_at_fails_witness :
  ∃ w',
    _scrape_channel scraper0 (dated_platform [Message (Some msg1)])
      "tikvahpharma" 10 None (new_world noon)
    = (Return (error_result "Object of type datetime is not JSON serializable"),
       w')
    ∧ w_fs w' !! ["data"; "raw"; "telegram_messages"; "2024-03-05";
                  "tikvahpharma"; "metadata.json"]
      = Some (File Garbage).
Proof.
  apply (scrape_channel_created_at_fails scraper0
           (dated_platform [Message (Some msg1)]) "tikvahpharma" 10 None
           (new_world noon) dated_entity (datetime_of 2019 6 1 9 30 0 0));
    vm_compute; reflexivity.
Defined.

Lemma scrape_channel_stream_failure_drops_remainder_witness :
  ∃ w' new,
    _scrape_channel scraper0 interrupted_channel "chemed" 1000 None
      (new_world noon)
    = (Return (error_result "The channel specified is private"), w')
    ∧ w_events w' = new
    ∧ length (writes new) = 1%nat
    ∧ concat (batch_writes new) = replicate 100 (PDict msg1).
Proof.
  apply (scrape_channel_stream_failure_drops_remainder scraper0
           interrupted_channel "chemed" 1000 None (new_world noon)
           chemed_entity
           (ChannelPrivateError "The channel specified is private"));
    vm_compute; reflexivity.
Defined.

Lemma len_filter_cons {A} (f : A → bool) (b : bool) (x : A) (l : list A) :
  len (filter (fun entry => f entry = b) (x :: l))
  = (if Bool.eqb (f x) b then 1 else 0)
    + len (filter (fun entry => f entry = b) l).
Proof.
  rewrite filter_cons. unfold len.
  destruct (decide (f x = b)) as [H|H].
  - rewrite H, Bool.eqb_reflx. cbn [length]. lia.
  - destruct (Bool.eqb_spec (f x) b) as [E|E]; [done|lia].
Qed.

Lemma tally_results_totals results :
  ∀ t t',
    tally_results results t = Return t' →
    successful_channels t'
    = successful_channels t
      + len (filter (fun entry => succeeded (snd entry) = true) results)
    ∧ failed_channels t'
      = failed_channels t
        + len (filter (fun entry => succeeded (snd entry) = false) results)
    ∧ total_messages t'
      = total_messages t + sum_counter "messages_scraped" results
    ∧ total_images t'
      = total_images t + sum_counter "images_scraped" results.
Proof.
  induction results as [|[channel res] results IH]; intros t t' Ht.
  - simpl in Ht. injection Ht as <-. unfold len. simpl. lia.
  - rewrite (len_filter_cons (fun entry => succeeded (snd entry)) true).
    rewrite (len_filter_cons (fun entry => succeeded (snd entry)) false).
    cbn [snd sum_counter foldr].
    fold (sum_counter "messages_scraped" results).
    fold (sum_counter "images_scraped" results).
    destruct res as [| | | | |l|d]; simpl in Ht; try discriminate Ht.
    cbn [succeeded counter].
    destruct (py_truthy (default PNone (dict_get "success" d))) eqn:Hs.
    + destruct (dict_get "messages_scraped" d) as [[| b | n | | | |]|] eqn:Hm;
        simpl in Ht; try discriminate Ht;
        destruct (dict_get "images_scraped" d) as [[| b' | n' | | | |]|] eqn:Hi;
        simpl in Ht; try discriminate Ht;
        destruct (IH _ _ Ht) as (H1 & H2 & H3 & H4); cbn in H1, H2, H3, H4;
        cbn [Bool.eqb]; lia.
    + destruct (IH _ _ Ht) as (H1 & H2 & H3 & H4). cbn in H1, H2, H3, H4.
      cbn [Bool.eqb]. lia.
Qed.

Lemma dict_set_keys k v (d : dict) :
  map fst (dict_set k v d)
  = if dict_mem k d then map fst d else map fst d ++ [k].
Proof.
  unfold dict_mem. induction d as [|[k' v'] d IH]; [done|].
  simpl. destruct (String.eqb_spec k k') as [->|Hne]; [done|].
  simpl. rewrite IH. by destruct (dict_get k d).
Qed.

Lemma dict_mem_keys k (d : dict) : dict_mem k d = true ↔ k ∈ map fst d.
Proof.
  unfold dict_mem. induction d as [|[k' v'] d IH]; simpl.
  - split; [done|]. intros H. by apply elem_of_nil in H.
  - rewrite elem_of_cons. destruct (String.eqb_spec k k') as [->|Hne].
    + split; [by left|done].
    + rewrite IH. split; [by right|]. intros [?|?]; done.
Qed.

Lemma dict_set_keys_NoDup k v (d : dict) :
  NoDup (map fst d) →
  NoDup (map fst (dict_set k v d))
  ∧ ∀ ch, ch ∈ map fst (dict_set k v d) ↔ ch ∈ map fst d ∨ ch = k.
Proof.
  intros Hnd. rewrite dict_set_keys.
  destruct (dict_mem k d) eqn:Hmem.
  - apply dict_mem_keys in Hmem. split; [done|].
    intros ch. split; [by left|]. intros [? | ->]; done.
  - split.
    + apply NoDup_app. split; [done|]. split; [|apply NoDup_singleton].
      intros x Hx Hk. apply list_elem_of_singleton in Hk as ->.
      apply dict_mem_keys in Hx. congruence.
    + intros ch. rewrite elem_of_app, list_elem_of_singleton. done.
Qed.

Lemma scrape_channels_keys self tg limit offset todo :
  ∀ results w results' w',
    scrape_channels self tg todo limit offset results w = (Return results', w') →
    NoDup (map fst results) →
    NoDup (map fst results')
    ∧ ∀ ch, ch ∈ map fst results' ↔ ch ∈ map fst results ∨ ch ∈ todo.
Proof.
  induction todo as [|channel todo IH]; intros results w results' w' Hrun Hnd.
  - simpl in Hrun. injection Hrun as <- <-. split; [done|].
    intros ch. split; [by left|]. intros [?|H]; [done|].
    by apply elem_of_nil in H.
  - simpl in Hrun. unfold bind at 1 in Hrun. unfold try_except at 1 in Hrun.
    unfold bind at 1 in Hrun.
    destruct (_scrape_channel self tg channel limit offset w) as [[r|e] w1].
    + unfold bind at 1, emit at 1, ret at 1 in Hrun.
      destruct (dict_set_keys_NoDup channel (PDict r) results Hnd)
        as [Hnd1 Hkeys].
      destruct (IH _ _ _ _ Hrun Hnd1) as [Hnd' Hin]. split; [exact Hnd'|].
      intros ch. rewrite Hin, Hkeys, elem_of_cons. tauto.
    + unfold bind at 1, emit at 1, ret at 1 in Hrun.
      destruct (dict_set_keys_NoDup channel
                  (PDict (error_result (exn_str e))) results Hnd)
        as [Hnd1 Hkeys].
      destruct (IH _ _ _ _ Hrun Hnd1) as [Hnd' Hin]. split; [exact Hnd'|].
      intros ch. rewrite Hin, Hkeys, elem_of_cons. tauto.
Qed.

Lemma scrape_all_channels_run self tg limit_per_channel days_back w :
  tg_start tg = None →
  tg_disconnect tg = None →
  (∀ name, w_denied w (scraper_data_dir self ++ ["raw"; name]) = false) →
  let offset_date :=
    if 0 <? days_back
    then Some (datetime_sub_days (w_clock w (w_tick w)) days_back)
    else None in
  ∃ results w1 w2 w' p generated_at t,
    scrape_channels self tg (channels self) limit_per_channel offset_date [] w1
    = (Return results, w2)
    ∧ tally_results results (mk_tally 0 0 0 0) = Return t
    ∧ scrape_all_channels self tg limit_per_channel days_back w
      = (Return results, w')
    ∧ w_fs w' !! p
      = Some (File (JsonText (report_doc generated_at (len (channels self)) t
                                results))).
Proof.
  intros Hstart Hstop Hden offset_date.
  set (ev0 := [LogScrapingStart "all_channels" "batch_scraping";
               LogScrapingStart "telegram_client" "connection"]).
  set (w1 := mk_world (w_clock w)
               (if 0 <? days_back then S (w_tick w) else w_tick w)
               (w_fs w) (w_denied w) (w_events w ++ ev0)).
  destruct (scrape_channels_run self tg limit_per_channel offset_date
              (channels self) [] w1 ltac:(constructor))
    as (results & w2 & Hrun & Hst & Hok & Hin).
  destruct Hst as (Hc2 & Hd2 & _ & new2 & He2 & Hq2).
  set (w3 := mk_world (w_clock w2) (w_tick w2) (w_fs w2) (w_denied w2)
               (w_events w2
                  ++ [LogScrapingStart "telegram_client" "disconnection"])).
  destruct (tally_results_ok tg limit_per_channel offset_date results Hok
              (mk_tally 0 0 0 0)) as [t Ht].
  pose proof (report_run self results w3 t Ht) as Hrep.
  simpl in Hrep. unfold report_path in Hrep at 1.
  rewrite Hd2 in Hrep. simpl in Hrep.
  specialize (Hrep (Hden _)
                (results_serializable tg limit_per_channel offset_date results Hok)).
  assert (scrape_all_channels self tg limit_per_channel days_back w
          = (Return results,
             snd (_generate_scraping_report self results w3))) as Hall.
  { unfold scrape_all_channels, async_with_client, connect, disconnect,
      offset_date_of.
    rewrite Hstart, Hstop. subst offset_date w1 ev0.
    destruct (0 <? days_back); run; rewrite <- app_assoc; simpl;
      rewrite Hrun; simpl; fold w3; rewrite Hrep; done. }
  rewrite Hrep in Hall. simpl in Hall.
  eexists results, w1, w2, _, _, _, t.
  split; [exact Hrun|]. split; [exact Ht|]. split; [exact Hall|].
  simpl. apply lookup_insert_eq.
Qed.



Lemma load_files_app channel context files1 files2 :
  ∀ messages w,
    load_files channel context (files1 ++ files2) messages w
    = (messages <- load_files channel context files1 messages ;;
       load_files channel context files2 messages) w.
Proof.
  induction files1 as [|p files1 IH]; intros messages w; [done|].
  cbn [app load_files]. set (m := try_except _ _). unfold bind.
  destruct (m w) as [[messages'|e] w1]; [|done].
  rewrite IH. done.
Qed.

Lemma days_from_ordinals n :
  ∀ d x, x ∈ days_from n d →
         dt_ordinal d ≤ dt_ordinal x < dt_ordinal d + Z.of_nat n
         ∧ time_of_day x = time_of_day d.
Proof.
  induction n as [|n IH]; intros d x Hx; [by apply elem_of_nil in Hx|].
  cbn [days_from] in Hx. apply elem_of_cons in Hx as [->|Hx]; [lia|].
  apply IH in Hx. cbn in Hx. unfold time_of_day in *. cbn in Hx. lia.
Qed.

Lemma date_range_loop_run self channel end_date fuel :
  ∀ current_date messages w,
    dt_ordinal end_date < max_ordinal →
    (Z.to_nat (dt_ordinal end_date - dt_ordinal current_date + 1) ≤ fuel)%nat →
    date_range_loop fuel self channel current_date end_date messages w
    = load_files channel "loading_messages_from_"
        (flat_map
           (fun d => partition_batch_files self channel (w_fs w)
                       (strftime_date d))
           (visited_dates current_date end_date))
        messages w.
Proof.
  induction fuel as [|fuel IH]; intros current_date messages w Hmax Hfuel.
  - assert (dt_ordinal end_date < dt_ordinal current_date) as Hlt by lia.
    cbn [date_range_loop]. unfold datetime_leb, datetime_ltb, visited_dates.
    rewrite (proj2 (Z.ltb_lt _ _) Hlt). cbn [orb negb].
    replace (Z.to_nat _) with 0%nat
      by (destruct (_ <=? _); lia).
    done.
  - cbn [date_range_loop]. unfold datetime_leb, datetime_ltb, visited_dates.
    destruct (Z.ltb_spec (dt_ordinal end_date) (dt_ordinal current_date))
      as [Hlt|Hge].
    { cbn [orb negb].
      replace (Z.to_nat _) with 0%nat by (destruct (_ <=? _); lia).
      done. }
    destruct (Z.eqb_spec (dt_ordinal end_date) (dt_ordinal current_date))
      as [Heq|Hne]; cbn [orb andb negb].
    + rewrite Heq, Z.sub_diag. rewrite (Z.leb_antisym (time_of_day end_date)).
      destruct (time_of_day end_date <? time_of_day current_date);
        cbn [negb Z.add Z.to_nat]; [done|].
      change (Z.to_nat (0 + 1)) with 1%nat. cbn [days_from flat_map].
      rewrite app_nil_r. unfold bind at 1. unfold get_world at 1.
      unfold bind at 1.
      destruct (load_files_run channel "loading_messages_from_"
                  (partition_batch_files self channel (w_fs w)
                     (strftime_date current_date)) messages w)
        as (w1 & Hrun & Hfs).
      rewrite Hrun. unfold bind at 1, lift at 1, datetime_add_day.
      rewrite (proj2 (Z.leb_le _ _)) by lia.
      destruct fuel as [|fuel']; cbn [date_range_loop];
        unfold datetime_leb, datetime_ltb; cbn [dt_ordinal];
        rewrite (proj2 (Z.ltb_lt (dt_ordinal end_date)
                          (dt_ordinal current_date + 1))) by lia;
        done.
    + assert (dt_ordinal current_date < dt_ordinal end_date) as Hlt by lia.
      unfold bind at 1. unfold get_world at 1. unfold bind at 1.
      destruct (load_files_run channel "loading_messages_from_"
                  (partition_batch_files self channel (w_fs w)
                     (strftime_date current_date)) messages w)
        as (w1 & Hrun & Hfs).
      rewrite Hrun. unfold bind at 1, lift at 1, datetime_add_day.
      rewrite (proj2 (Z.leb_le _ _)) by lia.
      rewrite IH by (cbn [dt_ordinal]; lia).
      unfold visited_dates. cbn [dt_ordinal]. rewrite Hfs.
      set (next := mk_dt (dt_ordinal current_date + 1) (dt_hour current_date)
                     (dt_minute current_date) (dt_second current_date)
                     (dt_microsecond current_date)).
      change (time_of_day next) with (time_of_day current_date).
      set (extra := if time_of_day current_date <=? time_of_day end_date
                    then 1 else 0).
      assert (0 ≤ extra ≤ 1) as Hextra by (subst extra; destruct (_ <=? _); lia).
      replace (Z.to_nat (dt_ordinal end_date - dt_ordinal current_date + extra))
        with (S (Z.to_nat (dt_ordinal end_date - (dt_ordinal current_date + 1)
                           + extra))) by lia.
      cbn [days_from flat_map]. fold next.
      rewrite load_files_app. unfold bind at 1. rewrite Hrun. done.
Qed.

(** X7: [get_messages_for_date_range], for an [end_date] before the last
    representable day, never raises and changes no file: it returns, in
    order, the items of the batch files of the partitions of the days it
    visits, skipping unreadable files.  The days visited start at
    [start_date] and keep its time of day, so the partition of the day of
    [end_date] is read only when the time of day of [start_date] is not later
    than that of [end_date]. *)
Theorem get_messages_for_date_range_reads_visited_days
    self channel start_date end_date w :
  let fs := w_fs w in
  let files :=
    flat_map
      (fun d => partition_batch_files self channel fs (strftime_date d))
      (visited_dates start_date end_date) in
  dt_ordinal end_date < max_ordinal →
  (∃ w',
     get_messages_for_date_range self channel start_date end_date w
     = (Return (flat_map (file_items fs) files), w')
     ∧ w_fs w' = fs)
  ∧ (∀ d, d ∈ visited_dates start_date end_date →
          dt_ordinal start_date ≤ dt_ordinal d ≤ dt_ordinal end_date
          ∧ time_of_day d = time_of_day start_date
          ∧ datetime_leb d end_date = true)
  ∧ (time_of_day end_date < time_of_day start_date →
     ∀ d, d ∈ visited_dates start_date end_date →
          dt_ordinal d < dt_ordinal end_date).
Proof.
  intros fs files Hmax. split; [|split].
  - unfold get_messages_for_date_range.
    rewrite date_range_loop_run by (done || lia).
    destruct (load_files_run channel "loading_messages_from_" files [] w)
      as (w' & Hrun & Hfs).
    exists w'. done.
  - intros d Hd. apply days_from_ordinals in Hd as [Hord Htime].
    unfold datetime_leb, datetime_ltb. rewrite Htime.
    destruct (Z.leb_spec (time_of_day start_date) (time_of_day end_date))
      as [Hle|Hgt].
    + split; [lia|]. split; [done|].
      rewrite (proj2 (Z.ltb_ge _ _)) by lia.
      rewrite (proj2 (Z.ltb_ge (time_of_day end_date) _)) by lia.
      by rewrite andb_false_r.
    + split; [lia|]. split; [done|].
      rewrite (proj2 (Z.ltb_ge _ _)) by lia.
      rewrite (proj2 (Z.eqb_neq _ _)) by lia. done.
  - intros Hlate d Hd. apply days_from_ordinals in Hd as [Hord _].
    rewrite (proj2 (Z.leb_gt _ _)) in Hord by lia. lia.
Qed.

Lemma get_messages_for_date_range_reads_visited_days_witness :
  ∃ w',
    get_messages_for_date_range lake0 "chemed"
      (datetime_of 2024 1 1 0 0 0 0) (datetime_of 2024 1 2 0 0 0 0)
      two_message_lake
    = (Return
         (flat_map (file_items (w_fs two_message_lake))
            (flat_map
               (fun d => partition_batch_files lake0 "chemed"
                           (w_fs two_message_lake) (strftime_date d))
               (visited_dates (datetime_of 2024 1 1 0 0 0 0)
                  (datetime_of 2024 1 2 0 0 0 0)))), w')
    ∧ w_fs w' = w_fs two_message_lake.
Proof.
  apply (get_messages_for_date_range_reads_visited_days lake0 "chemed"
           (datetime_of 2024 1 1 0 0 0 0) (datetime_of 2024 1 2 0 0 0 0)
           two_message_lake).
  reflexivity.
Defined.

(** Two messages stored in the partition of the 2nd of January 2024: a range
    that ends on that day at midnight returns them when it starts at
    midnight, and nothing when it starts at noon. *)
Example get_messages_for_date_range_scenario :
  let stored :=
    file_items (w_fs two_message_lake)
      (messages_root lake0
         ++ ["2024-01-02"; "chemed"; "messages_20240305_120000_2.json"]) in
  length stored = 2%nat
  ∧ fst (get_messages_for_date_range lake0 "chemed"
           (datetime_of 2024 1 1 0 0 0 0) (datetime_of 2024 1 2 0 0 0 0)
           two_message_lake)
    = Return stored
  ∧ fst (get_messages_for_date_range lake0 "chemed"
           (datetime_of 2024 1 1 12 0 0 0) (datetime_of 2024 1 2 0 0 0 0)
           two_message_lake)
    = Return [].
Proof. vm_compute. repeat split; reflexivity. Qed.

Lemma date_range_loop_overflow self channel end_date fuel :
  ∀ current_date messages w,
    dt_ordinal end_date = max_ordinal →
    dt_ordinal current_date ≤ max_ordinal →
    time_of_day current_date ≤ time_of_day end_date →
    (Z.to_nat (max_ordinal - dt_ordinal current_date + 1) ≤ fuel)%nat →
    ∃ w',
      date_range_loop fuel self channel current_date end_date messages w
      = (Raise (PyError "OverflowError" "date value out of range"), w')
      ∧ w_fs w' = w_fs w.
Proof.
  induction fuel as [|fuel IH]; intros current_date messages w Hend Hcur Htime
    Hfuel; [lia|].
  cbn [date_range_loop].
  assert (datetime_leb current_date end_date = true) as ->.
  { unfold datetime_leb, datetime_ltb.
    rewrite (proj2 (Z.ltb_ge _ _)) by lia.
    rewrite (proj2 (Z.ltb_ge (time_of_day end_date) _)) by lia.
    by rewrite andb_false_r. }
  unfold bind at 1. unfold get_world at 1. unfold bind at 1.
  destruct (load_files_run channel "loading_messages_from_"
              (partition_batch_files self channel (w_fs w)
                 (strftime_date current_date)) messages w)
    as (w1 & Hrun & Hfs).
  rewrite Hrun. unfold bind at 1, lift at 1, datetime_add_day.
  destruct (Z.leb_spec (dt_ordinal current_date + 1) max_ordinal) as [Hle|Hgt].
  - destruct (IH (mk_dt (dt_ordinal current_date + 1) (dt_hour current_date)
                    (dt_minute current_date) (dt_second current_date)
                    (dt_microsecond current_date))
                (messages
                 ++ flat_map (file_items (w_fs w))
                      (partition_batch_files self channel (w_fs w)
                         (strftime_date current_date))) w1)
      as (w' & Hloop & Hfs'); [done|cbn; lia|exact Htime|cbn; lia|].
    exists w'. split; [exact Hloop|congruence].
  - exists w1. done.
Qed.

(** X8: when [end_date] falls on the last representable day, the 31st of
    December 9999, and [start_date] is not later in the day than [end_date],
    [get_messages_for_date_range] does not return: after the last day's
    partition is read, [current_date += timedelta(days=1)] raises
    [OverflowError], which nothing catches. *)
Theorem get_messages_for_date_range_overflows
    self channel start_date end_date w :
  dt_ordinal end_date = max_ordinal →
  dt_ordinal start_date ≤ max_ordinal →
  time_of_day start_date ≤ time_of_day end_date →
  ∃ w',
    get_messages_for_date_range self channel start_date end_date w
    = (Raise (PyError "OverflowError" "date value out of range"), w')
    ∧ w_fs w' = w_fs w.
Proof.
  intros Hend Hstart Htime. unfold get_messages_for_date_range.
  apply date_range_loop_overflow; try done. rewrite Hend. lia.
Qed.

Lemma get_messages_for_date_range_overflows_witness :
  ∃ w',
    get_messages_for_date_range lake0 "chemed"
      (datetime_of 9999 12 30 0 0 0 0) (datetime_of 9999 12 31 0 0 0 0)
      two_message_lake
    = (Raise (PyError "OverflowError" "date value out of range"), w')
    ∧ w_fs w' = w_fs two_message_lake.
Proof.
  apply (get_messages_for_date_range_overflows lake0 "chemed"
           (datetime_of 9999 12 30 0 0 0 0) (datetime_of 9999 12 31 0 0 0 0)
           two_message_lake); [reflexivity|discriminate|discriminate].
Defined.

(** *** Listing a directory *)

Lemma elem_of_listdir (d : path) (fs : gmap path node) name :
  name ∈ listdir d fs ↔ is_Some (fs !! (d ++ [name])).
Proof.
  unfold listdir. rewrite list_elem_of_omap. split.
  - intros ([p n] & Hin & Hname). apply elem_of_map_to_list in Hin.
    cbn [fst] in Hname. destruct (list.last p) as [name'|]; [|done].
    destruct (bool_decide_reflect (p = d ++ [name'])) as [->|]; [|done].
    injection Hname as ->. by eexists.
  - intros [n Hn]. exists (d ++ [name], n). split.
    + by apply elem_of_map_to_list.
    + cbn [fst]. rewrite last_snoc. by rewrite bool_decide_eq_true_2.
Qed.

Lemma NoDup_listdir (d : path) (fs : gmap path node) : NoDup (listdir d fs).
Proof.
  unfold listdir. pose proof (NoDup_fst_map_to_list fs) as Hnd.
  induction (map_to_list fs) as [|[p n] l IH]; [constructor|].
  cbn [fmap list_fmap fst] in Hnd. apply NoDup_cons in Hnd as [Hp Hnd].
  cbn [omap list_omap fst].
  destruct (list.last p) as [name|]; [|by apply IH].
  destruct (bool_decide_reflect (p = d ++ [name])) as [->|]; [|by apply IH].
  apply NoDup_cons. split; [|by apply IH].
  intros Hin. apply Hp. apply list_elem_of_omap in Hin as ([q m] & Hq & Hname).
  cbn [fst] in Hname. destruct (list.last q) as [name'|]; [|done].
  destruct (bool_decide_reflect (q = d ++ [name'])) as [->|]; [|done].
  injection Hname as ->. apply list_elem_of_fmap. by exists (d ++ [name], m).
Qed.

Lemma NoDup_only {A} (l : list A) (a : A) :
  NoDup l → (∀ x, x ∈ l ↔ x = a) → l = [a].
Proof.
  intros Hnd Hin. destruct l as [|x l].
  - exfalso. eapply elem_of_nil. by apply Hin.
  - assert (x = a) as -> by (apply Hin; left).
    apply NoDup_cons in Hnd as [Hx Hnd]. destruct l as [|y l]; [done|].
    exfalso. apply Hx. assert (y = a) as -> by (apply Hin; right; left).
    left.
Qed.

(** *** The pattern [messages_*.json] *)

Lemma substring_all s : substring 0 (String.length s) s = s.
Proof. induction s as [|c s IH]; [done|]. simpl. by rewrite IH. Qed.

Lemma substring_app_r a b :
  substring (String.length a) (String.length b) (a +:+ b) = b.
Proof.
  induction a as [|c a IH]; [apply substring_all|]. exact IH.
Qed.

Lemma endswith_app a b : endswith (a +:+ b) b = true.
Proof.
  unfold endswith. rewrite str_length_app.
  replace (String.length a + String.length b - String.length b)%nat
    with (String.length a) by lia.
  rewrite substring_app_r, String.eqb_refl.
  rewrite andb_true_r. apply Nat.leb_le. lia.
Qed.

Lemma batch_filename_is_batch_file timestamp count :
  is_batch_file (batch_filename timestamp count) = true.
Proof.
  unfold is_batch_file, batch_filename.
  rewrite <- !str_app_assoc, endswith_app, !str_app_assoc.
  rewrite !str_length_app. cbn [startswith String.append Ascii.eqb Bool.eqb andb].
  apply Nat.leb_le. simpl. lia.
Qed.

Lemma list_ascii_of_string_app a b :
  list_ascii_of_string (a +:+ b)
  = list_ascii_of_string a ++ list_ascii_of_string b.
Proof. induction a as [|c a IH]; [done|]. simpl. by rewrite IH. Qed.

Lemma substring_split s :
  ∀ n, (n ≤ String.length s)%nat →
       s = substring 0 n s +:+ substring n (String.length s - n) s.
Proof.
  induction s as [|x s IH]; intros [|n] Hn; simpl in *; try lia.
  - done.
  - by rewrite substring_all.
  - rewrite str_app_cons. f_equal. apply IH. lia.
Qed.

Lemma endswith_inv s suffix :
  endswith s suffix = true → ∃ a, s = a +:+ suffix.
Proof.
  unfold endswith. intros H. apply andb_prop in H as [Hlen Heq].
  apply Nat.leb_le in Hlen. apply String.eqb_eq in Heq.
  exists (substring 0 (String.length s - String.length suffix) s).
  pose proof (substring_split s (String.length s - String.length suffix)
                ltac:(lia)) as Hsplit.
  replace (String.length s - (String.length s - String.length suffix))%nat
    with (String.length suffix) in Hsplit by lia.
  by rewrite Heq in Hsplit.
Qed.

Lemma gz_is_not_batch_file name : is_batch_file (name +:+ ".gz") = false.
Proof.
  unfold is_batch_file.
  destruct (endswith (name +:+ ".gz") ".json") eqn:Hend;
    [|by rewrite andb_false_r].
  exfalso. apply endswith_inv in Hend as [a Ha].
  apply (f_equal list_ascii_of_string) in Ha.
  rewrite !list_ascii_of_string_app in Ha.
  apply (f_equal list.last) in Ha.
  change (list_ascii_of_string ".gz")
    with (["."; "g"]%char ++ ["z"%char]) in Ha.
  change (list_ascii_of_string ".json")
    with (["."; "j"; "s"; "o"]%char ++ ["n"%char]) in Ha.
  rewrite !app_assoc, !last_snoc in Ha. discriminate Ha.
Qed.

Lemma ancestors_length (p q : path) :
  q ∈ ancestors p → (length q ≤ length p)%nat.
Proof.
  revert q. induction p as [|c p IH]; intros q Hq.
  - by apply elem_of_nil in Hq.
  - cbn [ancestors] in Hq. apply elem_of_cons in Hq as [->|Hq].
    + simpl. lia.
    + apply list_elem_of_fmap in Hq as (q' & -> & Hq'). apply IH in Hq'.
      simpl. lia.
Qed.

Lemma make_dirs_other (ps : list path) (fs : gmap path node) (p : path) :
  p ∉ ps → make_dirs ps fs !! p = fs !! p.
Proof.
  revert fs. induction ps as [|q ps IH]; intros fs Hp; [done|].
  apply not_elem_of_cons in Hp as [Hne Hp]. simpl. rewrite IH by done.
  destruct (fs !! q); [done|]. by rewrite lookup_insert_ne.
Qed.

Lemma make_dirs_child (d : path) (fs : gmap path node) name :
  make_dirs (ancestors d) fs !! (d ++ [name]) = fs !! (d ++ [name]).
Proof.
  apply make_dirs_other. intros Hin. apply ancestors_length in Hin.
  rewrite length_app in Hin. simpl in Hin. lia.
Qed.

Lemma visited_dates_same_day d : visited_dates d d = [d].
Proof.
  unfold visited_dates. rewrite Z.sub_diag, Z.leb_refl. done.
Qed.

(** X9: what [save_messages] stores, [get_messages_for_date_range] reads
    back.  When the partition directory of the channel holds no batch file
    yet and the disk accepts the writes, saving a batch and then asking for
    the range that starts and ends on the partition date returns exactly the
    saved messages, each with its [_metadata] and each once: the compressed
    copy [messages_..._n.json.gz] does not match [messages_*.json] and is not
    read. *)
Theorem save_messages_then_read_day
    md5_hexdigest py_repr self channel messages date w :
  let day := default (w_clock w (w_tick w)) date in
  let tick := match date with Some _ => w_tick w | None => S (w_tick w) end in
  let date_str := strftime_date day in
  let channel_dir := messages_root self ++ [date_str; channel] in
  let filename :=
    batch_filename (strftime_stamp (w_clock w tick)) (length messages) in
  let file_path := channel_dir ++ [filename] in
  let compressed_path := channel_dir ++ [filename +:+ ".gz"] in
  w_denied w channel_dir = false →
  w_denied w file_path = false →
  w_denied w compressed_path = false →
  existsb (is_file (w_fs w)) (ancestors channel_dir) = false →
  forallb json_serializable (map PDict messages) = true →
  (∀ name, is_batch_file name = true → w_fs w !! (channel_dir ++ [name]) = None) →
  dt_ordinal day < max_ordinal →
  ∃ w',
    (save_messages md5_hexdigest py_repr self channel messages date ;;;
     get_messages_for_date_range self channel day day) w
    = (Return (map PDict
                 (enriched_from md5_hexdigest py_repr channel date_str
                    (path_str file_path) (w_clock w) (S tick) messages)), w')
    ∧ partition_batch_files self channel (w_fs w') date_str = [file_path].
Proof.
  intros day tick date_str channel_dir filename file_path compressed_path
    Hdir Hfile Hgz Hclear Hser Hfresh Hmax.
  pose proof (save_messages_run md5_hexdigest py_repr self channel messages
                date w Hdir Hfile Hgz Hclear Hser) as Hsave.
  cbv zeta in Hsave. fold day tick date_str channel_dir filename file_path
    compressed_path in Hsave.
  set (doc := PList (map PDict
                       (enriched_from md5_hexdigest py_repr channel date_str
                          (path_str file_path) (w_clock w) (S tick) messages)))
    in *.
  set (fs1 := <[file_path := File (JsonText doc)]>
                (<[compressed_path := File (GzipJsonText doc)]>
                   (make_dirs (ancestors channel_dir) (w_fs w)))) in *.
  assert (partition_batch_files self channel fs1 date_str = [file_path])
    as Hfiles.
  { unfold partition_batch_files. fold channel_dir.
    assert (path_exists channel_dir fs1 = true) as ->.
    { unfold path_exists, fs1.
      rewrite lookup_insert_ne
        by (intros H; symmetry in H; by apply path_ne_child in H).
      rewrite lookup_insert_ne
        by (intros H; symmetry in H; by apply path_ne_child in H).
      rewrite (make_dirs_creates _ _ channel_dir); [done| |exact Hclear].
      apply ancestors_self. unfold channel_dir. by destruct (messages_root self). }
    rewrite (NoDup_only
               (filter (fun n => is_batch_file n = true)
                  (listdir channel_dir fs1)) filename); [done| |].
    - apply NoDup_filter, NoDup_listdir.
    - intros name. rewrite list_elem_of_filter, elem_of_listdir. split.
      + intros [Hbatch [n Hn]]. unfold fs1 in Hn.
        destruct (decide (name = filename)) as [->|Hne]; [done|].
        rewrite lookup_insert_ne in Hn by (intros H; by simplify_list_eq).
        destruct (decide (name = filename +:+ ".gz")) as [->|Hne'].
        { by rewrite gz_is_not_batch_file in Hbatch. }
        rewrite lookup_insert_ne in Hn by (intros H; by simplify_list_eq).
        rewrite make_dirs_child, Hfresh in Hn; done.
      + intros ->. split; [apply batch_filename_is_batch_file|].
        unfold fs1, file_path. rewrite lookup_insert_eq. by eexists. }
  unfold bind at 1. rewrite Hsave.
  match goal with
  | |- context [get_messages_for_date_range _ _ _ _ ?w0] => set (w1 := w0)
  end.
  destruct (load_files_run channel "loading_messages_from_" [file_path] [] w1)
    as (w' & Hrun & Hfs).
  exists w'. split.
  - unfold get_messages_for_date_range.
    rewrite date_range_loop_run by (done || lia).
    rewrite visited_dates_same_day. cbn [flat_map]. rewrite app_nil_r.
    fold date_str. change (w_fs w1) with fs1. rewrite Hfiles, Hrun.
    cbn [flat_map app]. rewrite app_nil_r. unfold file_items, read_json.
    change (w_fs w1) with fs1. unfold fs1 at 1. rewrite lookup_insert_eq.
    done.
  - rewrite Hfs. exact Hfiles.
Qed.

Lemma save_messages_then_read_day_witness :
  ∃ w',
    (save_messages toy_md5 toy_repr lake0 "chemed" [msg1; msg2]
       (Some new_year) ;;;
     get_messages_for_date_range lake0 "chemed" new_year new_year)
      (new_world noon)
    = (Return (map PDict
                 (enriched_from toy_md5 toy_repr "chemed" "2024-01-01"
                    "data/raw/telegram_messages/2024-01-01/chemed/messages_20240305_120000_2.json"
                    (clock_from noon) 1 [msg1; msg2])), w')
    ∧ partition_batch_files lake0 "chemed" (w_fs w') "2024-01-01"
      = [new_year_dir ++ ["messages_20240305_120000_2.json"]].
Proof.
  apply (save_messages_then_read_day toy_md5 toy_repr lake0 "chemed"
           [msg1; msg2] (Some new_year) (new_world noon));
    reflexivity.
Defined.

(** *** The counters of [validate_data_integrity] *)

Lemma check_messages_fields messages :
  ∀ st st' e,
    check_messages messages st = (st', e) →
    v_total_files (fst st') = v_total_files (fst st)
    ∧ v_valid_files (fst st') = v_valid_files (fst st)
    ∧ v_invalid_files (fst st') = v_invalid_files (fst st)
    ∧ v_total_messages (fst st') = v_total_messages (fst st)
    ∧ v_errors (fst st') = v_errors (fst st)
    ∧ v_duplicate_messages (fst st) ≤ v_duplicate_messages (fst st')
      ≤ v_duplicate_messages (fst st) + len messages.
Proof.
  induction messages as [|message messages IH]; intros st st' e Hrun.
  - simpl in Hrun. injection Hrun as <- <-. unfold len. simpl.
    repeat split; (done || lia).
  - cbn [check_messages] in Hrun.
    destruct (check_message message st) as [st1|e1] eqn:Hcheck.
    + assert (v_total_files (fst st1) = v_total_files (fst st)
              ∧ v_valid_files (fst st1) = v_valid_files (fst st)
              ∧ v_invalid_files (fst st1) = v_invalid_files (fst st)
              ∧ v_total_messages (fst st1) = v_total_messages (fst st)
              ∧ v_errors (fst st1) = v_errors (fst st)
              ∧ v_duplicate_messages (fst st)
                ≤ v_duplicate_messages (fst st1)
                ≤ v_duplicate_messages (fst st) + 1) as Hone.
      { unfold check_message in Hcheck. destruct st as [v hashes].
        destruct (stored_hash message) as [h|]; [|done].
        destruct (py_truthy (default PNone h)).
        - destruct (hash_key (default PNone h)) as [k|]; [|done].
          injection Hcheck as <-. cbn [fst snd].
          destruct (bool_decide (k ∈ hashes)); simpl;
            repeat split; (done || lia).
        - injection Hcheck as <-. simpl. repeat split; (done || lia). }
      apply IH in Hrun. unfold len in *. cbn [length].
      destruct Hone as (A1 & A2 & A3 & A4 & A5 & A6).
      destruct Hrun as (B1 & B2 & B3 & B4 & B5 & B6).
      repeat split; (congruence || lia).
    + injection Hrun as <- <-. unfold len. cbn [length].
      repeat split; (done || lia).
Qed.

Lemma check_file_fields fs file_path st :
  let st' := check_file fs file_path st in
  let count := default 0 (listed_messages fs file_path) in
  v_total_files (fst st') = v_total_files (fst st) + 1
  ∧ v_valid_files (fst st')
    = v_valid_files (fst st)
      + match listed_messages fs file_path with Some _ => 1 | None => 0 end
  ∧ v_invalid_files (fst st) ≤ v_invalid_files (fst st')
    ≤ v_invalid_files (fst st) + 1
  ∧ (listed_messages fs file_path = None →
     v_invalid_files (fst st') = v_invalid_files (fst st) + 1)
  ∧ v_invalid_files (fst st') - v_invalid_files (fst st)
    = len (v_errors (fst st')) - len (v_errors (fst st))
  ∧ v_total_messages (fst st') = v_total_messages (fst st) + count
  ∧ v_duplicate_messages (fst st) ≤ v_duplicate_messages (fst st')
    ≤ v_duplicate_messages (fst st) + count.
Proof.
  unfold check_file, listed_messages. destruct st as [v hashes].
  destruct (read_json file_path fs) as [doc|e].
  - destruct doc as [| | | | |messages|];
      try (simpl; unfold len; rewrite length_app; simpl; lia).
    destruct (check_messages messages
                (file_valid (len messages) (file_counted (v, hashes))))
      as [st1 [e|]] eqn:Hrun;
      apply check_messages_fields in Hrun;
      destruct Hrun as (H1 & H2 & H3 & H4 & H5 & H6);
      destruct st1 as [v1 hashes1]; simpl in *;
      assert (0 ≤ len messages) by (unfold len; lia).
    + unfold len in *. rewrite length_app. simpl. rewrite H5.
      repeat split; (done || lia).
    + rewrite H5. repeat split; (done || lia).
  - simpl. unfold len. rewrite length_app. simpl. lia.
Qed.

Lemma check_files_fields fs files :
  ∀ st,
    let st' := fold_left (fun st file_path => check_file fs file_path st)
                 files st in
    let counts := omap (listed_messages fs) files in
    v_total_files (fst st') = v_total_files (fst st) + len files
    ∧ v_valid_files (fst st') = v_valid_files (fst st) + len counts
    ∧ v_invalid_files (fst st) + (len files - len counts)
      ≤ v_invalid_files (fst st')
      ≤ v_invalid_files (fst st) + len files
    ∧ v_invalid_files (fst st') - v_invalid_files (fst st)
      = len (v_errors (fst st')) - len (v_errors (fst st))
    ∧ v_total_messages (fst st') = v_total_messages (fst st) + sum_Z counts
    ∧ v_duplicate_messages (fst st) ≤ v_duplicate_messages (fst st')
      ≤ v_duplicate_messages (fst st) + sum_Z counts.
Proof.
  induction files as [|p files IH]; intros st.
  - simpl. unfold len. simpl. lia.
  - cbn [fold_left]. specialize (IH (check_file fs p st)). cbv zeta in IH.
    destruct IH as (H1 & H2 & H3 & H4 & H5 & H6).
    pose proof (check_file_fields fs p st) as Hp. cbv zeta in Hp.
    destruct Hp as (P1 & P2 & P3 & P3' & P4 & P5 & P6).
    cbv zeta. cbn [omap list_omap].
    destruct (listed_messages fs p) as [count|] eqn:Hcount;
      cbn [default] in P5, P6; unfold id in P5, P6; unfold len in *;
      cbn [length sum_Z foldr];
      fold (sum_Z (omap (listed_messages fs) files)).
    + repeat split; lia.
    + specialize (P3' eq_refl). repeat split; lia.
Qed.

(** X10: [validate_data_integrity] never raises and writes nothing.  In its
    result [total_files] is the number of batch files of the channel,
    [valid_files] the number of those that hold a JSON list and
    [total_messages] the sum of their lengths; every file that holds no list
    is counted in [invalid_files], and so is a file whose list makes the
    check of a message raise, although it was already counted as valid:
    [total_files <= valid_files + invalid_files], and [invalid_files] is the
    number of entries of [errors].  [duplicate_messages] never exceeds
    [total_messages]. *)
Theorem validate_data_integrity_totals self channel w :
  let files := channel_batch_files self channel (w_fs w) in
  let counts := omap (listed_messages (w_fs w)) files in
  ∃ v w',
    validate_data_integrity self channel w = (Return v, w')
    ∧ w_fs w' = w_fs w
    ∧ v_total_files v = len files
    ∧ v_valid_files v = len counts
    ∧ v_total_messages v = sum_Z counts
    ∧ len files - len counts ≤ v_invalid_files v ≤ len files
    ∧ v_invalid_files v = len (v_errors v)
    ∧ 0 ≤ v_duplicate_messages v ≤ v_total_messages v.
Proof.
  intros files counts. unfold validate_data_integrity. run.
  eexists _, _. split; [reflexivity|]. split; [done|].
  match goal with
  | |- context [fold_left _ _ ?st0] =>
      pose proof (check_files_fields (w_fs w) files st0) as H
  end.
  cbv zeta in H. fold files. fold counts in H.
  destruct H as (H1 & H2 & H3 & H4 & H5 & H6). simpl in H1, H2, H3, H4, H5, H6.
  unfold len in *. simpl in H4. repeat split; lia.
Qed.

(** A batch file whose list has an element that is no dict is counted both
    as valid and as invalid. *)
Example validate_counts_file_twice :
  let w :=
    snd ((mkdir_p new_year_dir ;;;
          write_json false (new_year_dir ++ ["messages_20240101_000000_1.json"])
            (PList [PInt 7])) (new_world noon)) in
  match fst (validate_data_integrity lake0 "chemed" w) with
  | Return v =>
      v_total_files v = 1 ∧ v_valid_files v = 1 ∧ v_invalid_files v = 1
      ∧ v_total_messages v = 1
  | Raise _ => False
  end.
Proof. vm_compute. repeat split; reflexivity. Qed.

Lemma unhashed_clean message :
  unhashed message = true →
  checks_cleanly message = true ∧ counted_hash message = None.
Proof.
  unfold unhashed, checks_cleanly, counted_hash, stored_hash, dict_mem,
    dict_get_default.
  destruct message as [| | | | | |d]; try done.
  destruct (dict_get "_metadata" d); [done|]. done.
Qed.

Lemma unhashed_file_hashes fs p :
  (∀ messages, read_json p fs = Return (PList messages) →
               forallb unhashed messages = true) →
  file_hashes fs p = [].
Proof.
  intros Hp. unfold file_hashes.
  destruct (read_json p fs) as [[| | | | |messages|]|]; try done.
  specialize (Hp messages eq_refl).
  induction messages as [|m messages IH]; [done|].
  simpl in Hp. apply andb_prop in Hp as [Hm Hrest].
  simpl. rewrite (proj2 (unhashed_clean m Hm)). by apply IH.
Qed.

(** X11: [validate_data_integrity] recognises a duplicate by the
    [message_hash] that [save_messages] stores in [_metadata].  Over batch
    files whose messages carry no [_metadata], which is how
    [_save_messages_batch] of the scraper writes them, it reports no
    duplicate, however often a record is repeated. *)
Theorem validate_reports_no_duplicates_without_metadata self channel w :
  (∀ p messages,
     p ∈ channel_batch_files self channel (w_fs w) →
     read_json p (w_fs w) = Return (PList messages) →
     forallb unhashed messages = true) →
  ∃ v w',
    validate_data_integrity self channel w = (Return v, w')
    ∧ v_duplicate_messages v = 0.
Proof.
  intros Hplain. unfold validate_data_integrity. run.
  eexists _, _. split; [reflexivity|].
  change 0 with (Z.of_nat (repeats [])). apply counts_repeats_final.
  match goal with
  | |- counts_repeats (fold_left _ ?files ?st0) _ =>
      pose proof (check_files_clean (w_fs w) files st0 []) as Hclean
  end.
  replace (flat_map (file_hashes (w_fs w))
             (channel_batch_files self channel (w_fs w)))
    with (@nil hkey) in Hclean.
  - apply Hclean.
    + intros p messages Hp Hread. specialize (Hplain p messages Hp Hread).
      clear -Hplain. induction messages as [|m messages IH]; [done|].
      simpl in *. apply andb_prop in Hplain as [Hm Hrest].
      rewrite (proj1 (unhashed_clean m Hm)). by apply IH.
    + split; [apply NoDup_nil_2|]. split; [done|]. done.
  - symmetry. clear Hclean.
    induction (channel_batch_files self channel (w_fs w)) as [|p files IH];
      [done|].
    simpl. rewrite unhashed_file_hashes.
    + apply IH. intros q messages Hq. apply Hplain. by right.
    + intros messages. apply Hplain. left.
Qed.

Lemma flooded_lake_files :
  channel_batch_files lake0 "chemed" (w_fs flooded_lake)
  = [chemed_dir ++ ["messages_20240305_120001_3.json"]].
Proof. vm_compute. reflexivity. Qed.

Lemma flooded_lake_batch :
  read_json (chemed_dir ++ ["messages_20240305_120001_3.json"])
    (w_fs flooded_lake)
  = Return (PList [PDict msg1; PDict msg1; PDict msg2]).
Proof. vm_compute. reflexivity. Qed.

Lemma validate_reports_no_duplicates_without_metadata_witness :
  read_json (chemed_dir ++ ["messages_20240305_120001_3.json"])
    (w_fs flooded_lake)
  = Return (PList [PDict msg1; PDict msg1; PDict msg2])
  ∧ ∃ v w',
      validate_data_integrity lake0 "chemed" flooded_lake = (Return v, w')
      ∧ v_duplicate_messages v = 0.
Proof.
  split; [exact flooded_lake_batch|].
  apply (validate_reports_no_duplicates_without_metadata lake0 "chemed"
           flooded_lake).
  intros p messages Hp Hread. rewrite flooded_lake_files in Hp.
  apply list_elem_of_singleton in Hp. subst p.
  rewrite flooded_lake_batch in Hread. injection Hread as <-. reflexivity.
Defined.

(** *** [cleanup_old_data], whatever the disk allows *)

Lemma cleanup_dir_run_any self cutoff_date date_str w :
  cleanup_dir self cutoff_date date_str w
  = (Return tt,
     if removable self (w_denied w) cutoff_date date_str then
       mk_world (w_clock w) (w_tick w)
         (filter (fun e => negb (bool_decide
                                   ((messages_root self ++ [date_str])
                                      `prefix_of` fst e))) (w_fs w))
         (w_denied w)
         (w_events w ++ [Rmtree (messages_root self ++ [date_str])])
     else w).
Proof.
  unfold cleanup_dir, removable, expired, rmtree. run.
  destruct (strptime_date date_str) as [dir_date|e]; simpl; [|done].
  destruct (datetime_ltb dir_date cutoff_date); simpl; [|done].
  by destruct (w_denied w (messages_root self ++ [date_str])).
Qed.

Lemma cleanup_dirs_run_any self cutoff_date names :
  ∀ w,
    ∃ w',
      cleanup_dirs self cutoff_date names w = (Return tt, w')
      ∧ w_denied w' = w_denied w
      ∧ ∀ p, w_fs w' !! p
             = if in_removed_partition self (w_denied w) cutoff_date names p
               then None
               else w_fs w !! p.
Proof.
  induction names as [|name names IH]; intros w.
  - exists w. done.
  - simpl. unfold bind at 1. rewrite cleanup_dir_run_any.
    match goal with
    | |- context [cleanup_dirs _ _ _ ?w1] =>
        destruct (IH w1) as (w' & Hrun & Hden & Hfs)
    end.
    assert (∀ w1 : world,
              w1 = (if removable self (w_denied w) cutoff_date name
                    then mk_world (w_clock w) (w_tick w)
                           (filter (fun e => negb (bool_decide
                                      ((messages_root self ++ [name])
                                         `prefix_of` fst e))) (w_fs w))
                           (w_denied w)
                           (w_events w
                              ++ [Rmtree (messages_root self ++ [name])])
                    else w) →
              w_denied w1 = w_denied w) as Hsame
      by (intros w1 ->; by destruct (removable _ _ _ _)).
    exists w'. split; [exact Hrun|]. rewrite Hden, (Hsame _ eq_refl).
    split; [done|]. intros p. rewrite Hfs, (Hsame _ eq_refl).
    destruct (in_removed_partition self (w_denied w) cutoff_date names p);
      [by rewrite orb_true_r|].
    rewrite orb_false_r.
    destruct (removable self (w_denied w) cutoff_date name); simpl; [|done].
    apply rmtree_lookup.
Qed.

Lemma cleanup_old_data_run_any self days_to_keep w :
  let cutoff_date := datetime_sub_days (w_clock w (w_tick w)) days_to_keep in
  let partitions := listdir (messages_root self) (w_fs w) in
  ∃ w',
    cleanup_old_data self days_to_keep w = (Return tt, w')
    ∧ ∀ p, w_fs w' !! p
           = if in_removed_partition self (w_denied w) cutoff_date partitions p
             then None
             else w_fs w !! p.
Proof.
  intros cutoff_date partitions.
  destruct (cleanup_dirs_run_any self cutoff_date partitions
              (mk_world (w_clock w) (S (w_tick w)) (w_fs w) (w_denied w)
                 (w_events w))) as (w' & Hrun & _ & Hfs).
  exists w'. split; [|exact Hfs].
  unfold cleanup_old_data. run. exact Hrun.
Qed.


(** The 120 days old partition of [aged_lake] stays when the disk refuses to
    remove it; the run still returns. *)
Example cleanup_old_data_denied_scenario :
  let stuck := messages_root lake0 ++ ["2023-11-06"] in
  let w :=
    mk_world (w_clock aged_lake) (w_tick aged_lake) (w_fs aged_lake)
      (fun p => bool_decide (p = stuck)) (w_events aged_lake) in
  let run := cleanup_old_data lake0 90 w in
  fst run = Return tt
  ∧ listdir (messages_root lake0) (w_fs (snd run))
    = listdir (messages_root lake0) (w_fs aged_lake).
Proof. vm_compute. split; reflexivity. Qed.

Lemma strptime_date_midnight date_str dir_date :
  strptime_date date_str = Return dir_date → time_of_day dir_date = 0.
Proof.
  unfold strptime_date. intros H.
  destruct (_ ≫= _) as [[[[y m] d] [|c r]]|]; try done.
  destruct (y =? 0); [done|]. destruct (d <=? _days_in_month y m); [|done].
  by injection H as <-.
Qed.

Lemma prefix_of_sibling (d : path) (a b : string) :
  (d ++ [a]) `prefix_of` (d ++ [b]) → a = b.
Proof.
  intros [k Hk]. rewrite <- app_assoc in Hk. apply app_inv_head in Hk.
  simpl in Hk. by injection Hk.
Qed.

(** X13: the partition dated exactly [days_to_keep] days before today is
    removed unless the clean-up runs at midnight sharp: the name of the
    partition parses to midnight, and it is compared with the present instant
    minus [days_to_keep] days. *)
Theorem cleanup_old_data_boundary_day self days_to_keep w name dir_date :
  let today := w_clock w (w_tick w) in
  let partition := messages_root self ++ [name] in
  (∀ n, w_denied w (messages_root self ++ [n]) = false) →
  name ∈ listdir (messages_root self) (w_fs w) →
  strptime_date name = Return dir_date →
  dt_ordinal dir_date = dt_ordinal today - days_to_keep →
  ∃ w',
    cleanup_old_data self days_to_keep w = (Return tt, w')
    ∧ (0 < time_of_day today → w_fs w' !! partition = None)
    ∧ (time_of_day today = 0 → w_fs w' !! partition = w_fs w !! partition).
Proof.
  intros today partition Hden Hname Hparse Hord.
  destruct (cleanup_old_data_run_any self days_to_keep w)
    as (w' & Hrun & Hfs).
  exists w'. split; [exact Hrun|].
  pose proof (strptime_date_midnight _ _ Hparse) as Hmid.
  assert (∀ n, removable self (w_denied w)
                 (datetime_sub_days today days_to_keep) n
               = expired (datetime_sub_days today days_to_keep) n) as Hrem
    by (intros n; unfold removable; by rewrite Hden, andb_true_r).
  assert (expired (datetime_sub_days today days_to_keep) name
          = (0 <? time_of_day today)) as Hexp.
  { unfold expired. rewrite Hparse.
    unfold datetime_ltb, datetime_sub_days. cbn [dt_ordinal].
    rewrite Hord, Z.ltb_irrefl, Z.eqb_refl. cbn [orb andb].
    rewrite Hmid. unfold time_of_day. done. }
  split; intros Htime; rewrite Hfs; fold today.
  - replace (in_removed_partition _ _ _ _ _) with true; [done|].
    symmetry. apply existsb_exists. exists name. split.
    + by apply list_elem_of_In.
    + rewrite Hrem, Hexp, bool_decide_eq_true_2 by done.
      rewrite andb_true_r. apply Z.ltb_lt. exact Htime.
  - replace (in_removed_partition _ _ _ _ _) with false; [done|].
    symmetry. apply not_true_is_false. intros Hin.
    apply existsb_exists in Hin as (n & _ & Hn).
    apply andb_prop in Hn as [Hn Hpre].
    apply bool_decide_eq_true_1, prefix_of_sibling in Hpre. subst n.
    rewrite Hrem, Hexp, Htime in Hn. done.
Qed.

Lemma aged_lake_recent_partition :
  "2024-02-04" ∈ listdir (messages_root lake0) (w_fs aged_lake).
Proof.
  apply elem_of_listdir.
  assert (path_exists (messages_root lake0 ++ ["2024-02-04"]) (w_fs aged_lake)
          = true) as H by (vm_compute; reflexivity).
  unfold path_exists in H.
  destruct (w_fs aged_lake !! (messages_root lake0 ++ ["2024-02-04"]));
    [by eexists|discriminate H].
Qed.

Lemma cleanup_old_data_boundary_day_witness :
  dt_ordinal (datetime_of 2024 2 4 0 0 0 0)
  = dt_ordinal (w_clock aged_lake (w_tick aged_lake)) - 30
  ∧ ∃ w',
      cleanup_old_data lake0 30 aged_lake = (Return tt, w')
      ∧ w_fs w' !! (messages_root lake0 ++ ["2024-02-04"]) = None.
Proof.
  split; [reflexivity|].
  destruct (cleanup_old_data_boundary_day lake0 30 aged_lake "2024-02-04"
              (datetime_of 2024 2 4 0 0 0 0))
    as (w' & Hrun & Hgone & _).
  - intros n. reflexivity.
  - exact aged_lake_recent_partition.
  - reflexivity.
  - reflexivity.
  - exists w'. split; [exact Hrun|]. apply Hgone. reflexivity.
Defined.

(** *** [save_channel_metadata] *)

(** X14: [save_channel_metadata] writes [channel_metadata.json] in the
    partition directory of the channel and returns its path.  The stored
    document has the fields of [metadata], except that [_metadata] is
    (over)written with the time of saving, the channel and the partition
    date; no other entry of the directory changes, and the file does not
    match [messages_*.json], so the readers of the batches never see it.
    When the document holds a value [json.dump] rejects, the call raises
    [TypeError] and leaves a truncated file where the previous metadata
    was. *)
Theorem save_channel_metadata_stores self channel metadata date w :
  let day := default (w_clock w (w_tick w)) date in
  let tick := match date with Some _ => w_tick w | None => S (w_tick w) end in
  let date_str := strftime_date day in
  let channel_dir := messages_root self ++ [date_str; channel] in
  let metadata_file := channel_dir ++ ["channel_metadata.json"] in
  let stamp :=
    PDict [("saved_at", PStr (isoformat (w_clock w tick)));
           ("channel", PStr channel);
           ("partition_date", PStr date_str)] in
  let saved := dict_set "_metadata" stamp metadata in
  w_denied w channel_dir = false →
  w_denied w metadata_file = false →
  existsb (is_file (w_fs w)) (ancestors channel_dir) = false →
  ∃ w',
    (if json_serializable (PDict saved) then
       save_channel_metadata self channel metadata date w
       = (Return (path_str metadata_file), w')
       ∧ w_fs w' !! metadata_file = Some (File (JsonText (PDict saved)))
     else
       save_channel_metadata self channel metadata date w
       = (Raise (PyError "TypeError"
                   "Object of type datetime is not JSON serializable"), w')
       ∧ w_fs w' !! metadata_file = Some (File Garbage))
    ∧ dict_get "_metadata" saved = Some stamp
    ∧ (∀ k, k ≠ "_metadata" → dict_get k saved = dict_get k metadata)
    ∧ (json_serializable (PDict metadata) = true →
       json_serializable (PDict saved) = true)
    ∧ is_batch_file "channel_metadata.json" = false
    ∧ ∀ name, name ≠ "channel_metadata.json" →
              w_fs w' !! (channel_dir ++ [name])
              = w_fs w !! (channel_dir ++ [name]).
Proof.
  intros day tick date_str channel_dir metadata_file stamp saved
    Hdir Hfile Hclear.
  assert (∀ w0 : world,
            w_clock w0 = w_clock w → w_tick w0 = tick →
            w_fs w0 = w_fs w → w_denied w0 = w_denied w →
            ∃ w',
              (if json_serializable (PDict saved) then
                 (mkdir_p channel_dir ;;;
                  saved_at <- now ;;
                  write_json false metadata_file
                    (PDict (dict_set "_metadata"
                              (PDict [("saved_at", PStr (isoformat saved_at));
                                      ("channel", PStr channel);
                                      ("partition_date", PStr date_str)])
                              metadata)) ;;;
                  ret (path_str metadata_file)) w0
                 = (Return (path_str metadata_file), w')
                 ∧ w_fs w' !! metadata_file
                   = Some (File (JsonText (PDict saved)))
               else
                 (mkdir_p channel_dir ;;;
                  saved_at <- now ;;
                  write_json false metadata_file
                    (PDict (dict_set "_metadata"
                              (PDict [("saved_at", PStr (isoformat saved_at));
                                      ("channel", PStr channel);
                                      ("partition_date", PStr date_str)])
                              metadata)) ;;;
                  ret (path_str metadata_file)) w0
                 = (Raise (PyError "TypeError"
                             "Object of type datetime is not JSON serializable"),
                    w')
                 ∧ w_fs w' !! metadata_file = Some (File Garbage))
              ∧ ∀ name, name ≠ "channel_metadata.json" →
                        w_fs w' !! (channel_dir ++ [name])
                        = w_fs w !! (channel_dir ++ [name])) as Hbody.
  { intros w0 Hc Ht Hf Hd.
    assert (∀ (f : file) name,
              name ≠ "channel_metadata.json" →
              <[metadata_file := File f]>
                (make_dirs (ancestors channel_dir) (w_fs w))
              !! (channel_dir ++ [name])
              = w_fs w !! (channel_dir ++ [name])) as Hframe.
    { intros f name Hne.
      rewrite lookup_insert_ne by (intros H; by simplify_list_eq).
      apply make_dirs_child. }
    unfold mkdir_p, write_json. run.
    rewrite Hd, Hdir, Hf, Hclear. cbn [w_denied w_fs w_clock w_tick].
    rewrite Hc, Ht, Hd. fold stamp. fold saved. fold metadata_file.
    rewrite Hfile.
    destruct (json_serializable (PDict saved)) eqn:Hser.
    - simpl in Hser. rewrite Hser. eexists. split.
      + split; [reflexivity|]. cbn [w_fs]. apply lookup_insert_eq.
      + intros name Hne. cbn [w_fs]. by apply Hframe.
    - simpl in Hser. rewrite Hser. eexists. split.
      + split; [reflexivity|]. cbn [w_fs]. apply lookup_insert_eq.
      + intros name Hne. cbn [w_fs]. by apply Hframe. }
  assert (∃ w',
            (if json_serializable (PDict saved) then
               save_channel_metadata self channel metadata date w
               = (Return (path_str metadata_file), w')
               ∧ w_fs w' !! metadata_file
                 = Some (File (JsonText (PDict saved)))
             else
               save_channel_metadata self channel metadata date w
               = (Raise (PyError "TypeError"
                           "Object of type datetime is not JSON serializable"),
                  w')
               ∧ w_fs w' !! metadata_file = Some (File Garbage))
            ∧ ∀ name, name ≠ "channel_metadata.json" →
                      w_fs w' !! (channel_dir ++ [name])
                      = w_fs w !! (channel_dir ++ [name])) as (w' & Hrun & Hrest).
  { unfold save_channel_metadata.
    destruct date as [d|]; cbn [default] in *.
    - unfold bind at 1. unfold ret at 1. apply Hbody; done.
    - unfold bind at 1. unfold now at 1. apply Hbody; done. }
  exists w'. split; [exact Hrun|]. split; [apply dict_get_set_eq|].
  split; [intros k Hk; by apply dict_get_set_ne|].
  split; [intros Hm; by apply dict_set_serializable|].
  split; [reflexivity|exact Hrest].
Qed.

Lemma save_channel_metadata_stores_witness :
  ∃ w',
    (save_channel_metadata lake0 "chemed" (channel_info_of chemed_entity)
       (Some new_year) (new_world noon)
     = (Return "data/raw/telegram_messages/2024-01-01/chemed/channel_metadata.json",
        w')
     ∧ w_fs w' !! (new_year_dir ++ ["channel_metadata.json"])
       = Some (File (JsonText
                       (PDict (channel_info_of chemed_entity
                               ++ [("_metadata",
                                    PDict [("saved_at",
                                            PStr "2024-03-05T12:00:00");
                                           ("channel", PStr "chemed");
                                           ("partition_date",
                                            PStr "2024-01-01")])])))))
    ∧ (save_channel_metadata lake0 "tikvahpharma" (channel_info_of dated_entity)
         (Some new_year) (new_world noon)
       = (Raise (PyError "TypeError"
                   "Object of type datetime is not JSON serializable"),
          snd (save_channel_metadata lake0 "tikvahpharma"
                 (channel_info_of dated_entity) (Some new_year)
                 (new_world noon)))).
Proof.
  destruct (save_channel_metadata_stores lake0 "chemed"
              (channel_info_of chemed_entity) (Some new_year) (new_world noon)
              eq_refl eq_refl eq_refl) as (w' & Hrun & _).
  exists w'. split; [exact Hrun|].
  destruct (save_channel_metadata_stores lake0 "tikvahpharma"
              (channel_info_of dated_entity) (Some new_year) (new_world noon)
              eq_refl eq_refl eq_refl) as (w2 & [Hrun2 _] & _).
  rewrite Hrun2. reflexivity.
Defined.

(** *** [_process_message] and [_download_media] *)

Lemma download_media_cases data_dir message channel media_type log w :
  ∃ w',
    (∃ e, _download_media data_dir message channel media_type log w
          = (Return (None, log), w')
          ∧ LogScrapingError channel e "media_download" ∈ w_events w')
    ∨ (m_download message = Return None
       ∧ _download_media data_dir message channel media_type log w
         = (Return (None,
                    log ++ [ImageDownloadFailed channel
                              (pretty (m_id message))]), w'))
    ∨ (∃ extension date_str,
         let file_path :=
           data_dir ++ ["raw"; "telegram_" +:+ media_type +:+ "s"; date_str;
                        channel;
                        pretty (m_id message) +:+ "_" +:+ media_type
                        +:+ extension] in
         m_download message = Return (Some extension)
         ∧ _download_media data_dir message channel media_type log w
           = (Return (Some (path_str file_path),
                      log ++ [ImageDownloaded channel (pretty (m_id message))
                                (path_str file_path)]), w')
         ∧ w_fs w' !! file_path = Some (File Garbage)).
Proof.
  remember (_download_media data_dir message channel media_type log w)
    as run eqn:Hr.
  unfold _download_media in Hr.
  assert (∀ date_str (w0 : world),
            let body :=
              (let media_dir :=
                 data_dir ++ ["raw"; "telegram_" +:+ media_type +:+ "s";
                              date_str; channel] in
               mkdir_p media_dir ;;;
               downloaded <- lift (m_download message) ;;
               match downloaded with
               | Some extension =>
                   let file_path :=
                     media_dir ++ [pretty (m_id message) +:+ "_"
                                   +:+ media_type +:+ extension] in
                   store_media file_path ;;;
                   ret (Some (path_str file_path),
                        log ++ [ImageDownloaded channel
                                  (pretty (m_id message))
                                  (path_str file_path)])
               | None =>
                   ret (None,
                        log ++ [ImageDownloadFailed channel
                                  (pretty (m_id message))])
               end) in
            (∃ e w1, body w0 = (Raise e, w1))
            ∨ (∃ w1, m_download message = Return None
                     ∧ body w0
                       = (Return (None,
                                  log ++ [ImageDownloadFailed channel
                                            (pretty (m_id message))]), w1))
            ∨ (∃ extension w1,
                 let file_path :=
                   data_dir ++ ["raw"; "telegram_" +:+ media_type +:+ "s";
                                date_str; channel;
                                pretty (m_id message) +:+ "_" +:+ media_type
                                +:+ extension] in
                 m_download message = Return (Some extension)
                 ∧ body w0
                   = (Return (Some (path_str file_path),
                              log ++ [ImageDownloaded channel
                                        (pretty (m_id message))
                                        (path_str file_path)]), w1)
                 ∧ w_fs w1 !! file_path = Some (File Garbage))) as Hbody.
  { intros date_str w0. cbv zeta. unfold mkdir_p, store_media. run.
    destruct (w_denied w0 _); [left; by eexists _, _|].
    destruct (existsb _ _); [left; by eexists _, _|]. simpl.
    destruct (m_download message) as [[extension|]|e]; simpl.
    - rewrite <- !app_assoc. simpl.
      destruct (w_denied w0 _); [left; by eexists _, _|].
      right. right. eexists extension, _. split; [done|]. split; [done|].
      simpl. apply lookup_insert_eq.
    - right. left. eexists. done.
    - left. by eexists _, _. }
  destruct (m_date message) as [d|].
  - unfold try_except, bind at 1, ret at 1 in Hr.
    destruct (Hbody (strftime_date d) w) as [(e & w1 & Hrun)|[(w1 & Hd & Hrun)|
      (extension & w1 & Hd & Hrun & Hfs)]]; cbv zeta in Hrun;
      rewrite Hrun in Hr; subst run.
    + eexists. left. exists e. unfold bind, emit, ret.
      split; [reflexivity|]. simpl. apply elem_of_app. right. left.
    + exists w1. right. left. split; [exact Hd|reflexivity].
    + exists w1. right. right. exists extension, (strftime_date d).
      split; [exact Hd|]. split; [reflexivity|exact Hfs].
  - unfold try_except, bind at 1, bind at 1, now at 1, ret at 1 in Hr.
    destruct (Hbody (strftime_date (w_clock w (w_tick w)))
                (mk_world (w_clock w) (S (w_tick w)) (w_fs w) (w_denied w)
                   (w_events w)))
      as [(e & w1 & Hrun)|[(w1 & Hd & Hrun)|
      (extension & w1 & Hd & Hrun & Hfs)]]; cbv zeta in Hrun;
      rewrite Hrun in Hr; subst run.
    + eexists. left. exists e. unfold bind, emit, ret.
      split; [reflexivity|]. simpl. apply elem_of_app. right. left.
    + exists w1. right. left. split; [exact Hd|reflexivity].
    + exists w1. right. right.
      exists extension, (strftime_date (w_clock w (w_tick w))).
      split; [exact Hd|]. split; [reflexivity|exact Hfs].
Qed.

Lemma reaction_data_serializable reactions :
  forallb json_serializable (map reaction_data reactions) = true.
Proof.
  induction reactions as [|[[emoji|] count] reactions IH]; [done|..];
    simpl; exact IH.
Qed.

Lemma entity_data_serializable entities :
  forallb json_serializable (map entity_data entities) = true.
Proof.
  induction entities as [|[type offset length [url|]] entities IH]; [done|..];
    simpl; exact IH.
Qed.

Lemma forward_data_serializable forward :
  json_serializable (forward_data forward) = true.
Proof.
  destruct forward as [[chat_id|] [user_id|] [d|]]; simpl;
    repeat match goal with |- context [?n =? 0] => destruct (n =? 0) end;
    reflexivity.
Qed.

Lemma path_list_serializable downloaded :
  json_serializable (path_list downloaded) = true.
Proof. by destruct downloaded. Qed.

Lemma opt_int_serializable o : json_serializable (opt_int o) = true.
Proof. by destruct o. Qed.

(** What holds of the record whatever the media part turned out to be. *)
Ltac record_facts :=
  split; [|split; [|split; [|split]]];
  [ reflexivity
  | cbn [json_serializable forallb snd];
    rewrite ?path_list_serializable, ?reaction_data_serializable,
      ?entity_data_serializable;
    repeat match goal with
           | |- context [json_serializable (forward_data ?f)] =>
               rewrite (forward_data_serializable f)
           | |- context [match ?o with Some _ => _ | None => _ end] =>
               destruct o
           end;
    rewrite ?opt_int_serializable; reflexivity
  | reflexivity
  | reflexivity
  | reflexivity ].




(** The two photos in full: the record of the first has no path and its
    failure is logged; the file of the second is on the disk. *)
Example process_message_scenario :
  let lost := _process_message ["data"] lost_photo "chemed" []
                (new_world noon) in
  let stored := _process_message ["data"] stored_photo "chemed" []
                  (new_world noon) in
  let file_path :=
    ["data"; "raw"; "telegram_images"; "2024-03-05"; "chemed";
     "43_image.jpg"] in
  w_events (snd lost)
  = [Mkdir ["data"; "raw"; "telegram_images"; "2024-03-05"; "chemed"];
     LogScrapingError "chemed" (PyError "TimeoutError" "timed out")
       "media_download"]
  ∧ match fst stored with
    | Return (Some r, log') =>
        dict_get "image_paths" r = Some (PList [PStr (path_str file_path)])
        ∧ dict_get "forward_from" r
          = Some (PDict [("chat_id", PNone); ("user_id", PNone);
                         ("date", PStr "2024-03-05T12:00:00")])
        ∧ dict_get "text" r = Some (PStr "")
        ∧ log' = [ImageDownloaded "chemed" "43" (path_str file_path)]
    | _ => False
    end
  ∧ w_fs (snd stored) !! file_path = Some (File Garbage).
Proof. vm_compute. repeat split; reflexivity. Qed.

(** *** [ScrapingMetrics] *)

Lemma assoc_get_set_eq {A} k (v : A) d :
  assoc_get k (assoc_set k v d) = Some v.
Proof.
  induction d as [|[k' v'] d IH]; simpl.
  - by rewrite String.eqb_refl.
  - destruct (String.eqb k k') eqn:E; simpl.
    + by rewrite String.eqb_refl.
    + by rewrite E.
Qed.

Lemma assoc_get_set_ne {A} k k' (v : A) d :
  k ≠ k' → assoc_get k' (assoc_set k v d) = assoc_get k' d.
Proof.
  intros Hne. induction d as [|[k0 v0] d IH]; simpl.
  - destruct (String.eqb_spec k' k); [congruence|done].
  - destruct (String.eqb_spec k k0) as [->|Hk]; simpl.
    + destruct (String.eqb_spec k' k0); [congruence|done].
    + destruct (String.eqb_spec k' k0); [done|exact IH].
Qed.

Lemma sum_Z_app l1 l2 : sum_Z (l1 ++ l2) = sum_Z l1 + sum_Z l2.
Proof. induction l1 as [|x l1 IH]; simpl; [done|]. rewrite IH. lia. Qed.

Lemma assoc_set_sum {A} (f : A → Z) k v (d : list (string * A)) :
  sum_Z (map f (map snd (assoc_set k v d)))
  = sum_Z (map f (map snd d)) + f v
    - match assoc_get k d with Some old => f old | None => 0 end.
Proof.
  induction d as [|[k' v'] d IH]; simpl; [lia|].
  destruct (String.eqb k k'); simpl; [lia|]. rewrite IH. lia.
Qed.

Lemma assoc_set_length {A} k (v : A) (d : list (string * A)) :
  length (assoc_set k v d)
  = (length d + match assoc_get k d with Some _ => 0 | None => 1 end)%nat.
Proof.
  induction d as [|[k' v'] d IH]; simpl; [done|].
  destruct (String.eqb k k'); simpl; [lia|]. rewrite IH. lia.
Qed.

Lemma assoc_set_Forall {A} (P : A → Prop) k v (d : list (string * A)) :
  Forall (fun entry => P (snd entry)) d → P v →
  Forall (fun entry => P (snd entry)) (assoc_set k v d).
Proof.
  intros Hd Hv. induction Hd as [|[k' v'] d Hx Hd IH]; simpl.
  - by constructor.
  - destruct (String.eqb k k'); constructor; done.
Qed.

Lemma assoc_set_elem {A} k (v : A) (d : list (string * A)) :
  v ∈ map snd (assoc_set k v d).
Proof.
  induction d as [|[k' v'] d IH]; simpl; [left|].
  destruct (String.eqb k k'); simpl; [left|by right].
Qed.

(** The largest of a non-empty list of strings. *)
Lemma max_from_some a l :
  Forall is_Some l →
  ∃ b, max_from (Some a) l = Return (Some b)
       ∧ String.le a b
       ∧ Forall (fun x => ∀ s, x = Some s → String.le s b) l.
Proof.
  revert a. induction l as [|x l IH]; intros a Hl.
  - exists a. simpl. split; [done|]. split; [done|]. constructor.
  - apply Forall_cons in Hl as [[s ->] Hl]. simpl.
    destruct (String.ltb a s) eqn:Hlt.
    + destruct (IH s Hl) as (b & Hrun & Hsb & Hall). exists b.
      split; [exact Hrun|]. split.
      * etrans; [by apply ltb_leb|exact Hsb].
      * constructor; [|exact Hall]. intros s' [= <-]. exact Hsb.
    + destruct (IH a Hl) as (b & Hrun & Hab & Hall). exists b.
      split; [exact Hrun|]. split; [exact Hab|].
      constructor; [|exact Hall]. intros s' [= <-].
      etrans; [by apply not_ltb_leb|exact Hab].
Qed.

Lemma day_doc_inv day : day_of_doc (day_doc day) = Some day.
Proof. by destruct day as [messages images [s|] count]. Qed.

Lemma channel_doc_inv days :
  entries_of_doc day_of_doc (channel_doc days) = Some days.
Proof.
  unfold entries_of_doc, channel_doc.
  induction days as [|[d day] days IH]; [done|].
  cbn [map mapM fst snd]. rewrite day_doc_inv. simpl. rewrite IH. done.
Qed.

Lemma metrics_doc_inv m : metrics_of_doc (metrics_doc m) = Some m.
Proof.
  unfold metrics_of_doc, metrics_doc. unfold entries_of_doc at 1.
  induction m as [|[c days] m IH]; [done|].
  cbn [map mapM fst snd]. rewrite channel_doc_inv. simpl. rewrite IH. done.
Qed.

Lemma metrics_doc_serializable m : json_serializable (metrics_doc m) = true.
Proof.
  unfold metrics_doc. cbn [json_serializable].
  induction m as [|[c days] m IH]; [done|].
  cbn [map forallb snd]. rewrite IH, andb_true_r.
  unfold channel_doc. cbn [json_serializable].
  induction days as [|[d [messages images [s|] count]] days IHd]; [done|..];
    cbn [map forallb snd]; rewrite IHd; done.
Qed.

Lemma update_channel_metrics_run metrics_file channel message_count
    image_count m w :
  let today := strftime_date (w_clock w (w_tick w)) in
  let day :=
    default (mk_day_metrics 0 0 None 0)
      (assoc_get today (days_of channel m)) in
  let day' :=
    mk_day_metrics (dm_messages day + message_count)
      (dm_images day + image_count)
      (Some (isoformat (w_clock w (S (w_tick w)))))
      (dm_scraping_count day + 1) in
  let m' := assoc_set channel (assoc_set today day' (days_of channel m)) m in
  ∃ w',
    update_channel_metrics metrics_file channel message_count image_count m w
    = (Return m', w')
    ∧ w_clock w' = w_clock w
    ∧ w_denied w' = w_denied w
    ∧ (w_denied w metrics_file = false →
       w_fs w' !! metrics_file = Some (File (JsonText (metrics_doc m'))))
    ∧ (w_denied w metrics_file = true → w_fs w' = w_fs w).
Proof.
  intros today day day' m'.
  unfold update_channel_metrics, save_metrics, write_json. run.
  fold (days_of channel m). fold today. fold day. fold day'. fold m'.
  destruct (w_denied w metrics_file) eqn:Hden; simpl.
  - eexists. split; [reflexivity|]. done.
  - pose proof (metrics_doc_serializable m') as Hser. simpl in Hser.
    rewrite Hser. simpl. eexists. split; [reflexivity|]. simpl.
    split; [done|]. split; [done|]. split; [|done].
    intros _. apply lookup_insert_eq.
Qed.

Lemma stamped_Forall channel m :
  stamped channel m = true
  ↔ Forall (fun entry => is_Some (dm_last_scraped (snd entry)))
      (days_of channel m).
Proof.
  unfold stamped. rewrite forallb_forall, Forall_forall.
  split; intros H entry Hin.
  - apply list_elem_of_In in Hin. specialize (H _ Hin).
    by destruct (dm_last_scraped (snd entry)).
  - apply list_elem_of_In in Hin. specialize (H _ Hin).
    destruct (dm_last_scraped (snd entry)); [done|].
    by destruct H.
Qed.

(** The summary of a channel whose days all have their [last_scraped]. *)
Lemma get_channel_summary_fields channel m :
  stamped channel m = true →
  ∃ s,
    get_channel_summary channel m = Return s
    ∧ summary_field "total_messages" s = channel_total dm_messages channel m
    ∧ summary_field "total_images" s = channel_total dm_images channel m
    ∧ summary_field "total_scrapes" s
      = channel_total dm_scraping_count channel m
    ∧ summary_field "days_scraped" s = len (days_of channel m)
    ∧ ∀ day l, day ∈ map snd (days_of channel m) →
               dm_last_scraped day = Some l →
               ∃ best, dict_get "last_scraped" s = Some (PStr best)
                       ∧ String.le l best.
Proof.
  intros Hst. apply stamped_Forall in Hst.
  unfold get_channel_summary, channel_total, days_of in *.
  destruct (assoc_get channel m) as [days|]; cbn [default] in *.
  - assert (Forall is_Some (map dm_last_scraped (map snd days))) as Hsome.
    { rewrite !Forall_fmap. eapply Forall_impl; [exact Hst|].
      intros entry Hentry. exact Hentry. }
    destruct (map dm_last_scraped (map snd days)) as [|first rest] eqn:Hlasts.
    + eexists. split; [reflexivity|]. unfold summary_field. simpl.
      repeat split; try done. intros day l Hday.
      destruct days; [by apply elem_of_nil in Hday|done].
    + apply Forall_cons in Hsome as [[a ->] Hrest].
      destruct (max_from_some a rest Hrest) as (b & Hrun & Hab & Hall).
      rewrite Hrun. eexists. split; [reflexivity|]. unfold summary_field.
      simpl. repeat split; try done. intros day l Hday Hl.
      exists b. split; [done|].
      assert (Some l ∈ Some a :: rest) as Hin.
      { rewrite <- Hlasts, <- Hl. apply list_elem_of_fmap. by exists day. }
      apply elem_of_cons in Hin as [[= ->]|Hin]; [done|].
      rewrite Forall_forall in Hall. by apply (Hall _ Hin).
  - exists []. split; [done|]. unfold summary_field. simpl.
    repeat split; try done. intros day l Hday. by apply elem_of_nil in Hday.
Qed.

Lemma update_channel_metrics_step metrics_file channel message_count
    image_count m w :
  stamped channel m = true →
  ∃ m' w',
    update_channel_metrics metrics_file channel message_count image_count m w
    = (Return m', w')
    ∧ w_clock w' = w_clock w
    ∧ w_denied w' = w_denied w
    ∧ stamped channel m' = true
    ∧ channel_total dm_messages channel m'
      = channel_total dm_messages channel m + message_count
    ∧ channel_total dm_images channel m'
      = channel_total dm_images channel m + image_count
    ∧ channel_total dm_scraping_count channel m'
      = channel_total dm_scraping_count channel m + 1
    ∧ len (days_of channel m')
      = len (days_of channel m)
        + match assoc_get (strftime_date (w_clock w (w_tick w)))
                  (days_of channel m) with
          | Some _ => 0
          | None => 1
          end
    ∧ (∃ day, day ∈ map snd (days_of channel m')
              ∧ dm_last_scraped day
                = Some (isoformat (w_clock w (S (w_tick w)))))
    ∧ (∀ c, c ≠ channel → assoc_get c m' = assoc_get c m)
    ∧ (w_denied w metrics_file = false →
       w_fs w' !! metrics_file = Some (File (JsonText (metrics_doc m')))).
Proof.
  intros Hst.
  destruct (update_channel_metrics_run metrics_file channel message_count
              image_count m w) as (w' & Hrun & Hc & Hd & Hfile & _).
  cbv zeta in Hrun, Hfile.
  set (today := strftime_date (w_clock w (w_tick w))) in *.
  set (day := default (mk_day_metrics 0 0 None 0)
                (assoc_get today (days_of channel m))) in *.
  set (day' := mk_day_metrics (dm_messages day + message_count)
                 (dm_images day + image_count)
                 (Some (isoformat (w_clock w (S (w_tick w)))))
                 (dm_scraping_count day + 1)) in *.
  set (m' := assoc_set channel (assoc_set today day' (days_of channel m)) m)
    in *.
  assert (days_of channel m' = assoc_set today day' (days_of channel m))
    as Hdays by (unfold days_of at 1, m'; by rewrite assoc_get_set_eq).
  assert (∀ c, c ≠ channel → assoc_get c m' = assoc_get c m) as Hother.
  { intros c Hc'. unfold m'. by rewrite assoc_get_set_ne. }
  assert (∀ f : day_metrics → Z,
            channel_total f channel m'
            = channel_total f channel m + f day'
              - match assoc_get today (days_of channel m) with
                | Some old => f old
                | None => 0
                end) as Htotal.
  { intros f. unfold channel_total. rewrite Hdays. apply assoc_set_sum. }
  exists m', w'. split; [exact Hrun|]. split; [exact Hc|]. split; [exact Hd|].
  split.
  { apply stamped_Forall. rewrite Hdays.
    apply (assoc_set_Forall (fun day => is_Some (dm_last_scraped day)));
      [by apply stamped_Forall|by eexists]. }
  split; [|split; [|split; [|split; [|split; [|split; [exact Hother|exact Hfile]]]]]].
  - rewrite Htotal. subst day' day. simpl.
    destruct (assoc_get today (days_of channel m)); simpl; lia.
  - rewrite Htotal. subst day' day. simpl.
    destruct (assoc_get today (days_of channel m)); simpl; lia.
  - rewrite Htotal. subst day' day. simpl.
    destruct (assoc_get today (days_of channel m)); simpl; lia.
  - rewrite Hdays. unfold len. rewrite assoc_set_length.
    destruct (assoc_get today (days_of channel m)); lia.
  - exists day'. split; [|done]. rewrite Hdays. apply assoc_set_elem.
Qed.

Lemma load_metrics_saved (metrics_file : path) (m : metrics)
    (fs : gmap path node) :
  fs !! metrics_file = Some (File (JsonText (metrics_doc m))) →
  load_metrics metrics_file fs = Some m.
Proof.
  intros Hfile. unfold load_metrics, path_exists, read_json.
  rewrite Hfile. apply metrics_doc_inv.
Qed.

(** X17: one call of [update_channel_metrics] on metrics whose days all
    have their [last_scraped] (as they have after any update) never raises
    and adds exactly its counts to the summary of the channel:
    [total_messages] and [total_images] grow by the two counts,
    [total_scrapes] by one, [days_scraped] by one when the day is new, and
    [last_scraped] is not earlier than the time of the call; the summary of
    every other channel is unchanged.  When the metrics file can be written,
    a later [load_metrics] gives the updated metrics back. *)
Theorem update_channel_metrics_accounts metrics_file channel message_count
    image_count m w :
  stamped channel m = true →
  ∃ s s' m' w',
    get_channel_summary channel m = Return s
    ∧ update_channel_metrics metrics_file channel message_count image_count
        m w
      = (Return m', w')
    ∧ get_channel_summary channel m' = Return s'
    ∧ summary_field "total_messages" s'
      = summary_field "total_messages" s + message_count
    ∧ summary_field "total_images" s'
      = summary_field "total_images" s + image_count
    ∧ summary_field "total_scrapes" s' = summary_field "total_scrapes" s + 1
    ∧ summary_field "days_scraped" s ≤ summary_field "days_scraped" s'
      ≤ summary_field "days_scraped" s + 1
    ∧ (∃ best, dict_get "last_scraped" s' = Some (PStr best)
               ∧ String.le (isoformat (w_clock w (S (w_tick w)))) best)
    ∧ (∀ c, c ≠ channel →
            get_channel_summary c m' = get_channel_summary c m)
    ∧ (w_denied w metrics_file = false →
       load_metrics metrics_file (w_fs w') = Some m').
Proof.
  intros Hst.
  destruct (get_channel_summary_fields channel m Hst)
    as (s & Hs & Hm & Hi & Hn & Hd & _).
  destruct (update_channel_metrics_step metrics_file channel message_count
              image_count m w Hst)
    as (m' & w' & Hrun & _ & _ & Hst' & Hm' & Hi' & Hn' & Hd' & Hday & Hother
        & Hfile).
  destruct (get_channel_summary_fields channel m' Hst')
    as (s' & Hs' & Hsm & Hsi & Hsn & Hsd & Hlast).
  exists s, s', m', w'. split; [exact Hs|]. split; [exact Hrun|].
  split; [exact Hs'|]. split; [lia|]. split; [lia|]. split; [lia|].
  split.
  { rewrite Hsd, Hd, Hd'. destruct (assoc_get _ _); lia. }
  split.
  { destruct Hday as (day & Hin & Hstamp). exact (Hlast day _ Hin Hstamp). }
  split.
  { intros c Hc. unfold get_channel_summary. by rewrite Hother. }
  intros Hden. apply load_metrics_saved. by apply Hfile.
Qed.

Lemma sum_Z_cons x l : sum_Z (x :: l) = x + sum_Z l.
Proof. reflexivity. Qed.

Lemma update_all_run metrics_file calls :
  ∀ m w,
    (∀ c, stamped c m = true) →
    ∃ m' w',
      update_all metrics_file calls m w = (Return m', w')
      ∧ ∀ c,
          stamped c m' = true
          ∧ channel_total dm_messages c m'
            = channel_total dm_messages c m
              + sum_Z (map fst (calls_for c calls))
          ∧ channel_total dm_images c m'
            = channel_total dm_images c m
              + sum_Z (map snd (calls_for c calls))
          ∧ channel_total dm_scraping_count c m'
            = channel_total dm_scraping_count c m + len (calls_for c calls)
          ∧ len (days_of c m')
            ≤ len (days_of c m) + len (calls_for c calls).
Proof.
  induction calls as [|[[channel mc] ic] calls IH]; intros m w Hst.
  - exists m, w. split; [done|]. intros c. unfold len. simpl.
    split; [apply Hst|]. lia.
  - cbn [update_all].
    destruct (update_channel_metrics_step metrics_file channel mc ic m w
                (Hst channel))
      as (m1 & w1 & Hrun & _ & _ & Hst1 & Hm1 & Hi1 & Hn1 & Hd1 & _ & Hother
          & _).
    assert (∀ c, c ≠ channel → days_of c m1 = days_of c m) as Hdays
      by (intros c Hc; unfold days_of; by rewrite Hother).
    assert (∀ c, stamped c m1 = true) as Hall.
    { intros c. destruct (decide (c = channel)) as [->|Hne]; [done|].
      unfold stamped. rewrite Hdays by done. apply Hst. }
    destruct (IH m1 w1 Hall) as (m' & w' & Hrest & Hsum).
    exists m', w'. unfold bind. rewrite Hrun. split; [exact Hrest|].
    intros c. destruct (Hsum c) as (Hs & Hm & Hi & Hn & Hd).
    split; [exact Hs|]. unfold calls_for. cbn [omap list_omap fst snd].
    fold (calls_for c calls).
    destruct (String.eqb_spec channel c) as [->|Hne].
    + cbn [map fst snd]. rewrite !sum_Z_cons. unfold len in *.
      cbn [length]. destruct (assoc_get _ _); lia.
    + unfold channel_total in *. rewrite Hdays in * by done.
      unfold len in *. lia.
Qed.

(** X18: the metrics add up.  Starting from no metrics, after any sequence
    of calls of [update_channel_metrics] (none of which raises, whether or
    not the file can be written), the summary of a channel reports as
    [total_messages] and [total_images] the sums of the counts passed for
    that channel, and as [total_scrapes] the number of calls for it;
    [days_scraped] is at most that number. *)
Theorem update_all_accounts metrics_file calls w :
  ∃ m' w',
    update_all metrics_file calls [] w = (Return m', w')
    ∧ ∀ channel,
        ∃ s,
          get_channel_summary channel m' = Return s
          ∧ summary_field "total_messages" s
            = sum_Z (map fst (calls_for channel calls))
          ∧ summary_field "total_images" s
            = sum_Z (map snd (calls_for channel calls))
          ∧ summary_field "total_scrapes" s
            = len (calls_for channel calls)
          ∧ summary_field "days_scraped" s ≤ len (calls_for channel calls).
Proof.
  destruct (update_all_run metrics_file calls [] w (fun c => eq_refl))
    as (m' & w' & Hrun & Hsum).
  exists m', w'. split; [exact Hrun|]. intros channel.
  destruct (Hsum channel) as (Hst & Hm & Hi & Hn & Hd).
  destruct (get_channel_summary_fields channel m' Hst)
    as (s & Hs & Hsm & Hsi & Hsn & Hsd & _).
  exists s. split; [exact Hs|]. unfold channel_total, days_of, len in *.
  simpl in Hm, Hi, Hn, Hd. repeat split; lia.
Qed.

(** Three runs on two days: the summary of [chemed], and the status of the
    scraper, in which a channel never scraped has an empty summary. *)
Example update_all_scenario :
  let m :=
    fst (update_all ["logs"; "scraping_metrics.json"]
           [("chemed", 120, 7); ("tikvahpharma", 40, 0); ("chemed", 30, 2)]
           [] (new_world noon)) in
  match m with
  | Return m =>
      get_channel_summary "chemed" m
      = Return [("total_messages", PInt 150); ("total_images", PInt 9);
                ("total_scrapes", PInt 2); ("days_scraped", PInt 1);
                ("last_scraped", PStr "2024-03-05T12:00:05")]
      ∧ get_scraping_status scraper0 m
        = Return
            [("configured_channels",
              PList [PStr "chemed"; PStr "lobelia4cosmetics";
                     PStr "tikvahpharma"]);
             ("channel_summaries",
              PDict [("chemed",
                      PDict [("total_messages", PInt 150);
                             ("total_images", PInt 9);
                             ("total_scrapes", PInt 2);
                             ("days_scraped", PInt 1);
                             ("last_scraped", PStr "2024-03-05T12:00:05")]);
                     ("lobelia4cosmetics", PDict []);
                     ("tikvahpharma",
                      PDict [("total_messages", PInt 40);
                             ("total_images", PInt 0);
                             ("total_scrapes", PInt 1);
                             ("days_scraped", PInt 1);
                             ("last_scraped", PStr "2024-03-05T12:00:03")])])]
  | Raise _ => False
  end.
Proof. vm_compute. split; reflexivity. Qed.

Lemma update_channel_metrics_accounts_witness :
  ∃ s' m' w',
    update_channel_metrics ["logs"; "scraping_metrics.json"] "chemed" 120 7
      yesterday_metrics (new_world noon)
    = (Return m', w')
    ∧ get_channel_summary "chemed" m' = Return s'
    ∧ summary_field "total_messages" s' = 130
    ∧ summary_field "total_scrapes" s' = 2
    ∧ load_metrics ["logs"; "scraping_metrics.json"] (w_fs w') = Some m'.
Proof.
  destruct (update_channel_metrics_accounts ["logs"; "scraping_metrics.json"]
              "chemed" 120 7 yesterday_metrics (new_world noon) eq_refl)
    as (s & s' & m' & w' & Hs & Hrun & Hs' & Hm & _ & Hn & _ & _ & _ & Hload).
  injection Hs as <-.
  exists s', m', w'. split; [exact Hrun|]. split; [exact Hs'|].
  split; [exact Hm|]. split; [exact Hn|]. apply Hload. reflexivity.
Defined.

(** *** [get_data_lake_stats] *)

Lemma assoc_set_sum_id k n (d : list (string * Z)) :
  sum_Z (map snd (assoc_set k (default 0 (assoc_get k d) + n) d))
  = sum_Z (map snd d) + n.
Proof.
  pose proof (assoc_set_sum (fun x : Z => x) k
                (default 0 (assoc_get k d) + n) d) as H.
  rewrite !map_id in H. rewrite H.
  destruct (assoc_get k d); simpl; lia.
Qed.

Lemma scan_files_total fs name files :
  ∀ st, fst st = sum_Z (map snd (snd st)) →
        fst (scan_files fs name files st)
        = sum_Z (map snd (snd (scan_files fs name files st))).
Proof.
  unfold scan_files. induction files as [|p files IH]; intros st Hst; [done|].
  cbn [fold_left]. apply IH.
  destruct (counted_messages fs p) as [n|]; [|done].
  cbn [fst snd]. rewrite assoc_set_sum_id. lia.
Qed.

Lemma scan_channel_dir_total fs date_dir name st :
  fst st = sum_Z (map snd (snd st)) →
  fst (scan_channel_dir fs date_dir name st)
  = sum_Z (map snd (snd (scan_channel_dir fs date_dir name st))).
Proof.
  intros Hst. unfold scan_channel_dir.
  destruct (fs !! (date_dir ++ [name])) as [[|f]|]; try done.
  apply scan_files_total.
  destruct (assoc_get name (snd st)) eqn:Hget; [done|].
  cbn [fst snd].
  pose proof (assoc_set_sum_id name 0 (snd st)) as H.
  rewrite Hget in H. change (default 0 None + 0) with 0 in H.
  rewrite H. lia.
Qed.

Lemma scan_date_dirs_run fs root names :
  ∀ st,
    fst st = sum_Z (map snd (snd st)) →
    if forallb (fun name =>
                  match fs !! (root ++ [name]) with
                  | Some Dir => true
                  | _ => false
                  end) names
    then ∃ st', scan_date_dirs fs root names st = Return st'
                ∧ fst st' = sum_Z (map snd (snd st'))
    else ∃ msg, scan_date_dirs fs root names st
                = Raise (PyError "NotADirectoryError" msg).
Proof.
  induction names as [|name names IH]; intros st Hst.
  - exists st. done.
  - cbn [forallb scan_date_dirs].
    destruct (fs !! (root ++ [name])) as [[|f]|]; cbn [andb];
      [|by eexists..].
    apply IH. clear IH.
    induction (listdir (root ++ [name]) fs) as [|n l IHl] in st, Hst |- *;
      [done|].
    cbn [fold_left]. apply IHl. by apply scan_channel_dir_total.
Qed.

(** X19: when every entry of [telegram_messages] is a directory,
    [get_data_lake_stats] returns; [total_messages] is the sum of the
    [total_messages] of the entries of [channel_stats] and [total_channels]
    is their number.  [total_images] and [total_documents] are 0 whatever the
    lake holds, and the [date_range] of every channel is left at
    [earliest: None, latest: None]: nothing in the scan ever sets them.
    When an entry of [telegram_messages] is a file, [iterdir] raises
    [NotADirectoryError] and no statistics are returned. *)
Theorem get_data_lake_stats_totals st_size self fs :
  (partitions_are_dirs self fs = true →
   ∃ stats channel_stats,
     get_data_lake_stats st_size self fs = Return stats
     ∧ dict_get "channel_stats" stats = Some (PDict channel_stats)
     ∧ dict_get "total_messages" stats
       = Some (PInt (sum_Z (map (fun entry => channel_messages (snd entry))
                              channel_stats)))
     ∧ dict_get "total_channels" stats = Some (PInt (len channel_stats))
     ∧ dict_get "total_images" stats = Some (PInt 0)
     ∧ dict_get "total_documents" stats = Some (PInt 0)
     ∧ Forall (fun entry =>
                 ∃ n, snd entry
                      = PDict [("total_messages", PInt n);
                               ("date_range",
                                PDict [("earliest", PNone);
                                       ("latest", PNone)])])
         channel_stats)
  ∧ (partitions_are_dirs self fs = false →
     ∃ msg, get_data_lake_stats st_size self fs
            = Raise (PyError "NotADirectoryError" msg)).
Proof.
  pose proof (scan_date_dirs_run fs (messages_root self)
                (listdir (messages_root self) fs) (0, []) eq_refl) as Hrun.
  unfold partitions_are_dirs, get_data_lake_stats. split; intros Hdirs;
    rewrite Hdirs in Hrun.
  - destruct Hrun as ([total channel_stats] & Hrun & Htotal).
    rewrite Hrun. cbn [fst snd] in Htotal. eexists _, _.
    split; [reflexivity|]. split; [reflexivity|].
    split; [|split; [|split; [reflexivity|split; [reflexivity|]]]].
    + cbn [dict_get String.eqb Ascii.eqb Bool.eqb].
      do 2 f_equal. rewrite Htotal. clear.
      induction channel_stats as [|[c n] l IH]; [done|].
      cbn [map snd fst]. rewrite !sum_Z_cons, IH. done.
    + cbn [dict_get String.eqb Ascii.eqb Bool.eqb].
      unfold len. by rewrite length_map.
    + apply Forall_fmap. apply Forall_forall. intros [c n] _. by exists n.
  - destruct Hrun as [msg Hrun]. rewrite Hrun. by exists msg.
Qed.

Lemma aged_lake_partitions_are_dirs :
  partitions_are_dirs lake0 (w_fs aged_lake) = true.
Proof. vm_compute. reflexivity. Qed.

Lemma get_data_lake_stats_totals_witness :
  ∃ stats channel_stats,
    get_data_lake_stats (fun _ => 1) lake0 (w_fs aged_lake) = Return stats
    ∧ dict_get "channel_stats" stats = Some (PDict channel_stats)
    ∧ dict_get "total_messages" stats
      = Some (PInt (sum_Z (map (fun entry => channel_messages (snd entry))
                             channel_stats)))
    ∧ dict_get "total_images" stats = Some (PInt 0).
Proof.
  destruct (proj1 (get_data_lake_stats_totals (fun _ => 1) lake0
                     (w_fs aged_lake)) aged_lake_partitions_are_dirs)
    as (stats & channel_stats & Hrun & Hc & Hm & _ & Hi & _).
  exists stats, channel_stats.
  split; [exact Hrun|]. split; [exact Hc|]. split; [exact Hm|exact Hi].
Defined.

(** The lake with a message in each of two partitions, and the same lake
    with a stray file beside the partitions. *)
Example get_data_lake_stats_scenario :
  let stray :=
    <[messages_root lake0 ++ ["README.txt"] := File Garbage]>
      (w_fs aged_lake) in
  match get_data_lake_stats (fun _ => 1) lake0 (w_fs aged_lake) with
  | Return stats =>
      dict_get "total_channels" stats = Some (PInt 2)
      ∧ dict_get "total_messages" stats = Some (PInt 2)
      ∧ dict_get "date_range" stats
        = Some (PDict [("earliest", PStr "2023-11-06");
                       ("latest", PStr "2024-02-04")])
      ∧ dict_get "storage_size" stats
        = Some (PDict [("raw_messages", PInt 4); ("raw_images", PInt 0);
                       ("raw_documents", PInt 0)])
  | Raise _ => False
  end
  ∧ get_data_lake_stats (fun _ => 1) lake0 stray
    = Raise (PyError "NotADirectoryError"
               "[Errno 20] Not a directory: 'data/raw/telegram_messages/README.txt'").
Proof. vm_compute. repeat split; reflexivity. Qed.

(** *** Partition names *)

Lemma month_days_ok :
  forallb (month_day_ok false) (seqZ 0 365) = true
  ∧ forallb (month_day_ok true) (seqZ 0 365) = true.
Proof. split; vm_compute; reflexivity. Qed.

Lemma pretty_N_char_digit n :
  (n < 10)%N → digit_of (pretty_N_char n) = Some (Z.of_N n).
Proof.
  intros Hn.
  assert (n = 0 ∨ n = 1 ∨ n = 2 ∨ n = 3 ∨ n = 4 ∨ n = 5 ∨ n = 6 ∨ n = 7
          ∨ n = 8 ∨ n = 9)%N as H by lia.
  repeat (destruct H as [->|H]; [reflexivity|]). subst n. reflexivity.
Qed.

Lemma pretty_N_go_digit x s :
  (0 < x < 10)%N → pretty_N_go x s = String (pretty_N_char x) s.
Proof.
  intros Hx. rewrite pretty_N_go_step by lia.
  rewrite N.div_small, N.mod_small by lia. apply pretty_N_go_0.
Qed.

(** The decimal digits of a number below 10000. *)
Lemma pretty_N_go_4 x :
  (0 < x < 10000)%N →
  let c n := pretty_N_char n in
  pretty_N_go x ""
  = (if x <? 10 then String (c x) ""
     else if x <? 100 then String (c (x / 10)) (String (c (x mod 10)) "")
     else if x <? 1000 then
       String (c (x / 100))
         (String (c (x / 10 mod 10)) (String (c (x mod 10)) ""))
     else
       String (c (x / 1000))
         (String (c (x / 100 mod 10))
            (String (c (x / 10 mod 10)) (String (c (x mod 10)) ""))))%N.
Proof.
  intros Hx c.
  assert (∀ a b : N, (a / 10 / b = a / (10 * b))%N) as Hdiv
    by (intros a b; apply N.Div0.div_div).
  destruct (N.ltb_spec x 10); [apply pretty_N_go_digit; lia|].
  rewrite pretty_N_go_step by lia.
  assert (0 < x / 10)%N by (apply N.div_str_pos; lia).
  assert (x / 10 < 1000)%N by (apply N.Div0.div_lt_upper_bound; lia).
  destruct (N.ltb_spec x 100).
  { rewrite pretty_N_go_digit; [reflexivity|].
    split; [assumption|]. apply N.Div0.div_lt_upper_bound; lia. }
  rewrite pretty_N_go_step by lia. rewrite Hdiv. change (10 * 10)%N with 100%N.
  assert (0 < x / 100)%N by (apply N.div_str_pos; lia).
  destruct (N.ltb_spec x 1000).
  { rewrite pretty_N_go_digit; [reflexivity|].
    split; [assumption|]. apply N.Div0.div_lt_upper_bound; lia. }
  rewrite pretty_N_go_step by lia. rewrite N.Div0.div_div.
  change (100 * 10)%N with 1000%N.
  rewrite pretty_N_go_digit; [reflexivity|].
  split; [apply N.div_str_pos; lia|].
  apply N.Div0.div_lt_upper_bound; lia.
Qed.

Lemma parse_Y_zfill y rest :
  1 ≤ y ≤ 9999 →
  parse_Y (list_ascii_of_string (zfill 4 y) ++ rest) = Some (y, rest).
Proof.
  intros Hy. destruct y as [|p|p]; try lia.
  unfold zfill. change (pretty (Z.pos p)) with (pretty_N_go (N.pos p) "").
  set (x := N.pos p). assert (Z.of_N x = Z.pos p) as Hx by reflexivity.
  assert (0 < x < 10000)%N as Hrange by lia.
  rewrite (pretty_N_go_4 x Hrange). cbv zeta.
  assert (∀ n, (n < 10)%N →
               digit_of (pretty_N_char n) = Some (Z.of_N n)) as Hdigit
    by apply pretty_N_char_digit.
  rewrite <- Hx. clearbody x. clear Hx p Hy.
  destruct (N.ltb_spec x 10); [|destruct (N.ltb_spec x 100);
    [|destruct (N.ltb_spec x 1000)]];
    cbn [String.length Nat.sub zfill_go list_ascii_of_string app parse_Y];
    change (digit_of "0") with (Some 0);
    rewrite ?Hdigit
      by (try apply N.mod_lt; try apply N.Div0.div_lt_upper_bound; lia);
    do 2 f_equal; rewrite ?N2Z.inj_mod, ?N2Z.inj_div;
    change (Z.of_N 10) with 10; change (Z.of_N 100) with 100;
    change (Z.of_N 1000) with 1000;
    Z.div_mod_to_equations; lia.
Qed.

Lemma month_day_spec n leapyear :
  0 ≤ n < 365 →
  let '(m, d) := month_day n leapyear in
  1 ≤ m ≤ 12
  ∧ 1 ≤ d ≤ _DAYS_IN_MONTH m + (if (m =? 2) && leapyear then 1 else 0)
  ∧ _DAYS_BEFORE_MONTH m + (if (2 <? m) && leapyear then 1 else 0) + d
    = n + 1.
Proof.
  intros Hn. destruct month_days_ok as [Hcommon Hleap].
  assert (month_day_ok leapyear n = true) as Hok.
  { destruct leapyear.
    - rewrite forallb_forall in Hleap. apply Hleap.
      apply list_elem_of_In, elem_of_seqZ. lia.
    - rewrite forallb_forall in Hcommon. apply Hcommon.
      apply list_elem_of_In, elem_of_seqZ. lia. }
  unfold month_day_ok in Hok. destruct (month_day n leapyear) as [m d].
  repeat (apply andb_prop in Hok as [Hok ?]).
  repeat match goal with
         | H : (_ <=? _) = true |- _ => apply Z.leb_le in H
         | H : (_ =? _) = true |- _ => apply Z.eqb_eq in H
         end.
  lia.
Qed.

Lemma ord2ymd_month_day n0 :
  let n := n0 - 1 in
  let n400 := n / 146097 in
  let r400 := n mod 146097 in
  let n100 := r400 / 36524 in
  let r100 := r400 mod 36524 in
  let n4 := r100 / 1461 in
  let r4 := r100 mod 1461 in
  let n1 := r4 / 365 in
  let r1 := r4 mod 365 in
  let year := n400 * 400 + 1 + n100 * 100 + n4 * 4 + n1 in
  _ord2ymd n0
  = if (n1 =? 4) || (n100 =? 4) then (year - 1, 12, 31)
    else
      let leapyear := (n1 =? 3) && (negb (n4 =? 24) || (n100 =? 3)) in
      (year, fst (month_day r1 leapyear), snd (month_day r1 leapyear)).
Proof.
  cbv zeta. unfold _ord2ymd, month_day. cbv zeta.
  destruct (_ || _); [reflexivity|].
  destruct (_ <? _); reflexivity.
Qed.

(** [_ord2ymd] gives a date of the calendar, of which [_ymd2ord] gives the
    ordinal back. *)
Lemma ord2ymd_spec n0 :
  1 ≤ n0 ≤ max_ordinal →
  let '(y, m, d) := _ord2ymd n0 in
  1 ≤ y ≤ 9999 ∧ 1 ≤ m ≤ 12 ∧ 1 ≤ d ≤ _days_in_month y m
  ∧ _ymd2ord y m d = n0.
Proof.
  intros Hn0. unfold max_ordinal in Hn0. rewrite ord2ymd_month_day. cbv zeta.
  set (n := n0 - 1). set (n400 := n / 146097). set (r400 := n mod 146097).
  set (n100 := r400 / 36524). set (r100 := r400 mod 36524).
  set (n4 := r100 / 1461). set (r4 := r100 mod 1461).
  set (n1 := r4 / 365). set (r1 := r4 mod 365).
  assert (n = 146097 * n400 + r400 ∧ 0 ≤ r400 < 146097 ∧ 0 ≤ n400 ≤ 24)
    as (En & Hr400 & Hn400)
    by (subst n400 r400 n; Z.div_mod_to_equations; lia).
  assert (r400 = 36524 * n100 + r100 ∧ 0 ≤ r100 < 36524 ∧ 0 ≤ n100 ≤ 4)
    as (E400 & Hr100 & Hn100)
    by (subst n100 r100; Z.div_mod_to_equations; lia).
  assert (r100 = 1461 * n4 + r4 ∧ 0 ≤ r4 < 1461 ∧ 0 ≤ n4 ≤ 24)
    as (E100 & Hr4 & Hn4)
    by (subst n4 r4; Z.div_mod_to_equations; lia).
  assert (r4 = 365 * n1 + r1 ∧ 0 ≤ r1 < 365 ∧ 0 ≤ n1 ≤ 4)
    as (E4 & Hr1 & Hn1)
    by (subst n1 r1; Z.div_mod_to_equations; lia).
  clearbody n400 r400 n100 r100 n4 r4 n1 r1.
  set (year := n400 * 400 + 1 + n100 * 100 + n4 * 4 + n1).
  destruct ((n1 =? 4) || (n100 =? 4)) eqn:Hspecial.
  - unfold _days_in_month, _ymd2ord, _days_before_year, _days_before_month,
      _is_leap.
    change (12 =? 2) with false. change (2 <? 12) with true.
    cbn [andb _DAYS_IN_MONTH _DAYS_BEFORE_MONTH].
    destruct (Z.eq_dec n100 4) as [E|Hn100'].
    + assert (year - 1 = 400 * (n400 + 1) ∧ n = 146097 * n400 + 146096)
        as (Eyear & En') by (subst year; lia).
      assert ((year - 1) mod 4 = 0) as -> by (Z.div_mod_to_equations; lia).
      assert ((year - 1) mod 400 = 0) as -> by (Z.div_mod_to_equations; lia).
      rewrite orb_true_r. cbn [Z.eqb andb]. subst n.
      split; [lia|]. split; [lia|]. split; [lia|].
      Z.div_mod_to_equations. lia.
    + assert (n1 = 4) as En1.
      { apply orb_true_iff in Hspecial as [H|H]; apply Z.eqb_eq in H; lia. }
      assert (year - 1 = 4 * (100 * n400 + 25 * n100 + n4 + 1)
              ∧ n4 ≤ 23 ∧ n100 ≤ 3
              ∧ n = 146097 * n400 + 36524 * n100 + 1461 * n4 + 1460)
        as (Eyear & Hn4' & Hn100'' & En') by (subst year; lia).
      assert ((year - 1) mod 4 = 0) as -> by (Z.div_mod_to_equations; lia).
      assert ((year - 1) mod 100 ≠ 0) as Hne
        by (Z.div_mod_to_equations; lia).
      apply Z.eqb_neq in Hne. rewrite Hne. cbn [Z.eqb negb orb andb].
      subst n. split; [lia|]. split; [lia|]. split; [lia|].
      Z.div_mod_to_equations. lia.
  - apply orb_false_iff in Hspecial as [Hn1' Hn100'].
    apply Z.eqb_neq in Hn1', Hn100'.
    set (leapyear := (n1 =? 3) && (negb (n4 =? 24) || (n100 =? 3))).
    pose proof (month_day_spec r1 leapyear Hr1) as Hmd.
    destruct (month_day r1 leapyear) as [m d]. cbn [fst snd].
    destruct Hmd as (Hm & Hd & Hsum).
    assert (_is_leap year = leapyear) as Hleap.
    { unfold _is_leap, leapyear, year.
      destruct (Z.eqb_spec n1 3) as [->|Hn13].
      - assert ((n400 * 400 + 1 + n100 * 100 + n4 * 4 + 3) mod 4 = 0) as ->
          by (Z.div_mod_to_equations; lia).
        cbn [Z.eqb andb]. destruct (Z.eqb_spec n4 24) as [->|Hn424].
        + assert ((n400 * 400 + 1 + n100 * 100 + 24 * 4 + 3) mod 100 = 0)
            as -> by (Z.div_mod_to_equations; lia).
          cbn [Z.eqb negb orb]. destruct (Z.eqb_spec n100 3) as [->|Hn1003].
          * apply Z.eqb_eq. Z.div_mod_to_equations. lia.
          * apply Z.eqb_neq. Z.div_mod_to_equations. lia.
        + assert ((n400 * 400 + 1 + n100 * 100 + n4 * 4 + 3) mod 100 ≠ 0)
            as Hne by (Z.div_mod_to_equations; lia).
          apply Z.eqb_neq in Hne. by rewrite Hne.
      - assert ((n400 * 400 + 1 + n100 * 100 + n4 * 4 + n1) mod 4 ≠ 0)
          as Hne by (Z.div_mod_to_equations; lia).
        apply Z.eqb_neq in Hne. by rewrite Hne. }
    assert (_days_before_year year = n - r1) as Hdby.
    { unfold _days_before_year, year. Z.div_mod_to_equations. lia. }
    unfold _days_in_month, _ymd2ord, _days_before_month.
    rewrite Hleap, Hdby. subst n. split; [subst year; lia|].
    split; [lia|]. split; [|lia].
    destruct ((m =? 2) && leapyear) eqn:Hfeb; [|lia].
    apply andb_prop in Hfeb as [Hfeb _]. apply Z.eqb_eq in Hfeb. subst m.
    simpl in Hd. lia.
Qed.

Lemma parse_m_zfill m rest :
  1 ≤ m ≤ 12 →
  parse_m (list_ascii_of_string (zfill 2 m) ++ "-"%char :: rest)
  = Some (m, "-"%char :: rest).
Proof.
  intros Hm. destruct m as [|p|p]; try lia.
  do 4 (try destruct p as [p|p|]); try lia; reflexivity.
Qed.

Lemma parse_d_zfill d :
  1 ≤ d ≤ 31 →
  parse_d (list_ascii_of_string (zfill 2 d)) = Some (d, []).
Proof.
  intros Hd. destruct d as [|p|p]; try lia.
  do 5 (try destruct p as [p|p|]); try lia; reflexivity.
Qed.

Lemma days_in_month_le_31 y m : _days_in_month y m ≤ 31.
Proof.
  unfold _days_in_month. destruct (_ && _); [lia|].
  unfold _DAYS_IN_MONTH. repeat case_match; lia.
Qed.

(** The name [strftime("%Y-%m-%d")] gives a day, [strptime] reads as the
    midnight of that day. *)
Lemma strptime_strftime d :
  1 ≤ dt_ordinal d ≤ max_ordinal →
  strptime_date (strftime_date d) = Return (mk_dt (dt_ordinal d) 0 0 0 0).
Proof.
  intros Hord. pose proof (ord2ymd_spec (dt_ordinal d) Hord) as Hspec.
  unfold strftime_date. destruct (_ord2ymd (dt_ordinal d)) as [[y m] dd].
  destruct Hspec as (Hy & Hm & Hd & Hback).
  pose proof (days_in_month_le_31 y m) as H31.
  unfold strptime_date. rewrite !list_ascii_of_string_app.
  change (list_ascii_of_string "-") with ["-"%char]. cbn [app].
  rewrite parse_Y_zfill by done.
  cbn -[zfill parse_Y parse_m parse_d _days_in_month datetime_of Z.eqb Z.leb
        list_ascii_of_string].
  rewrite parse_m_zfill by done.
  cbn -[zfill parse_Y parse_m parse_d _days_in_month datetime_of Z.eqb Z.leb
        list_ascii_of_string].
  rewrite parse_d_zfill by lia.
  cbn -[zfill parse_Y parse_m parse_d _days_in_month datetime_of Z.eqb Z.leb
        list_ascii_of_string].
  rewrite (proj2 (Z.eqb_neq y 0)) by lia.
  rewrite (proj2 (Z.leb_le dd _)) by lia.
  unfold datetime_of. by rewrite Hback.
Qed.

Lemma ancestors_app (p q : path) : p ≠ [] → p ∈ ancestors (p ++ q).
Proof.
  induction p as [|c p IH]; [done|]. intros _. cbn [app ancestors].
  destruct p as [|c' p]; [left|]. right.
  apply list_elem_of_fmap. exists (c' :: p). split; [done|]. by apply IH.
Qed.



(** *** Messages without a date *)

Lemma date_keys_undated messages :
  forallb is_dict messages = true →
  existsb undated messages = true →
  date_keys messages
  = Raise (PyError "TypeError" "'<' not supported between instances").
Proof.
  induction messages as [|x messages IH]; [done|].
  cbn [forallb existsb]. intros Hdict Hundated.
  apply andb_prop in Hdict as [Hx Hdict].
  destruct x as [| | | | | |d]; try done. cbn [date_keys date_key].
  unfold undated in Hundated at 1. unfold dict_get_default.
  assert (∀ l : list pyval,
            forallb is_dict l = true →
            match date_keys l with
            | Return _ => True
            | Raise e =>
                e = PyError "TypeError" "'<' not supported between instances"
            end) as Hrest.
  { clear. induction l as [|y l IHl]; [done|]. cbn [forallb].
    intros H. apply andb_prop in H as [Hy Hl]. specialize (IHl Hl).
    destruct y as [| | | | | |d]; try done. cbn [date_keys date_key].
    destruct (dict_get_default "date" (PStr "") d);
      destruct (date_keys l); subst; done. }
  specialize (Hrest messages Hdict).
  destruct (dict_get "date" d) as [[| | |s| | |]|] eqn:Hdate;
    try (destruct (date_keys messages); subst; done).
  - rewrite IH by done. done.
  - rewrite IH by done. done.
Qed.

(** X21: [get_latest_messages] sorts what it loaded by the ['date'] of the
    messages.  When the files it reads hold at least two messages, all
    dicts, and among them one whose date is [None] (which is what
    [_process_message] stores for a message without date) the sort compares
    [None] with another key and the call raises [TypeError]: one undated
    message makes the latest messages of the channel unreadable. *)
Theorem get_latest_messages_raises_on_undated self channel limit w :
  let fs := w_fs w in
  let files := py_take limit (latest_message_files self channel fs) in
  let loaded := flat_map (file_items fs) files in
  forallb is_dict loaded = true →
  existsb undated loaded = true →
  (2 ≤ length loaded)%nat →
  ∃ w',
    get_latest_messages self channel limit w
    = (Raise (PyError "TypeError" "'<' not supported between instances"), w')
    ∧ w_fs w' = fs.
Proof.
  intros fs files loaded Hdict Hundated _.
  destruct (load_files_run channel "loading_latest_messages_from_" files [] w)
    as (w' & Hrun & Hfs).
  exists w'. split; [|exact Hfs].
  unfold get_latest_messages. unfold bind at 1. unfold get_world at 1.
  unfold bind at 1. fold fs. fold files. rewrite Hrun. cbn [app].
  fold loaded. unfold bind, lift, sort_by_date.
  by rewrite date_keys_undated.
Qed.

Lemma undated_lake_loaded :
  let fs := w_fs undated_lake in
  let loaded :=
    flat_map (file_items fs)
      (py_take 10 (latest_message_files lake0 "chemed" fs)) in
  forallb is_dict loaded = true
  ∧ existsb undated loaded = true
  ∧ length loaded = 2%nat.
Proof. vm_compute. repeat split; reflexivity. Qed.

Lemma get_latest_messages_raises_on_undated_witness :
  ∃ w',
    get_latest_messages lake0 "chemed" 10 undated_lake
    = (Raise (PyError "TypeError" "'<' not supported between instances"), w')
    ∧ w_fs w' = w_fs undated_lake.
Proof.
  destruct undated_lake_loaded as (Hdict & Hundated & Hlen).
  apply (get_latest_messages_raises_on_undated lake0 "chemed" 10
           undated_lake Hdict Hundated).
  rewrite Hlen. apply le_n.
Defined.

(** *** Two batches under one name *)

Lemma saved_partition_files (self : DataLakeManager)
    (channel date_str filename : string) (doc gz : file)
    (fs : gmap path node) :
  let channel_dir := messages_root self ++ [date_str; channel] in
  let file_path := channel_dir ++ [filename] in
  let compressed_path := channel_dir ++ [filename +:+ ".gz"] in
  is_batch_file filename = true →
  existsb (is_file fs) (ancestors channel_dir) = false →
  (∀ name, is_batch_file name = true → name ≠ filename →
           fs !! (channel_dir ++ [name]) = None) →
  partition_batch_files self channel
    (<[file_path := File doc]>
       (<[compressed_path := File gz]>
          (make_dirs (ancestors channel_dir) fs))) date_str
  = [file_path].
Proof.
  intros channel_dir file_path compressed_path Hname Hclear Hfresh.
  set (fs1 := <[file_path := File doc]> _).
  unfold partition_batch_files. fold channel_dir.
  assert (path_exists channel_dir fs1 = true) as ->.
  { unfold path_exists, fs1.
    rewrite lookup_insert_ne
      by (intros H; symmetry in H; by apply path_ne_child in H).
    rewrite lookup_insert_ne
      by (intros H; symmetry in H; by apply path_ne_child in H).
    rewrite (make_dirs_creates _ _ channel_dir); [done| |exact Hclear].
    apply ancestors_self. unfold channel_dir. by destruct (messages_root self). }
  rewrite (NoDup_only
             (filter (fun n => is_batch_file n = true)
                (listdir channel_dir fs1)) filename); [done| |].
  - apply NoDup_filter, NoDup_listdir.
  - intros name. rewrite list_elem_of_filter, elem_of_listdir. split.
    + intros [Hbatch [n Hn]]. unfold fs1 in Hn.
      destruct (decide (name = filename)) as [->|Hne]; [done|].
      rewrite lookup_insert_ne in Hn by (intros H; by simplify_list_eq).
      destruct (decide (name = filename +:+ ".gz")) as [->|Hne'].
      { by rewrite gz_is_not_batch_file in Hbatch. }
      rewrite lookup_insert_ne in Hn by (intros H; by simplify_list_eq).
      rewrite make_dirs_child, Hfresh in Hn; done.
    + intros ->. split; [exact Hname|].
      unfold fs1, file_path. rewrite lookup_insert_eq. by eexists.
Qed.

Lemma existsb_eq_in {A} (f g : A → bool) (l : list A) :
  (∀ x, x ∈ l → f x = g x) → existsb f l = existsb g l.
Proof.
  induction l as [|x l IH]; intros H; [done|]. cbn [existsb].
  rewrite (H x) by left. rewrite IH; [done|].
  intros y Hy. apply H. by right.
Qed.

Lemma is_file_insert_child (fs : gmap path node) (d : path)
    (name : string) (f : node) :
  existsb (is_file fs) (ancestors d) = false →
  existsb (is_file (<[d ++ [name] := f]> fs)) (ancestors d) = false.
Proof.
  intros H. rewrite <- H. apply existsb_eq_in. intros p Hp.
  unfold is_file. rewrite lookup_insert_ne; [done|].
  intros <-. apply ancestors_length in Hp.
  rewrite length_app in Hp. simpl in Hp. lia.
Qed.

Lemma is_file_make_dirs (fs : gmap path node) (ps qs : list path) :
  existsb (is_file fs) qs = false →
  existsb (is_file (make_dirs ps fs)) qs = false.
Proof.
  revert fs. induction ps as [|p ps IH]; intros fs H; [done|].
  cbn [make_dirs fold_left]. apply IH.
  destruct (fs !! p) eqn:Hp; [done|].
  rewrite <- H. apply existsb_eq_in. intros q _. by apply insert_dir_is_file.
Qed.

(** X22: the name of a batch file is made of the second of the clock and
    the number of messages.  Two batches of the same size that
    [save_messages] stores for the same date and channel within one second
    get the same name: both calls return the same path, the second batch
    replaces the first in both copies, and the partition holds one batch
    file, so that the first batch is lost. *)
Theorem save_messages_same_second_overwrites
    md5_hexdigest py_repr self channel batch1 batch2 date w :
  let tick2 := (S (w_tick w) + length batch1)%nat in
  let date_str := strftime_date date in
  let channel_dir := messages_root self ++ [date_str; channel] in
  let filename :=
    batch_filename (strftime_stamp (w_clock w (w_tick w))) (length batch1) in
  let file_path := channel_dir ++ [filename] in
  let compressed_path := channel_dir ++ [filename +:+ ".gz"] in
  let doc2 :=
    PList (map PDict
             (enriched_from md5_hexdigest py_repr channel date_str
                (path_str file_path) (w_clock w) (S tick2) batch2)) in
  length batch1 = length batch2 →
  strftime_stamp (w_clock w tick2) = strftime_stamp (w_clock w (w_tick w)) →
  w_denied w channel_dir = false →
  w_denied w file_path = false →
  w_denied w compressed_path = false →
  existsb (is_file (w_fs w)) (ancestors channel_dir) = false →
  forallb json_serializable (map PDict batch1) = true →
  forallb json_serializable (map PDict batch2) = true →
  (∀ name, is_batch_file name = true →
           w_fs w !! (channel_dir ++ [name]) = None) →
  ∃ w',
    (first <- save_messages md5_hexdigest py_repr self channel batch1
                (Some date) ;;
     second <- save_messages md5_hexdigest py_repr self channel batch2
                 (Some date) ;;
     ret (first, second)) w
    = (Return (path_str file_path, path_str file_path), w')
    ∧ read_json file_path (w_fs w') = Return doc2
    ∧ read_gzip_json compressed_path (w_fs w') = Return doc2
    ∧ partition_batch_files self channel (w_fs w') date_str = [file_path].
Proof.
  intros tick2 date_str channel_dir filename file_path compressed_path doc2
    Hlen Hstamp Hdir Hfile Hgz Hclear Hser1 Hser2 Hfresh.
  pose proof (save_messages_run md5_hexdigest py_repr self channel batch1
                (Some date) w Hdir Hfile Hgz Hclear Hser1) as Hsave1.
  cbv zeta in Hsave1. cbn [default] in Hsave1.
  fold date_str channel_dir filename file_path compressed_path in Hsave1.
  match type of Hsave1 with
  | _ = (_, mk_world _ _ ?fs _ _) => set (fs1 := fs) in *
  end.
  match type of Hsave1 with
  | _ = (_, ?w0) => set (w1 := w0) in *
  end.
  assert (existsb (is_file fs1) (ancestors channel_dir) = false) as Hclear1.
  { unfold fs1, file_path, compressed_path.
    apply is_file_insert_child, is_file_insert_child, is_file_make_dirs.
    exact Hclear. }
  assert (batch_filename (strftime_stamp (w_clock w1 (w_tick w1)))
            (length batch2) = filename) as Hname.
  { unfold filename. change (w_clock w1 (w_tick w1)) with (w_clock w tick2).
    by rewrite Hstamp, Hlen. }
  pose proof (save_messages_run md5_hexdigest py_repr self channel batch2
                (Some date) w1) as Hsave2.
  cbv zeta in Hsave2. cbn [default] in Hsave2.
  fold date_str channel_dir in Hsave2. rewrite Hname in Hsave2.
  fold file_path compressed_path in Hsave2.
  specialize (Hsave2 Hdir Hfile Hgz Hclear1 Hser2).
  change (w_fs w1) with fs1 in Hsave2.
  change (w_clock w1) with (w_clock w) in Hsave2.
  change (w_tick w1) with tick2 in Hsave2. fold doc2 in Hsave2.
  eexists. split; [|split; [|split]].
  - unfold bind at 1. rewrite Hsave1. unfold bind at 1. rewrite Hsave2.
    reflexivity.
  - cbn [w_fs]. unfold read_json. by rewrite lookup_insert_eq.
  - cbn [w_fs]. unfold read_gzip_json.
    rewrite lookup_insert_ne
      by (intros H; apply app_inv_head in H; injection H as H;
          by apply str_app_gz_ne in H).
    by rewrite lookup_insert_eq.
  - cbn [w_fs]. apply saved_partition_files;
      [apply batch_filename_is_batch_file|exact Hclear1|].
    intros name Hbatch Hne. unfold fs1.
    rewrite lookup_insert_ne by (intros H; by simplify_list_eq).
    rewrite lookup_insert_ne.
    + rewrite make_dirs_child. by apply Hfresh.
    + intros H. apply app_inv_head in H. injection H as <-.
      by rewrite gz_is_not_batch_file in Hbatch.
Qed.

Lemma save_messages_same_second_overwrites_witness :
  ∃ w',
    (first <- save_messages toy_md5 toy_repr lake0 "chemed" [msg1]
                (Some new_year) ;;
     second <- save_messages toy_md5 toy_repr lake0 "chemed" [msg2]
                 (Some new_year) ;;
     ret (first, second))
      (mk_world (fun _ => noon) 0 ∅ (fun _ => false) [])
    = (Return ("data/raw/telegram_messages/2024-01-01/chemed/messages_20240305_120000_1.json",
               "data/raw/telegram_messages/2024-01-01/chemed/messages_20240305_120000_1.json"),
       w')
    ∧ partition_batch_files lake0 "chemed" (w_fs w') "2024-01-01"
      = [new_year_dir ++ ["messages_20240305_120000_1.json"]].
Proof.
  destruct (save_messages_same_second_overwrites toy_md5 toy_repr lake0
              "chemed" [msg1] [msg2] new_year
              (mk_world (fun _ => noon) 0 ∅ (fun _ => false) []))
    as (w' & Hrun & _ & _ & Hfiles); try reflexivity.
  exists w'. split; [exact Hrun|exact Hfiles].
Defined.
